(** * s1cli: the SentinelOne provisioning client

    A shallow embedding of package [internal/api] (the [S1Client] and its
    models) and of the two error constructors of [internal/errors] it
    uses, together with the properties of account and user reconciliation.

    The client is a sequential program whose only effects are the HTTP
    calls it makes through resty, the clock, the random source and the
    logger.  It is embedded as a state-and-error monad over a [World] that
    records every request handed to the transport, in order, and every
    message handed to the logger.  What the Go standard library and resty
    compute (parsing durations and timestamps, decoding JSON bytes,
    executing a request) is not code of this repository: it is the
    interface [GoRuntime], over which every definition and theorem is
    generic.  A scripted transport ([Fake]) instantiates the interface for
    the concrete runs. *)

From Stdlib Require Import String Ascii List ZArith Lia Bool.
From Stdlib Require Import DecimalString.
Import ListNotations.
Local Open Scope Z_scope.
Local Open Scope list_scope.
Local Open Scope string_scope.

Set Implicit Arguments.
Set Warnings "-register-all".

(** ** Values returned by library calls *)

(** A Go [error] value, identified with the text of its [Error()]. *)
Definition goerror := string.

(** The pair [(value, error)] a library call returns: [err e] when the
    error is non-nil, [ok v] otherwise. *)
Inductive Result (A : Type) : Type :=
| ok (v : A)
| err (e : goerror).
Arguments ok {A} v.
Arguments err {A} e.

(** ** JSON request bodies ([map[string]any]) *)

Inductive JSON : Type :=
| JNull
| JBool (b : bool)
| JNum (n : Z)
| JStr (s : string)
| JArr (l : list JSON)
| JObj (fields : list (string * JSON)).

(** Lookup of a key in an association list keyed by strings. *)
Fixpoint assoc {A : Type} (k : string) (l : list (string * A)) : option A :=
  match l with
  | [] => None
  | (k', v) :: rest => if String.eqb k k' then Some v else assoc k rest
  end.

(** [m[k] = v] on a Go map kept as an association list: an existing key is
    overwritten in place, a new key is added at the end. *)
Fixpoint set_key {A : Type} (k : string) (v : A) (l : list (string * A))
  : list (string * A) :=
  match l with
  | [] => [(k, v)]
  | (k', v') :: rest =>
      if String.eqb k k' then (k, v) :: rest else (k', v') :: set_key k v rest
  end.

(** ** models.go *)

Record S1APIError : Type := {
  err_Code : Z;
  err_Detail : string;
  err_Title : string
}.

Record S1APIPageInfo : Type := {
  NextCursor : string;
  TotalItems : Z
}.

(** [S1APIResponse]; [Raw] is the type of undecoded bytes
    ([json.RawMessage]). *)
Record S1APIResponse (Raw : Type) : Type := {
  Errors : list S1APIError;
  Pagination : S1APIPageInfo;
  Data : Raw
}.

Record S1AccountProvisioningRequest : Type := {
  req_AccountName : string;
  req_AccountType : string;
  req_Expires : string;
  req_ExternalID : string;
  req_ReactivateAccount : bool;
  req_Bundle : string;
  req_TotalAgents : Z;
  req_Modules : list string
}.

Record S1APIAccountObject : Type := {
  api_acct_ID : string;
  api_acct_AccountType : string;
  api_acct_BillingMode : string;
  api_acct_Expiration : string;
  api_acct_ExternalID : string;
  api_acct_Name : string;
  api_acct_State : string
}.

Record S1Account (T : Type) : Type := {
  acct_ID : string;
  acct_AccountType : string;
  acct_BillingMode : string;
  acct_Expiration : T;
  acct_ExternalID : string;
  acct_Name : string;
  acct_State : string
}.

Record S1UserProvisioningRequest : Type := {
  req_FirstName : string;
  req_LastName : string;
  req_EmailAddress : string;
  req_Role : string
}.

Record S1APIUserScopeRoleObject : Type := {
  api_sr_ScopeID : string;
  api_sr_RoleID : string;
  api_sr_RoleName : string
}.

Record S1APIUserObject : Type := {
  api_user_ID : string;
  api_user_EmailAddress : string;
  api_user_EmailVerified : bool;
  api_user_TwoFactorStatus : string;
  api_user_Scope : string;
  api_user_ScopeRoles : list S1APIUserScopeRoleObject
}.

Record S1UserScopeRole : Type := {
  ScopeID : string;
  RoleID : string;
  RoleName : string
}.

Record S1User : Type := {
  user_ID : string;
  user_EmailAddress : string;
  user_EmailVerified : bool;
  user_TwoFactorStatus : string;
  user_Scope : string;
  user_ScopeRoles : list S1UserScopeRole
}.

Record S1APIRoleObject : Type := {
  api_role_AccountName : string;
  api_role_ID : string;
  api_role_Name : string;
  api_role_PredefinedRole : bool;
  api_role_Scope : string;
  api_role_ScopeID : string;
  api_role_UsersInRole : Z
}.

Record S1Role : Type := {
  role_AccountName : string;
  role_ID : string;
  role_Name : string;
  role_PredefinedRole : bool;
  role_Scope : string;
  role_ScopeID : string;
  role_UsersInRole : Z
}.

Record S1APISuccessResponseData : Type := { Success : bool }.

Record S1APIAffectedResponseData : Type := { Affected : Z }.

(** ** internal/errors *)

Definition S1ClientErrorCode : Z := 101.
Definition S1ClientRequestErrorCode : Z := 102.

(** [S1ClientRequestError]: the error code and wrapped error of its
    [BaseError], and its own three strings. *)
Record S1ClientRequestError : Type := {
  Code : Z;
  InternalError : goerror;
  err_method : string;
  err_msg : string;
  err_url : string
}.

(** [NewS1ClientError] builds an [S1ClientRequestError] too (that is its
    return type), with the code of [S1ClientError] and no method or URL. *)
Definition NewS1ClientError (m : string) (e : goerror) : S1ClientRequestError :=
  {| Code := S1ClientErrorCode; InternalError := e;
     err_method := ""; err_msg := m; err_url := "" |}.

Definition NewS1ClientRequestError (meth u m : string) (e : goerror)
  : S1ClientRequestError :=
  {| Code := S1ClientRequestErrorCode; InternalError := e;
     err_method := meth; err_msg := m; err_url := u |}.

(** The [Error] method of [S1ClientRequestError]. *)
Definition Error (e : S1ClientRequestError) : string :=
  err_method e ++ " " ++ err_url e ++ " | " ++ err_msg e ++ " : "
    ++ InternalError e.

(** ** resty requests and responses *)

Record Request : Type := {
  Method : string;
  URL : string;
  Header : list (string * string);
  QueryParam : list (string * string);
  Body : option JSON
}.

Record Response (Raw : Type) : Type := {
  StatusCode : Z;
  RespBody : Raw
}.

Definition SetHeader (k v : string) (r : Request) : Request :=
  {| Method := Method r; URL := URL r; Header := set_key k v (Header r);
     QueryParam := QueryParam r; Body := Body r |}.

Definition SetHeaders (hs : list (string * string)) (r : Request) : Request :=
  fold_left (fun acc kv => SetHeader (fst kv) (snd kv) acc) hs r.

Definition SetBody (b : JSON) (r : Request) : Request :=
  {| Method := Method r; URL := URL r; Header := Header r;
     QueryParam := QueryParam r; Body := Some b |}.

Definition SetQueryParam (k v : string) (r : Request) : Request :=
  {| Method := Method r; URL := URL r; Header := Header r;
     QueryParam := set_key k v (QueryParam r); Body := Body r |}.

Definition SetQueryParams (ps : list (string * string)) (r : Request) : Request :=
  fold_left (fun acc kv => SetQueryParam (fst kv) (snd kv) acc) ps r.

(** [client.R()] *)
Definition R : Request :=
  {| Method := ""; URL := ""; Header := []; QueryParam := []; Body := None |}.

(** ** The libraries the client calls *)

Definition http_MethodGet : string := "GET".
Definition http_MethodPost : string := "POST".
Definition http_MethodPut : string := "PUT".
Definition http_StatusMethodNotAllowed : Z := 405.
Definition http_StatusInternalServerError : Z := 500.
Definition time_RFC3339 : string := "2006-01-02T15:04:05Z07:00".

(** What [time], [math/rand], [encoding/json] and resty provide.  [Remote]
    is the state of everything outside the process: the platform, the
    network, the clock and the random source. *)
Class GoRuntime : Type := {
  time_Time : Type;
  time_Duration : Type;
  Raw : Type;
  Remote : Type;
  time_ParseDuration : string -> Result time_Duration;
  time_Parse : string -> string -> Result time_Time;
  time_Format : time_Time -> string -> string;
  time_Add : time_Time -> time_Duration -> time_Time;
  time_Now : Remote -> time_Time * Remote;
  rand_Intn : Z -> Remote -> Z * Remote;
  rand_Intn_range : forall n r, 0 < n -> 0 <= fst (rand_Intn n r) < n;
  Execute : Request -> Remote -> Result (Response Raw) * Remote;
  Unmarshal_S1APIResponse : Raw -> Result (S1APIResponse Raw);
  Unmarshal_accounts : Raw -> Result (list S1APIAccountObject);
  Unmarshal_account : Raw -> Result S1APIAccountObject;
  Unmarshal_roles : Raw -> Result (list S1APIRoleObject);
  Unmarshal_users : Raw -> Result (list S1APIUserObject);
  Unmarshal_user : Raw -> Result S1APIUserObject;
  Unmarshal_success : Raw -> Result S1APISuccessResponseData;
  Unmarshal_affected : Raw -> Result S1APIAffectedResponseData
}.

(** ** The world and the monad of the client *)

Inductive Level : Type := DebugLevel | InfoLevel | ErrorLevel.

Record LogEntry : Type := {
  level : Level;
  message : string
}.

(** How a call ends: a value with a nil error, a non-nil error, or a
    run-time panic. *)
Inductive Outcome (A : Type) : Type :=
| Returns (a : A)
| Fails (e : S1ClientRequestError)
| Panics (reason : string).
Arguments Returns {A} a.
Arguments Fails {A} e.
Arguments Panics {A} reason.

Section Monad.

Context `{GoRuntime}.

(** The outside, the requests issued so far (oldest first) and the lines
    logged so far (oldest first). *)
Record World : Type := {
  remote : Remote;
  issued : list Request;
  logged : list LogEntry
}.

Definition M (A : Type) : Type := World -> Outcome A * World.

Definition ret {A : Type} (a : A) : M A := fun w => (Returns a, w).

Definition fail {A : Type} (e : S1ClientRequestError) : M A :=
  fun w => (Fails e, w).

Definition panic {A : Type} (reason : string) : M A :=
  fun w => (Panics reason, w).

Definition bind {A B : Type} (c : M A) (k : A -> M B) : M B :=
  fun w =>
    match c w with
    | (Returns a, w') => k a w'
    | (Fails e, w') => (Fails e, w')
    | (Panics r, w') => (Panics r, w')
    end.

(** [logger.<Level>()...Msg(m)]; the key/value context of a line is not
    kept. *)
Definition log (l : Level) (m : string) : M unit :=
  fun w =>
    (Returns tt,
     {| remote := remote w; issued := issued w;
        logged := (logged w ++ [ {| level := l; message := m |} ])%list |}).

(** [req.Execute(method, url)]: the request goes out, the outside moves. *)
Definition send (r : Request) : M (Result (Response Raw)) :=
  fun w =>
    let (res, rem) := Execute r (remote w) in
    (Returns res,
     {| remote := rem; issued := (issued w ++ [r])%list; logged := logged w |}).

Definition now : M time_Time :=
  fun w =>
    let (t, rem) := time_Now (remote w) in
    (Returns t, {| remote := rem; issued := issued w; logged := logged w |}).

Definition intn (n : Z) : M Z :=
  fun w =>
    let (i, rem) := rand_Intn n (remote w) in
    (Returns i, {| remote := rem; issued := issued w; logged := logged w |}).

End Monad.

Declare Scope client_scope.
Delimit Scope client_scope with client.
Notation "x <- c ;; k" := (bind c (fun x => k))
  (at level 61, c at next level, right associativity) : client_scope.
Notation "c ;;; k" := (bind c (fun _ => k))
  (at level 61, right associativity) : client_scope.
Local Open Scope client_scope.

(** ** The client *)

Record S1Client : Type := {
  apiKey : string;
  baseURL : string
}.

(** [%d] of [fmt]. *)
Definition itoa (n : Z) : string := NilZero.string_of_int (Z.to_int n).

(** [s1ClientExecOptFn] *)
Definition s1ClientExecOptFn : Type := Request -> Request.

Definition withRequestHeaders (headers : list (string * string)) : s1ClientExecOptFn :=
  fun r => SetHeaders headers r.

Definition withRequestBody (body : JSON) : s1ClientExecOptFn :=
  fun r => SetBody body r.

Definition withRequestParams (params : list (string * string)) : s1ClientExecOptFn :=
  fun r => SetQueryParams params r.

(** The request [exec] hands to the transport: the three fixed headers,
    then the options in order, then the method and URL of [Execute]. *)
Definition execRequest (s : S1Client) (meth endpoint : string)
           (optFns : list s1ClientExecOptFn) : Request :=
  let u := baseURL s ++ "/web/api/v2.1" ++ endpoint in
  let req :=
    SetHeader "Authorization" ("ApiToken " ++ apiKey s)
      (SetHeader "Accept" "application/json"
         (SetHeader "Content-Type" "application/json" R)) in
  let req := fold_left (fun r fn => fn r) optFns req in
  {| Method := meth; URL := u; Header := Header req;
     QueryParam := QueryParam req; Body := Body req |}.

Section Client.

Context `{GoRuntime}.

(** The loop of [exec] over the errors of the envelope: one line each. *)
Fixpoint logAPIErrors (es : list S1APIError) : M unit :=
  match es with
  | [] => ret tt
  | e :: rest =>
      (if String.eqb (err_Detail e) ""
       then log ErrorLevel (err_Title e)
       else log ErrorLevel (err_Title e ++ ": " ++ err_Detail e)) ;;;
      logAPIErrors rest
  end.

(** [exec] executes a call to the S1 REST API. *)
Definition exec (s : S1Client) (meth endpoint : string)
           (optFns : list s1ClientExecOptFn) : M (S1APIResponse Raw) :=
  let u := baseURL s ++ "/web/api/v2.1" ++ endpoint in
  res <- send (execRequest s meth endpoint optFns) ;;
  match res with
  | err e =>
      let errx := NewS1ClientRequestError meth u "failed to execute request" e in
      log ErrorLevel (Error errx) ;;; fail errx
  | ok resp =>
      let httpCode := StatusCode resp in
      if httpCode >=? http_StatusMethodNotAllowed then
        let errx := NewS1ClientRequestError meth u "failed to execute request"
                      "method is not allowed for endpoint" in
        log ErrorLevel (Error errx) ;;; fail errx
      else if httpCode >=? http_StatusInternalServerError then
        let errx := NewS1ClientRequestError meth u "failed to execute request"
                      ("request returned server error code " ++ itoa httpCode) in
        log ErrorLevel (Error errx) ;;; fail errx
      else
        match Unmarshal_S1APIResponse (RespBody resp) with
        | err e =>
            let errx := NewS1ClientRequestError meth u
                          "failed to unmarshal response from request" e in
            log ErrorLevel (Error errx) ;;; fail errx
        | ok apiResponse =>
            if (0 <? length (Errors apiResponse))%nat then
              logAPIErrors (Errors apiResponse) ;;;
              fail (NewS1ClientRequestError meth u
                      "server returned one or more API errors"
                      "server returned one or more API errors")
            else ret apiResponse
        end
  end.

(** [fromS1APIAccountObject] *)
Definition fromS1APIAccountObject (o : S1APIAccountObject) : M (S1Account time_Time) :=
  match time_Parse time_RFC3339 (api_acct_Expiration o) with
  | err e =>
      let errx := NewS1ClientError "failed to parse account expiration date" e in
      log ErrorLevel (Error errx) ;;; fail errx
  | ok expires =>
      ret {| acct_ID := api_acct_ID o;
             acct_AccountType := api_acct_AccountType o;
             acct_BillingMode := api_acct_BillingMode o;
             acct_Expiration := expires;
             acct_ExternalID := api_acct_ExternalID o;
             acct_Name := api_acct_Name o;
             acct_State := api_acct_State o |}
  end.

(** [fromS1APIRoleObject] *)
Definition fromS1APIRoleObject (o : S1APIRoleObject) : M S1Role :=
  ret {| role_AccountName := api_role_AccountName o;
         role_ID := api_role_ID o;
         role_Name := api_role_Name o;
         role_PredefinedRole := api_role_PredefinedRole o;
         role_Scope := api_role_Scope o;
         role_ScopeID := api_role_ScopeID o;
         role_UsersInRole := api_role_UsersInRole o |}.

Definition fromS1APIUserScopeRoleObject (r : S1APIUserScopeRoleObject) : S1UserScopeRole :=
  {| ScopeID := api_sr_ScopeID r; RoleID := api_sr_RoleID r;
     RoleName := api_sr_RoleName r |}.

(** [fromS1APIUserObject] *)
Definition fromS1APIUserObject (o : S1APIUserObject) : M S1User :=
  ret {| user_ID := api_user_ID o;
         user_EmailAddress := api_user_EmailAddress o;
         user_EmailVerified := api_user_EmailVerified o;
         user_TwoFactorStatus := api_user_TwoFactorStatus o;
         user_Scope := api_user_Scope o;
         user_ScopeRoles :=
           fold_left (fun acc role => (acc ++ [fromS1APIUserScopeRoleObject role])%list)
                     (api_user_ScopeRoles o) [] |}.

(** The line every decoder of a [Data] payload logs and returns. *)
Definition unmarshalFailed {A : Type} (e : goerror) : M A :=
  let errx := NewS1ClientError "failed to unmarshal response from server" e in
  log ErrorLevel (Error errx) ;;; fail errx.

(** [FindAccount]: [None] is the nil account returned with a nil error. *)
Definition FindAccount (s : S1Client) (name : string) : M (option (S1Account time_Time)) :=
  log DebugLevel "searching for account" ;;;
  resp <- exec s http_MethodGet "/accounts"
            [withRequestParams [("name", name); ("limit", "1")]] ;;
  match Unmarshal_accounts (Data resp) with
  | err e => unmarshalFailed e
  | ok apiAccounts =>
      match apiAccounts with
      | [] => ret None
      | o :: _ => a <- fromS1APIAccountObject o ;; ret (Some a)
      end
  end.

(** [FindRole] *)
Definition FindRole (s : S1Client) (accountID name : string) : M (option S1Role) :=
  log DebugLevel "searching for role in account" ;;;
  resp <- exec s http_MethodGet "/rbac/roles"
            [withRequestParams [("accountIds", accountID); ("name", name); ("limit", "1")]] ;;
  match Unmarshal_roles (Data resp) with
  | err e => unmarshalFailed e
  | ok apiRoles =>
      match apiRoles with
      | [] => ret None
      | o :: _ => r <- fromS1APIRoleObject o ;; ret (Some r)
      end
  end.

(** [FindUser] *)
Definition FindUser (s : S1Client) (email : string) : M (option S1User) :=
  log DebugLevel "searching for user" ;;;
  resp <- exec s http_MethodGet "/users"
            [withRequestParams [("email", email); ("limit", "1")]] ;;
  match Unmarshal_users (Data resp) with
  | err e => unmarshalFailed e
  | ok apiUsers =>
      match apiUsers with
      | [] => ret None
      | o :: _ => u <- fromS1APIUserObject o ;; ret (Some u)
      end
  end.

(** The body of the reactivation call. *)
Definition reactivateBody (expires : time_Time) : JSON :=
  JObj [("data", JObj [("unlimited", JBool false);
                       ("expiration", JStr (time_Format expires time_RFC3339))])].

(** [ReactivateAccount] *)
Definition ReactivateAccount (s : S1Client) (id : string) (expires : time_Time) : M unit :=
  log InfoLevel "reactivating account" ;;;
  resp <- exec s http_MethodPut ("/accounts/" ++ id ++ "/reactivate")
            [withRequestBody (reactivateBody expires)] ;;
  match Unmarshal_success (Data resp) with
  | err e => unmarshalFailed e
  | ok data =>
      if negb (Success data) then
        let errx := NewS1ClientError "failed to reactivate account"
                      "activation was not successful" in
        log ErrorLevel (Error errx) ;;; fail errx
      else ret tt
  end.

(** [ResetUserPassword] *)
Definition ResetUserPassword (s : S1Client) (userID : string) : M unit :=
  log InfoLevel "resetting user password" ;;;
  resp <- exec s http_MethodPost "/users/login/send-reset-password-email"
            [withRequestBody (JObj [("filter", JObj [("ids", JArr [JStr userID])])])] ;;
  match Unmarshal_affected (Data resp) with
  | err e => unmarshalFailed e
  | ok data =>
      if (Affected data =? 0)%Z then
        let errx := NewS1ClientError "failed to reset password for user"
                      "user ID was not found" in
        log ErrorLevel (Error errx) ;;; fail errx
      else ret tt
  end.

(** A scope role as it is marshalled (the [json] tags of
    [S1UserScopeRole]). *)
Definition scopeRoleJSON (r : S1UserScopeRole) : JSON :=
  JObj [("id", JStr (ScopeID r)); ("roleId", JStr (RoleID r));
        ("roleName", JStr (RoleName r))].

Definition updateBody (roles : list S1UserScopeRole) : JSON :=
  JObj [("data", JObj [("scope", JStr "account");
                       ("scopeRoles", JArr (map scopeRoleJSON roles))])].

(** [UpdateUserScopeRoles] *)
Definition UpdateUserScopeRoles (s : S1Client) (userID : string)
           (roles : list S1UserScopeRole) : M S1User :=
  log DebugLevel "updating scope roles for user" ;;;
  resp <- exec s http_MethodPut ("/users/" ++ userID) [withRequestBody (updateBody roles)] ;;
  match Unmarshal_user (Data resp) with
  | err e => unmarshalFailed e
  | ok user => fromS1APIUserObject user
  end.

(** The block of [CreateAccount] that configures the expiration: the value
    of [Expires] as a duration from now, else as an RFC 3339 timestamp,
    else the error that names it. *)
Definition configureExpiration (req : S1AccountProvisioningRequest) : M time_Time :=
  match time_ParseDuration (req_Expires req) with
  | ok dur => t <- now ;; ret (time_Add t dur)
  | err _ =>
      match time_Parse time_RFC3339 (req_Expires req) with
      | ok expires => ret expires
      | err e =>
          let errx := NewS1ClientError
                        ("failed to parse account expiration time and date '"
                           ++ req_Expires req ++ "'") e in
          log ErrorLevel (Error errx) ;;; fail errx
      end
  end.

(** The body of the call that creates an account. *)
Definition createAccountBody (req : S1AccountProvisioningRequest)
           (expires : time_Time) : JSON :=
  let modules := map (fun module => JObj [("name", JStr module)]) (req_Modules req) in
  JObj [("data", JObj [
    ("name", JStr (req_AccountName req));
    ("accountType", JStr (req_AccountType req));
    ("billingMode", JStr "subscription");
    ("expiration", JStr (time_Format expires time_RFC3339));
    ("externalId", JStr (req_ExternalID req));
    ("inherits", JBool true);
    ("licenses", JObj [
       ("bundles", JArr [JObj [
          ("name", JStr (req_Bundle req));
          ("surfaces", JArr [JObj [("count", JNum (req_TotalAgents req));
                                   ("name", JStr "Total Agents")]])]]);
       ("modules", JArr modules);
       ("settings", JArr [
          JObj [("groupName", JStr "dv_retention"); ("setting", JStr "30 Days")];
          JObj [("groupName", JStr "malicious_data_retention"); ("setting", JStr "365 Days")];
          JObj [("groupName", JStr "remote_shell_availability"); ("setting", JStr "Enabled")];
          JObj [("groupName", JStr "marketplace_access_status"); ("setting", JStr "Available")];
          JObj [("groupName", JStr "account_level_ranger"); ("setting", JStr "Account")]])]);
    ("unlimitedExpiration", JBool false);
    ("usageType", JStr "customer")])].

(** [CreateAccount] creates a new account if it does not already exist. *)
Definition CreateAccount (s : S1Client) (req : S1AccountProvisioningRequest)
  : M (S1Account time_Time) :=
  account <- FindAccount s (req_AccountName req) ;;
  expires <- configureExpiration req ;;
  match account with
  | Some account =>
      if String.eqb (acct_State account) "active" then
        log InfoLevel "found existing active account" ;;; ret account
      else if String.eqb (acct_State account) "expired" then
        if negb (req_ReactivateAccount req) then
          let errx := NewS1ClientError
                        "failed to create account because it is expired and not set to be reactivated"
                        "account already exists" in
          log ErrorLevel (Error errx) ;;; fail errx
        else
          ReactivateAccount s (acct_ID account) expires ;;; ret account
      else
        let errx := NewS1ClientError
                      ("failed to create account because it exists and is currently '"
                         ++ acct_State account ++ "'")
                      "account already exists" in
        log ErrorLevel (Error errx) ;;; fail errx
  | None =>
      log InfoLevel "creating new account" ;;;
      resp <- exec s http_MethodPost "/accounts"
                [withRequestBody (createAccountBody req expires)] ;;
      match Unmarshal_account (Data resp) with
      | err e => unmarshalFailed e
      | ok newAcct => fromS1APIAccountObject newAcct
      end
  end.

(** The alphabet of the generated password. *)
Definition chars : list ascii :=
  list_ascii_of_string "ABCDEFGHIJKLMNOPQRSTUVWXYZabcdefghijklmnopqrstuvwxyz0123456789".

(** [l[i]]; [None] is the index-out-of-range panic. *)
Definition index {A : Type} (l : list A) (i : Z) : option A :=
  if (i <? 0)%Z then None else nth_error l (Z.to_nat i).

(** The loop that writes [n] more random runes to the builder [b]. *)
Fixpoint writeRunes (n : nat) (b : string) : M string :=
  match n with
  | O => ret b
  | S k =>
      i <- intn (Z.of_nat (length chars)) ;;
      match index chars i with
      | Some c => writeRunes k (b ++ String c EmptyString)
      | None => panic "index out of range"
      end
  end.

(** The body of the call that creates a user. *)
Definition createUserBody (req : S1UserProvisioningRequest) (accountID passwd : string)
  : JSON :=
  JObj [("data", JObj [
    ("email", JStr (req_EmailAddress req));
    ("password", JStr passwd);
    ("fullName", JStr (req_FirstName req ++ " " ++ req_LastName req));
    ("scope", JStr "account");
    ("scopeRoles", JArr [JObj [("id", JStr accountID);
                               ("roleName", JStr (req_Role req))]]);
    ("twoFaEnabled", JBool true)])].

(** The scan of [CreateUser] over the scope roles of the user found. *)
Definition hasScope (accountID : string) (roles : list S1UserScopeRole) : bool :=
  existsb (fun role => String.eqb (ScopeID role) accountID) roles.

(** [CreateUser] creates a new user if it does not already exist.  The
    [Admin] role found is a pointer that may be nil; reading a field of it
    then panics. *)
Definition CreateUser (s : S1Client) (req : S1UserProvisioningRequest)
           (accountID : string) : M S1User :=
  user <- FindUser s (req_EmailAddress req) ;;
  adminRole <- FindRole s accountID "Admin" ;;
  match user with
  | Some user =>
      if hasScope accountID (user_ScopeRoles user) then
        log InfoLevel "found existing user" ;;; ret user
      else
        match adminRole with
        | None => panic "invalid memory address or nil pointer dereference"
        | Some adminRole =>
            let roles :=
              (user_ScopeRoles user ++
                 [ {| ScopeID := accountID; RoleID := role_ID adminRole;
                      RoleName := role_Name adminRole |} ])%list in
            UpdateUserScopeRoles s (user_ID user) roles
        end
  | None =>
      passwd <- writeRunes 32 "" ;;
      log InfoLevel "creating new user" ;;;
      resp <- exec s http_MethodPost "/users"
                [withRequestBody (createUserBody req accountID passwd)] ;;
      match Unmarshal_user (Data resp) with
      | err e => unmarshalFailed e
      | ok newUser => fromS1APIUserObject newUser
      end
  end.

End Client.

(** ** The requests the client builds *)

Definition findAccountRequest (s : S1Client) (name : string) : Request :=
  execRequest s http_MethodGet "/accounts"
    [withRequestParams [("name", name); ("limit", "1")]].

Definition findRoleRequest (s : S1Client) (accountID name : string) : Request :=
  execRequest s http_MethodGet "/rbac/roles"
    [withRequestParams [("accountIds", accountID); ("name", name); ("limit", "1")]].

Definition findUserRequest (s : S1Client) (email : string) : Request :=
  execRequest s http_MethodGet "/users"
    [withRequestParams [("email", email); ("limit", "1")]].

Section Requests.

Context `{GoRuntime}.

Definition reactivateRequest (s : S1Client) (id : string) (expires : time_Time) : Request :=
  execRequest s http_MethodPut ("/accounts/" ++ id ++ "/reactivate")
    [withRequestBody (reactivateBody expires)].

Definition createAccountRequest (s : S1Client) (req : S1AccountProvisioningRequest)
           (expires : time_Time) : Request :=
  execRequest s http_MethodPost "/accounts"
    [withRequestBody (createAccountBody req expires)].

End Requests.

Definition updateUserRequest (s : S1Client) (userID : string)
           (roles : list S1UserScopeRole) : Request :=
  execRequest s http_MethodPut ("/users/" ++ userID) [withRequestBody (updateBody roles)].

Definition createUserRequest (s : S1Client) (req : S1UserProvisioningRequest)
           (accountID passwd : string) : Request :=
  execRequest s http_MethodPost "/users"
    [withRequestBody (createUserBody req accountID passwd)].

(** An outcome that is not a panic. *)
Definition noPanic {A : Type} (o : Outcome A) : Prop :=
  match o with
  | Panics _ => False
  | _ => True
  end.

Section Predicates.

Context `{GoRuntime}.

(** The transport answers request [r] in world [w] with an envelope that
    [exec] accepts: a status below 405, a body that decodes, no platform
    error; [rem] is the outside afterwards. *)
Definition answers (w : World) (r : Request) (api : S1APIResponse Raw)
           (rem : Remote) : Prop :=
  exists resp,
    Execute r (remote w) = (ok resp, rem)
    /\ StatusCode resp < http_StatusMethodNotAllowed
    /\ Unmarshal_S1APIResponse (RespBody resp) = ok api
    /\ Errors api = [].

(** The world after one call: the request is on record, the outside has
    moved to [rem]. *)
Definition called (w : World) (r : Request) (rem : Remote) : World :=
  {| remote := rem; issued := (issued w ++ [r])%list; logged := logged w |}.

(** A call [c] run from [w] issues exactly the requests
    [rs] and does not panic. *)
Definition issues {A : Type} (c : M A) (w : World) (rs : list Request) : Prop :=
  issued (snd (c w)) = (issued w ++ rs)%list /\ noPanic (fst (c w)).

(** The error of [CreateAccount] for an account that is expired and not to
    be reactivated. *)
Definition expiredError : S1ClientRequestError :=
  NewS1ClientError
    "failed to create account because it is expired and not set to be reactivated"
    "account already exists".

(** The error of [CreateAccount] for a value of [Expires] that is neither
    a duration nor a timestamp; [e] is the error of [time.Parse]. *)
Definition expirationError (req : S1AccountProvisioningRequest) (e : goerror)
  : S1ClientRequestError :=
  NewS1ClientError
    ("failed to parse account expiration time and date '" ++ req_Expires req ++ "'") e.


(** The one error [exec] returns for an envelope that lists platform
    errors, whatever they are and however many. *)
Definition apiErrors (s : S1Client) (meth endpoint : string) : S1ClientRequestError :=
  NewS1ClientRequestError meth (baseURL s ++ "/web/api/v2.1" ++ endpoint)
    "server returned one or more API errors"
    "server returned one or more API errors".

End Predicates.

(** ** A scripted transport

    An instance of [GoRuntime] in the manner of a test double: the
    transport replays a script of responses, one per request, whatever the
    request; bytes are already structured; times are seconds since the
    epoch; the parsers know whole hours and one table of timestamps. *)

Module Fake.

Inductive Payload : Type :=
| Accounts (l : list S1APIAccountObject)
| Account (o : S1APIAccountObject)
| Roles (l : list S1APIRoleObject)
| Users (l : list S1APIUserObject)
| User (o : S1APIUserObject)
| SuccessData (d : S1APISuccessResponseData)
| AffectedData (d : S1APIAffectedResponseData)
| Absent.

Inductive Bytes : Type :=
| Envelope (errors : list S1APIError) (data : Payload)
| Bare (p : Payload)
| Junk.

Record Outside : Type := {
  script : list (Result (Response Bytes));
  clock : Z;
  dice : list Z
}.

Definition digit (c : ascii) : option Z :=
  let n := Z.of_nat (nat_of_ascii c) in
  if ((48 <=? n) && (n <=? 57))%Z then Some (n - 48)%Z else None.

(** Durations of the shape [<digits>h], in seconds. *)
Fixpoint hours (s : string) (acc : option Z) : Result Z :=
  match s with
  | EmptyString => err "time: invalid duration"
  | String c rest =>
      match digit c with
      | Some d =>
          hours rest (Some (10 * match acc with Some n => n | None => 0 end + d)%Z)
      | None =>
          match acc with
          | Some n =>
              if (Ascii.eqb c "h" && String.eqb rest "")%bool
              then ok (n * 3600)%Z
              else err "time: unknown unit in duration"
          | None => err "time: invalid duration"
          end
      end
  end.

Definition ParseDuration (s : string) : Result Z := hours s None.

Definition calendar : list (string * Z) :=
  [("2020-01-01T00:00:00Z", 1577836800); ("2030-01-01T00:00:00Z", 1893456000)].

Definition Parse (layout value : string) : Result Z :=
  match assoc value calendar with
  | Some t => ok t
  | None => err "parsing time: cannot parse"
  end.

Definition Format (t : Z) (layout : string) : string :=
  match find (fun kv => (snd kv =? t)%Z) calendar with
  | Some kv => fst kv
  | None => "@" ++ itoa t
  end.

Definition Now (o : Outside) : Z * Outside := (clock o, o).

Definition roll (n : Z) (o : Outside) : Z * Outside :=
  (match dice o with
   | [] => 0
   | d :: _ => d mod n
   end,
   {| script := script o; clock := clock o; dice := tl (dice o) |}).

Definition replay (r : Request) (o : Outside) : Result (Response Bytes) * Outside :=
  match script o with
  | [] => (err "connection refused", o)
  | res :: rest => (res, {| script := rest; clock := clock o; dice := dice o |})
  end.

Definition envelope (b : Bytes) : Result (S1APIResponse Bytes) :=
  match b with
  | Envelope errors data =>
      ok {| Errors := errors;
            Pagination := {| NextCursor := ""; TotalItems := 0 |};
            Data := Bare data |}
  | _ => err "json: cannot unmarshal"
  end.

Definition payload {A : Type} (pick : Payload -> option A) (b : Bytes) : Result A :=
  match b with
  | Bare p =>
      match pick p with
      | Some v => ok v
      | None => err "json: cannot unmarshal"
      end
  | _ => err "json: cannot unmarshal"
  end.

Lemma roll_range (n : Z) (o : Outside) : 0 < n -> 0 <= fst (roll n o) < n.
Proof.
  intros Hn. unfold roll. simpl. destruct (dice o) as [|d l].
  - lia.
  - apply Z.mod_pos_bound. exact Hn.
Qed.

Definition runtime : GoRuntime :=
  {| time_Time := Z;
     time_Duration := Z;
     Raw := Bytes;
     Remote := Outside;
     time_ParseDuration := ParseDuration;
     time_Parse := Parse;
     time_Format := Format;
     time_Add := Z.add;
     time_Now := Now;
     rand_Intn := roll;
     rand_Intn_range := roll_range;
     Execute := replay;
     Unmarshal_S1APIResponse := envelope;
     Unmarshal_accounts := payload (fun p => match p with Accounts l => Some l | _ => None end);
     Unmarshal_account := payload (fun p => match p with Account o => Some o | _ => None end);
     Unmarshal_roles := payload (fun p => match p with Roles l => Some l | _ => None end);
     Unmarshal_users := payload (fun p => match p with Users l => Some l | _ => None end);
     Unmarshal_user := payload (fun p => match p with User o => Some o | _ => None end);
     Unmarshal_success := payload (fun p => match p with SuccessData d => Some d | _ => None end);
     Unmarshal_affected := payload (fun p => match p with AffectedData d => Some d | _ => None end)
  |}.

(** A response with status 200 and the given envelope. *)
Definition reply (errors : list S1APIError) (data : Payload) : Result (Response Bytes) :=
  ok {| StatusCode := 200; RespBody := Envelope errors data |}.

(** The world before any call, with the given script. *)
Definition start (responses : list (Result (Response Bytes))) : @World runtime :=
  @Build_World runtime
    {| script := responses; clock := 1700000000; dice := [] |} [] [].

Definition client : S1Client :=
  {| apiKey := "secret"; baseURL := "https://tenant.example" |}.

Definition acme (state : string) : S1APIAccountObject :=
  {| api_acct_ID := "1001";
     api_acct_AccountType := "Trial";
     api_acct_BillingMode := "subscription";
     api_acct_Expiration := "2020-01-01T00:00:00Z";
     api_acct_ExternalID := "ext-1";
     api_acct_Name := "Acme";
     api_acct_State := state |}.

Definition acmeRequest (expires : string) (reactivate : bool)
  : S1AccountProvisioningRequest :=
  {| req_AccountName := "Acme";
     req_AccountType := "Trial";
     req_Expires := expires;
     req_ExternalID := "ext-1";
     req_ReactivateAccount := reactivate;
     req_Bundle := "Complete";
     req_TotalAgents := 10;
     req_Modules := ["star"] |}.

Definition alice (roles : list S1APIUserScopeRoleObject) : S1APIUserObject :=
  {| api_user_ID := "77";
     api_user_EmailAddress := "alice@acme.example";
     api_user_EmailVerified := true;
     api_user_TwoFactorStatus := "configured";
     api_user_Scope := "account";
     api_user_ScopeRoles := roles |}.

Definition aliceRequest (role : string) : S1UserProvisioningRequest :=
  {| req_FirstName := "Alice";
     req_LastName := "Liddell";
     req_EmailAddress := "alice@acme.example";
     req_Role := role |}.

Definition adminOf (accountID : string) : S1APIRoleObject :=
  {| api_role_AccountName := "Acme";
     api_role_ID := "500";
     api_role_Name := "Admin";
     api_role_PredefinedRole := true;
     api_role_Scope := "account";
     api_role_ScopeID := accountID;
     api_role_UsersInRole := 1 |}.

(** Scripts of the runs below. *)

Definition bothParsersFail (req : S1AccountProvisioningRequest) : Prop :=
  (exists e1, ParseDuration (req_Expires req) = err e1)
  /\ (exists e2, Parse time_RFC3339 (req_Expires req) = err e2).

(** Nothing by the name, the account created, then the account found. *)
Definition twoRuns : @World runtime :=
  start [reply [] (Accounts []);
         reply [] (Account (acme "active"));
         reply [] (Accounts [acme "active"])].

(** The account found expired, then the reactivation answered. *)
Definition expiredThen (success : bool) : @World runtime :=
  start [reply [] (Accounts [acme "expired"]);
         reply [] (SuccessData {| Success := success |})].

Definition adminEntry : S1APIUserScopeRoleObject :=
  {| api_sr_ScopeID := "1001"; api_sr_RoleID := "500"; api_sr_RoleName := "Admin" |}.

(** The user found with the given scope roles, the [Admin] role found,
    the update answered. *)
Definition knownUser (roles : list S1APIUserScopeRoleObject) : @World runtime :=
  start [reply [] (Users [alice roles]);
         reply [] (Roles [adminOf "1001"]);
         reply [] (User (alice (roles ++ [adminEntry])%list))].

(** No user by the address, no [Admin] role in the account, the user
    created. *)
Definition newUserNoAdmin : @World runtime :=
  start [reply [] (Users []);
         reply [] (Roles []);
         reply [] (User (alice [ {| api_sr_ScopeID := "1001";
                                    api_sr_RoleID := "501";
                                    api_sr_RoleName := "Viewer" |} ]))].

(** Two platform errors under status 200. *)
Definition twoErrors : @World runtime :=
  start [reply [ {| err_Code := 4000040; err_Detail := "name is taken";
                    err_Title := "Validation Error" |};
                 {| err_Code := 4030010; err_Detail := "";
                    err_Title := "Forbidden" |} ]
               Absent].

End Fake.

Unset Implicit Arguments.

(** ** The rest of the client, and the command that calls it *)

Definition resetPasswordRequest (s : S1Client) (userID : string) : Request :=
  execRequest s http_MethodPost "/users/login/send-reset-password-email"
    [withRequestBody (JObj [("filter", JObj [("ids", JArr [JStr userID])])])].

(** The error of [ResetUserPassword] when no user was affected. *)
Definition resetError : S1ClientRequestError :=
  NewS1ClientError "failed to reset password for user" "user ID was not found".

(** The error of [CreateAccount] for an account found in a state that is
    neither [active] nor [expired]. *)
Definition stateError (state : string) : S1ClientRequestError :=
  NewS1ClientError
    ("failed to create account because it exists and is currently '" ++ state ++ "'")
    "account already exists".

(** The error of [fromS1APIAccountObject]; [e] is the error of
    [time.Parse]. *)
Definition accountDateError (e : goerror) : S1ClientRequestError :=
  NewS1ClientError "failed to parse account expiration date" e.

(** The error of every decoder of a [Data] payload; [e] is the error of
    [json.Unmarshal]. *)
Definition payloadError (e : goerror) : S1ClientRequestError :=
  NewS1ClientError "failed to unmarshal response from server" e.

(** The four errors of [exec] that do not come from the envelope. *)
Definition transportError (s : S1Client) (meth endpoint : string) (e : goerror)
  : S1ClientRequestError :=
  NewS1ClientRequestError meth (baseURL s ++ "/web/api/v2.1" ++ endpoint)
    "failed to execute request" e.

Definition statusError (s : S1Client) (meth endpoint : string) : S1ClientRequestError :=
  NewS1ClientRequestError meth (baseURL s ++ "/web/api/v2.1" ++ endpoint)
    "failed to execute request" "method is not allowed for endpoint".

Definition serverError (s : S1Client) (meth endpoint : string) (httpCode : Z)
  : S1ClientRequestError :=
  NewS1ClientRequestError meth (baseURL s ++ "/web/api/v2.1" ++ endpoint)
    "failed to execute request"
    ("request returned server error code " ++ itoa httpCode).

Definition envelopeError (s : S1Client) (meth endpoint : string) (e : goerror)
  : S1ClientRequestError :=
  NewS1ClientRequestError meth (baseURL s ++ "/web/api/v2.1" ++ endpoint)
    "failed to unmarshal response from request" e.

(** The headers [exec] sets on every request. *)
Definition clientHeader (s : S1Client) : list (string * string) :=
  [("Content-Type", "application/json");
   ("Accept", "application/json");
   ("Authorization", "ApiToken " ++ apiKey s)].

(** A request as the client sends them: the three headers, and a URL under
    the API root of the tenant. *)
Definition fromClient (s : S1Client) (r : Request) : Prop :=
  Header r = clientHeader s
  /\ exists endpoint, URL r = baseURL s ++ "/web/api/v2.1" ++ endpoint.

(** An error with one of the two codes of the client. *)
Definition clientError (e : S1ClientRequestError) : Prop :=
  Code e = S1ClientErrorCode \/ Code e = S1ClientRequestErrorCode.

(** A scope role of the platform as it is on the wire (the [json] tags of
    [S1APIUserScopeRoleObject]). *)
Definition apiScopeRoleJSON (r : S1APIUserScopeRoleObject) : JSON :=
  JObj [("id", JStr (api_sr_ScopeID r)); ("roleId", JStr (api_sr_RoleID r));
        ("roleName", JStr (api_sr_RoleName r))].

(** The user [fromS1APIUserObject] builds. *)
Definition userOf (o : S1APIUserObject) : S1User :=
  {| user_ID := api_user_ID o;
     user_EmailAddress := api_user_EmailAddress o;
     user_EmailVerified := api_user_EmailVerified o;
     user_TwoFactorStatus := api_user_TwoFactorStatus o;
     user_Scope := api_user_Scope o;
     user_ScopeRoles := map fromS1APIUserScopeRoleObject (api_user_ScopeRoles o) |}.

(** [strings.Split(s, sep)] for a separator [sep] of one byte: the pieces
    of [s] between the separators, in order; one piece, [s] itself, when
    [s] has no separator. *)
Fixpoint splitOn (sep : ascii) (s : string) : list string :=
  match s with
  | EmptyString => [EmptyString]
  | String c rest =>
      if Ascii.eqb c sep then EmptyString :: splitOn sep rest
      else
        match splitOn sep rest with
        | [] => [String c EmptyString]
        | piece :: pieces => String c piece :: pieces
        end
  end.

(** [strings.Count(s, sep)] for a separator of one byte. *)
Fixpoint countOf (sep : ascii) (s : string) : nat :=
  match s with
  | EmptyString => O
  | String c rest => ((if Ascii.eqb c sep then 1 else 0) + countOf sep rest)%nat
  end.

(** [accountDetails], a record of the CSV. *)
Record accountDetails : Type := {
  AccountName : string;
  AccountType : string;
  Expires : string;
  ExternalID : string;
  Bundle : string;
  TotalAgents : Z;
  Modules : string;
  FirstName : string;
  LastName : string;
  EmailAddress : string;
  Role : string
}.

(** The two requests [provisionAccount] makes of a record. *)
Definition accountRequestOf (account : accountDetails) (reactivate : bool)
  : S1AccountProvisioningRequest :=
  {| req_AccountName := AccountName account;
     req_AccountType := AccountType account;
     req_Expires := Expires account;
     req_ExternalID := ExternalID account;
     req_ReactivateAccount := reactivate;
     req_Bundle := Bundle account;
     req_TotalAgents := TotalAgents account;
     req_Modules := splitOn "," (Modules account) |}.

Definition userRequestOf (account : accountDetails) : S1UserProvisioningRequest :=
  {| req_FirstName := FirstName account;
     req_LastName := LastName account;
     req_EmailAddress := EmailAddress account;
     req_Role := Role account |}.

Definition UsageErrorCode : Z := 1.

(** [GeneralFailure]: the code and wrapped error of its [BaseError], and
    its message. *)
Record GeneralFailure : Type := {
  gf_Code : Z;
  gf_InternalError : goerror;
  gf_msg : string
}.

(** [NewGeneralFailure]; the code it passes is [UsageErrorCode]. *)
Definition NewGeneralFailure (m : string) (e : goerror) : GeneralFailure :=
  {| gf_Code := UsageErrorCode; gf_InternalError := e; gf_msg := m |}.

(** The [Error] method of [GeneralFailure]. *)
Definition GeneralFailure_Error (e : GeneralFailure) : string :=
  gf_msg e ++ ": " ++ gf_InternalError e.

Section Command.

Context `{GoRuntime}.

(** [provisionAccount]: the account, then its first user, then the
    password reset when asked for. *)
Definition provisionAccount (s : S1Client) (account : accountDetails)
           (reactivate resetFirstUserPass : bool) : M unit :=
  acct <- CreateAccount s (accountRequestOf account reactivate) ;;
  log InfoLevel "account has been successfully provisioned" ;;;
  user <- CreateUser s (userRequestOf account) (acct_ID acct) ;;
  log InfoLevel "user has been created and enabled for account" ;;;
  if resetFirstUserPass then ResetUserPassword s (user_ID user) else ret tt.

(** The loop of [runE] over the records the CSV decoder yields: [records]
    is what [Decode] returns call after call, the end of the list standing
    for [io.EOF].  [Returns None] is the nil error, [Returns (Some e)] the
    general failure returned for a record that does not decode; an error
    of the client is returned as it is. *)
Fixpoint provisionRecords (s : S1Client) (reactivate resetFirstUserPass : bool)
         (records : list (Result accountDetails)) : M (option GeneralFailure) :=
  match records with
  | [] => log InfoLevel "all accounts have been provisioned" ;;; ret None
  | err e :: _ =>
      let errx := NewGeneralFailure "failed to decode account record" e in
      log ErrorLevel (GeneralFailure_Error errx) ;;; ret (Some errx)
  | ok account :: rest =>
      provisionAccount s account reactivate resetFirstUserPass ;;;
      provisionRecords s reactivate resetFirstUserPass rest
  end.

(** A call [c], run from any world, adds to the record only requests that
    satisfy [Q], and returns only errors that satisfy [P]. *)
Definition respects {A : Type} (Q : Request -> Prop)
           (P : S1ClientRequestError -> Prop) (c : M A) : Prop :=
  forall w,
    (exists rs, issued (snd (c w)) = (issued w ++ rs)%list /\ Forall Q rs)
    /\ (forall e, fst (c w) = Fails e -> P e).

(** The account [fromS1APIAccountObject] builds once the expiration has
    parsed to [expires]. *)
Definition accountOf (o : S1APIAccountObject) (expires : time_Time)
  : S1Account time_Time :=
  {| acct_ID := api_acct_ID o;
     acct_AccountType := api_acct_AccountType o;
     acct_BillingMode := api_acct_BillingMode o;
     acct_Expiration := expires;
     acct_ExternalID := api_acct_ExternalID o;
     acct_Name := api_acct_Name o;
     acct_State := api_acct_State o |}.

End Command.


Section Stateless.

Context `{GoRuntime}.

(** The outcome of a call [c] and the outside it leaves depend on the
    outside it starts from only: not on the requests on record nor on
    the lines logged. *)
Definition framed {A : Type} (c : M A) : Prop :=
  forall w w',
    remote w = remote w' ->
    fst (c w) = fst (c w') /\ remote (snd (c w)) = remote (snd (c w')).

End Stateless.

(** The line [exec] logs for a platform error. *)
Definition errorLine (e : S1APIError) : LogEntry :=
  {| level := ErrorLevel;
     message := if String.eqb (err_Detail e) ""
                then err_Title e
                else err_Title e ++ ": " ++ err_Detail e |}.

Section Loud.

Context `{GoRuntime}.

(** A call [c], run from any world, only adds lines to the log, and when
    it returns an error one of the lines it has added is at the level of
    errors. *)
Definition loud {A : Type} (c : M A) : Prop :=
  forall w,
    exists ls,
      logged (snd (c w)) = (logged w ++ ls)%list
      /\ (forall e, fst (c w) = Fails e ->
                    exists m, In {| level := ErrorLevel; message := m |} ls).

End Loud.


(** ** Errors of the configuration, and the exit status *)

Definition NoneCode : Z := 0.
Definition GeneralFailureCode : Z := 2.
Definition ConfigLoadFailureCode : Z := 21.
Definition ConfigParseFailureCode : Z := 22.
Definition ConfigValidateFailureCode : Z := 23.

(** [configBaseError]: the code and wrapped error of its [BaseError], and
    the configuration file. *)
Record configBaseError : Type := {
  cfg_Code : Z;
  cfg_InternalError : goerror;
  cfg_configFile : string
}.

Definition newConfigBaseError (configFile : string) (code : Z) (e : goerror)
  : configBaseError :=
  {| cfg_Code := code; cfg_InternalError := e; cfg_configFile := configFile |}.

(** [ConfigValidateFailure]; the value of a setting is a string wherever
    one is built. *)
Record ConfigValidateFailure : Type := {
  cvf_base : configBaseError;
  cvf_setting : string;
  cvf_value : string
}.

Definition NewConfigValidateFailure (configFile setting val : string) (e : goerror)
  : ConfigValidateFailure :=
  {| cvf_base := newConfigBaseError configFile ConfigValidateFailureCode e;
     cvf_setting := setting;
     cvf_value := val |}.

(** The [Error] method of [ConfigValidateFailure]. *)
Definition ConfigValidateFailure_Error (e : ConfigValidateFailure) : string :=
  if String.eqb (cvf_setting e) ""
  then "one or more configuration settings are invalid: "
         ++ cfg_InternalError (cvf_base e)
  else "the configuration setting '" ++ cvf_setting e ++ "' is invalid: "
         ++ cfg_InternalError (cvf_base e).

(** An [errorx.Error] of package [errors]: [None], [UsageError],
    [GeneralFailure], [ConfigLoadFailure], [ConfigParseFailure],
    [ConfigValidateFailure] and the error of the client. *)
Inductive errorx_Error : Type :=
| IsNone
| IsUsageError (e : goerror)
| IsGeneralFailure (e : GeneralFailure)
| IsConfigLoadFailure (e : configBaseError)
| IsConfigParseFailure (e : configBaseError)
| IsConfigValidateFailure (e : ConfigValidateFailure)
| IsS1ClientRequestError (e : S1ClientRequestError).

Definition NewConfigLoadFailure (configFile : string) (e : goerror) : errorx_Error :=
  IsConfigLoadFailure (newConfigBaseError configFile ConfigLoadFailureCode e).

Definition NewConfigParseFailure (configFile : string) (e : goerror) : errorx_Error :=
  IsConfigParseFailure (newConfigBaseError configFile ConfigParseFailureCode e).

(** The [Code] method. *)
Definition errorx_Code (e : errorx_Error) : Z :=
  match e with
  | IsNone => NoneCode
  | IsUsageError _ => UsageErrorCode
  | IsGeneralFailure g => gf_Code g
  | IsConfigLoadFailure c => cfg_Code c
  | IsConfigParseFailure c => cfg_Code c
  | IsConfigValidateFailure v => cfg_Code (cvf_base v)
  | IsS1ClientRequestError c => Code c
  end.

(** The errors the constructors of package [errors] build, [NewNone]
    apart; the variants that record the caller build the same codes. *)
Inductive constructed : errorx_Error -> Prop :=
| built_usage (e : goerror) : constructed (IsUsageError e)
| built_general (m : string) (e : goerror) :
    constructed (IsGeneralFailure (NewGeneralFailure m e))
| built_load (f : string) (e : goerror) : constructed (NewConfigLoadFailure f e)
| built_parse (f : string) (e : goerror) : constructed (NewConfigParseFailure f e)
| built_validate (f st v : string) (e : goerror) :
    constructed (IsConfigValidateFailure (NewConfigValidateFailure f st v e))
| built_client (m : string) (e : goerror) :
    constructed (IsS1ClientRequestError (NewS1ClientError m e))
| built_request (meth u m : string) (e : goerror) :
    constructed (IsS1ClientRequestError (NewS1ClientRequestError meth u m e)).

(** The levels of zerolog that [run] and the loading of options log at. *)
Inductive zerolog_Level : Type := zerolog_WarnLevel | zerolog_ErrorLevel.

(** [run] of package [main], from the error the root command returns: an
    [errorx.Error], another error, or nil.  It gives the exit status and
    the lines it logs. *)
Definition run (err : option (errorx_Error + goerror))
  : Z * list (zerolog_Level * string) :=
  let (exitCode, lines) :=
    match err with
    | Some (inl e) => (errorx_Code e, [])
    | Some (inr plain) => (UsageErrorCode, [(zerolog_ErrorLevel, plain)])
    | None => (0, [])
    end in
  if (negb (exitCode =? 0) && negb (exitCode =? UsageErrorCode))%Z
  then (exitCode,
        (lines ++ [(zerolog_WarnLevel,
                    ("exiting with non-zero exit code: " ++ itoa exitCode)%string)])%list)
  else (exitCode, lines).

(** ** The options of the commands *)

Definition _DefaultCSVSeparator : string := ",".

Record viperProvisionAccountCommandOptions : Type := {
  viper_CSVSeparator : string;
  viper_CSVSource : string;
  viper_ReactivateExpiredAccount : bool;
  viper_ResetFirstUserPassword : bool
}.

Record viperVersionCommandOptions : Type := {
  viper_Short : bool;
  viper_Verbose : bool
}.

Record provisionAccountCommandOptions : Type := {
  CSVSeparator : string;
  CSVSource : string;
  ReactivateExpiredAccount : bool;
  ResetFirstUserPassword : bool;
  account_isLoaded : bool
}.

Record versionCommandOptions : Type := {
  Short : bool;
  Verbose : bool;
  version_isLoaded : bool
}.

(** What the loading of options reads and writes of the application
    state: the configuration file of the global options, what viper has
    unmarshalled, the option objects (each child points to its parent, so
    the root and the [provision] options are shared) and the logger. *)
Record Config : Type := {
  ConfigFile : string;
  viperAccount : viperProvisionAccountCommandOptions;
  viperVersion : viperVersionCommandOptions;
  command_isLoaded : bool;
  provision_isLoaded : bool;
  accountOptions : provisionAccountCommandOptions;
  versionOptions : versionCommandOptions;
  optionLines : list (zerolog_Level * string)
}.

Definition withCommandLoaded (c : Config) : Config :=
  {| ConfigFile := ConfigFile c; viperAccount := viperAccount c;
     viperVersion := viperVersion c; command_isLoaded := true;
     provision_isLoaded := provision_isLoaded c;
     accountOptions := accountOptions c; versionOptions := versionOptions c;
     optionLines := optionLines c |}.

Definition withProvisionLoaded (c : Config) : Config :=
  {| ConfigFile := ConfigFile c; viperAccount := viperAccount c;
     viperVersion := viperVersion c; command_isLoaded := command_isLoaded c;
     provision_isLoaded := true;
     accountOptions := accountOptions c; versionOptions := versionOptions c;
     optionLines := optionLines c |}.

Definition withAccountOptions (o : provisionAccountCommandOptions) (c : Config) : Config :=
  {| ConfigFile := ConfigFile c; viperAccount := viperAccount c;
     viperVersion := viperVersion c; command_isLoaded := command_isLoaded c;
     provision_isLoaded := provision_isLoaded c;
     accountOptions := o; versionOptions := versionOptions c;
     optionLines := optionLines c |}.

Definition withVersionOptions (o : versionCommandOptions) (c : Config) : Config :=
  {| ConfigFile := ConfigFile c; viperAccount := viperAccount c;
     viperVersion := viperVersion c; command_isLoaded := command_isLoaded c;
     provision_isLoaded := provision_isLoaded c;
     accountOptions := accountOptions c; versionOptions := o;
     optionLines := optionLines c |}.

Definition withViper (a : viperProvisionAccountCommandOptions)
           (v : viperVersionCommandOptions) (c : Config) : Config :=
  {| ConfigFile := ConfigFile c; viperAccount := a;
     viperVersion := v; command_isLoaded := command_isLoaded c;
     provision_isLoaded := provision_isLoaded c;
     accountOptions := accountOptions c; versionOptions := versionOptions c;
     optionLines := optionLines c |}.

Definition logLine (l : zerolog_Level) (m : string) (c : Config) : Config :=
  {| ConfigFile := ConfigFile c; viperAccount := viperAccount c;
     viperVersion := viperVersion c; command_isLoaded := command_isLoaded c;
     provision_isLoaded := provision_isLoaded c;
     accountOptions := accountOptions c; versionOptions := versionOptions c;
     optionLines := (optionLines c ++ [(l, m)])%list |}.

(** [newProvisionAccountCommandOptions] and [newVersionCommandOptions] *)
Definition newProvisionAccountCommandOptions : provisionAccountCommandOptions :=
  {| CSVSeparator := _DefaultCSVSeparator; CSVSource := "";
     ReactivateExpiredAccount := false; ResetFirstUserPassword := false;
     account_isLoaded := false |}.

Definition newVersionCommandOptions : versionCommandOptions :=
  {| Short := false; Verbose := false; version_isLoaded := false |}.

(** [Load] of [commandOptions] *)
Definition commandOptions_Load (c : Config) : option ConfigValidateFailure * Config :=
  if command_isLoaded c then (None, c) else (None, withCommandLoaded c).

(** [Load] of [provisionCommandOptions] *)
Definition provisionCommandOptions_Load (c : Config)
  : option ConfigValidateFailure * Config :=
  if provision_isLoaded c then (None, c)
  else
    match commandOptions_Load c with
    | (Some errx, c1) => (Some errx, c1)
    | (None, c1) => (None, withProvisionLoaded c1)
    end.

(** [Load] of [provisionAccountCommandOptions]; [os_Stat] gives the error
    of [os.Stat] on a path, if any. *)
Definition provisionAccountCommandOptions_Load (os_Stat : string -> option goerror)
           (c : Config) : option ConfigValidateFailure * Config :=
  if account_isLoaded (accountOptions c) then (None, c)
  else
    match provisionCommandOptions_Load c with
    | (Some errx, c1) => (Some errx, c1)
    | (None, c1) =>
        let source := viper_CSVSource (viperAccount c1) in
        let save (separator : string) (c2 : Config) :=
          (None,
           withAccountOptions
             {| CSVSeparator := separator;
                CSVSource := source;
                ReactivateExpiredAccount :=
                  viper_ReactivateExpiredAccount (viperAccount c1);
                ResetFirstUserPassword :=
                  viper_ResetFirstUserPassword (viperAccount c1);
                account_isLoaded := true |} c2) in
        if negb (String.eqb source "") then
          let (separator, c2) :=
            if String.eqb (viper_CSVSeparator (viperAccount c1)) ""
            then (_DefaultCSVSeparator,
                  logLine zerolog_WarnLevel
                    ("an empty CSV separator is not allowed ; defaulting to "
                       ++ _DefaultCSVSeparator ++ " for separator") c1)
            else (viper_CSVSeparator (viperAccount c1), c1) in
          if negb (Nat.eqb (String.length separator) 1) then
            let errx := NewConfigValidateFailure (ConfigFile c2) "csv_separator"
                          separator "CSV separator must be a single character" in
            (Some errx,
             logLine zerolog_ErrorLevel (ConfigValidateFailure_Error errx) c2)
          else
            match os_Stat source with
            | Some e =>
                let errx := NewConfigValidateFailure (ConfigFile c2) "csv_source"
                              source e in
                (Some errx,
                 logLine zerolog_ErrorLevel (ConfigValidateFailure_Error errx) c2)
            | None => save separator c2
            end
        else save (viper_CSVSeparator (viperAccount c1)) c1
    end.

(** [Load] of [versionCommandOptions] *)
Definition versionCommandOptions_Load (c : Config)
  : option ConfigValidateFailure * Config :=
  if version_isLoaded (versionOptions c) then (None, c)
  else
    match commandOptions_Load c with
    | (Some errx, c1) => (Some errx, c1)
    | (None, c1) =>
        if (viper_Short (viperVersion c1) && viper_Verbose (viperVersion c1))%bool then
          let errx := NewConfigValidateFailure (ConfigFile c1) "short" "true"
                        "--short and --verbose are mutually exclusive flags" in
          (Some errx,
           logLine zerolog_ErrorLevel (ConfigValidateFailure_Error errx) c1)
        else
          (None,
           withVersionOptions
             {| Short := viper_Short (viperVersion c1);
                Verbose := viper_Verbose (viperVersion c1);
                version_isLoaded := true |} c1)
    end.

(** ** The filtered writer of the logger *)

(** [FilteredLevelWriterConditionFn]: a level of zerolog, an integer, to
    whether the record is logged. *)
Definition FilteredLevelWriterConditionFn : Type := Z -> bool.

(** [FilteredLevelWriterCondition]; [None] is the nil function. *)
Record FilteredLevelWriterCondition : Type := {
  fn : option FilteredLevelWriterConditionFn
}.

Definition NewFilteredLevelWriterCondition (f : option FilteredLevelWriterConditionFn)
  : FilteredLevelWriterCondition :=
  {| fn := f |}.

(** [And] *)
Definition And (c : FilteredLevelWriterCondition)
           (f : option FilteredLevelWriterConditionFn) : FilteredLevelWriterCondition :=
  {| fn := Some (fun level =>
                   match fn c, f with
                   | Some g, Some h => (g level && h level)%bool
                   | _, _ => false
                   end) |}.

(** [Or] *)
Definition Or (c : FilteredLevelWriterCondition)
           (f : option FilteredLevelWriterConditionFn) : FilteredLevelWriterCondition :=
  {| fn := Some (fun level =>
                   match fn c, f with
                   | Some g, Some h => (g level || h level)%bool
                   | Some g, None => g level
                   | None, Some h => h level
                   | None, None => false
                   end) |}.

Section Writer.

(** The writer underneath: what is written so far, and [Write], which
    gives the count and the error. *)
Variable Sink : Type.
Variable Write : list ascii -> Sink -> (Z * option goerror) * Sink.

(** [FilteredLevelWriter]; a condition of the list may be a nil pointer. *)
Record FilteredLevelWriter : Type := {
  cond : list (option FilteredLevelWriterCondition)
}.

(** The loop of [WriteLevel] and the write that follows it. *)
Fixpoint writeIfAll (conds : list (option FilteredLevelWriterCondition))
         (level : Z) (p : list ascii) (k : Sink) : (Z * option goerror) * Sink :=
  match conds with
  | [] => Write p k
  | c :: rest =>
      match c with
      | None => ((Z.of_nat (length p), None), k)
      | Some c =>
          match fn c with
          | None => ((Z.of_nat (length p), None), k)
          | Some f =>
              if negb (f level) then ((Z.of_nat (length p), None), k)
              else writeIfAll rest level p k
          end
      end
  end.

(** [WriteLevel] *)
Definition WriteLevel (fw : FilteredLevelWriter) (level : Z) (p : list ascii)
           (k : Sink) : (Z * option goerror) * Sink :=
  writeIfAll (cond fw) level p k.

(** A condition that is there, with a function that accepts the level. *)
Definition accepts (level : Z) (c : option FilteredLevelWriterCondition) : bool :=
  match c with
  | Some c =>
      match fn c with
      | Some f => f level
      | None => false
      end
  | None => false
  end.

End Writer.

(** The two writers [initLogger] builds, for standard output and standard
    error; [WarnLevel] is the level of warnings. *)
Definition stdoutFilter (WarnLevel : Z) : FilteredLevelWriter :=
  {| cond := [Some (NewFilteredLevelWriterCondition
                      (Some (fun level => (level <? WarnLevel)%Z)))] |}.

Definition stderrFilter (WarnLevel : Z) : FilteredLevelWriter :=
  {| cond := [Some (NewFilteredLevelWriterCondition
                      (Some (fun level => (level >=? WarnLevel)%Z)))] |}.

(** The separator [Load] validates: the default for an empty one. *)
Definition separatorOf (c : Config) : string :=
  if String.eqb (viper_CSVSeparator (viperAccount c)) ""
  then _DefaultCSVSeparator
  else viper_CSVSeparator (viperAccount c).


(** ** More scripts for the runs *)

Module Scripts.

Import Fake.

(** The platform answers every request with status 503 and no envelope. *)
Definition serverDown : @World runtime :=
  start [ok {| StatusCode := 503; RespBody := Junk |}].

Definition zenith : S1APIAccountObject :=
  {| api_acct_ID := "2002";
     api_acct_AccountType := "Paid";
     api_acct_BillingMode := "subscription";
     api_acct_Expiration := "2030-01-01T00:00:00Z";
     api_acct_ExternalID := "ext-2";
     api_acct_Name := "Zenith";
     api_acct_State := "active" |}.

(** The search for [Acme] answered with two accounts, [Zenith] first. *)
Definition twoAccounts : @World runtime :=
  start [reply [] (Accounts [zenith; acme "active"])].

(** The account found active. *)
Definition activeAccount : @World runtime :=
  start [reply [] (Accounts [acme "active"])].

(** The account found in a state the client does not know. *)
Definition deletedAccount : @World runtime :=
  start [reply [] (Accounts [acme "deleted"])].

Definition zenithEntry : S1APIUserScopeRoleObject :=
  {| api_sr_ScopeID := "2002"; api_sr_RoleID := "900"; api_sr_RoleName := "Viewer" |}.

(** The update answered with the user as it was before. *)
Definition unchangedUser : @World runtime :=
  start [reply [] (User (alice [zenithEntry]))].

(** A record of the CSV for [Acme] and its first user. *)
Definition acmeRecord : accountDetails :=
  {| AccountName := "Acme";
     AccountType := "Trial";
     Expires := "8760h";
     ExternalID := "ext-1";
     Bundle := "Complete";
     TotalAgents := 10;
     Modules := "star,ranger";
     FirstName := "Alice";
     LastName := "Liddell";
     EmailAddress := "alice@acme.example";
     Role := "Viewer" |}.

(** Everything of the record is there already; the reset is answered. *)
Definition provisioned : @World runtime :=
  start [reply [] (Accounts [acme "active"]);
         reply [] (Users [alice [adminEntry]]);
         reply [] (Roles [adminOf "1001"]);
         reply [] (AffectedData {| Affected := 1 |})].

(** The options before any [Load], with what viper has unmarshalled. *)
Definition freshConfig (separator source : string) (short verbose : bool) : Config :=
  {| ConfigFile := "config.yaml";
     viperAccount := {| viper_CSVSeparator := separator;
                        viper_CSVSource := source;
                        viper_ReactivateExpiredAccount := true;
                        viper_ResetFirstUserPassword := false |};
     viperVersion := {| viper_Short := short; viper_Verbose := verbose |};
     command_isLoaded := false;
     provision_isLoaded := false;
     accountOptions := newProvisionAccountCommandOptions;
     versionOptions := newVersionCommandOptions;
     optionLines := [] |}.

(** A file system with one file. *)
Definition oneFile (path : string) : option goerror :=
  if String.eqb path "accounts.csv" then None
  else Some "stat: no such file or directory".

End Scripts.

(** ** Basic facts about the calls *)

Ltac unfold_m :=
  unfold bind, ret, fail, panic, log, send, now, intn, unmarshalFailed in *;
  simpl in *.

Section Facts.

Context `{GoRuntime}.

Lemma logAPIErrors_run (es : list S1APIError) (w : World) :
  exists w', logAPIErrors es w = (Returns tt, w')
             /\ issued w' = issued w /\ remote w' = remote w.
Proof.
  revert w. induction es as [|e rest IH]; intros w; simpl.
  - exists w. auto.
  - unfold bind at 1.
    destruct (String.eqb (err_Detail e) "");
      unfold log at 1; simpl;
      match goal with
      | |- context [logAPIErrors rest ?w1] =>
          destruct (IH w1) as (w' & E & Hi & Hr)
      end; exists w'; rewrite E, Hi, Hr; auto.
Qed.

(** Whatever comes back, [exec] hands exactly one request to the
    transport, and it does not panic. *)
Lemma exec_issued (s : S1Client) (meth endpoint : string)
      (optFns : list s1ClientExecOptFn) (w : World) :
  issued (snd (exec s meth endpoint optFns w))
  = (issued w ++ [execRequest s meth endpoint optFns])%list
  /\ noPanic (fst (exec s meth endpoint optFns w)).
Proof.
  unfold exec. unfold_m.
  destruct (Execute _ _) as [res rem]. simpl.
  destruct res as [resp|e]; simpl; auto.
  destruct (StatusCode resp >=? http_StatusMethodNotAllowed); simpl; auto.
  destruct (StatusCode resp >=? http_StatusInternalServerError); simpl; auto.
  destruct (Unmarshal_S1APIResponse (RespBody resp)) as [api|e]; simpl; auto.
  destruct (0 <? length (Errors api))%nat; simpl; auto.
  match goal with
  | |- context [logAPIErrors ?es ?w1] =>
      destruct (logAPIErrors_run es w1) as (w' & E & Hi & Hr)
  end.
  rewrite E. simpl. rewrite Hi. simpl. auto.
Qed.

Lemma exec_answers (s : S1Client) (meth endpoint : string)
      (optFns : list s1ClientExecOptFn) (w : World)
      (api : S1APIResponse Raw) (rem : Remote) :
  answers w (execRequest s meth endpoint optFns) api rem ->
  exec s meth endpoint optFns w
  = (Returns api, called w (execRequest s meth endpoint optFns) rem).
Proof.
  intros (resp & HE & Hs & HU & Herr).
  unfold exec. unfold_m. rewrite HE. simpl.
  unfold http_StatusMethodNotAllowed, http_StatusInternalServerError in *.
  destruct (StatusCode resp >=? 405) eqn:E1; [lia|].
  destruct (StatusCode resp >=? 500) eqn:E2; [lia|].
  rewrite HU, Herr. reflexivity.
Qed.

Lemma exec_returns_inv (s : S1Client) (meth endpoint : string)
      (optFns : list s1ClientExecOptFn) (w w' : World)
      (api : S1APIResponse Raw) :
  exec s meth endpoint optFns w = (Returns api, w') ->
  exists rem,
    answers w (execRequest s meth endpoint optFns) api rem
    /\ w' = called w (execRequest s meth endpoint optFns) rem.
Proof.
  unfold exec. unfold_m.
  destruct (Execute _ _) as [res rem] eqn:HE. simpl.
  destruct res as [resp|e]; simpl; [|discriminate].
  destruct (StatusCode resp >=? http_StatusMethodNotAllowed) eqn:E1;
    simpl; [discriminate|].
  destruct (StatusCode resp >=? http_StatusInternalServerError) eqn:E2;
    simpl; [discriminate|].
  destruct (Unmarshal_S1APIResponse (RespBody resp)) as [api0|e] eqn:HU;
    simpl; [|discriminate].
  destruct (0 <? length (Errors api0))%nat eqn:E3; simpl.
  - match goal with
    | |- context [logAPIErrors ?es ?w1] =>
        destruct (logAPIErrors_run es w1) as (w2 & E & _ & _)
    end.
    rewrite E. simpl. discriminate.
  - intros Heq. inversion Heq; subst. exists rem. split; [|reflexivity].
    exists resp. repeat split; auto.
    + lia.
    + destruct (Errors api) as [|x l]; [reflexivity|discriminate].
Qed.

End Facts.

Ltac use_exec :=
  match goal with
  | |- context [exec ?s ?m ?e ?o ?w] =>
      let Hi := fresh "Hi" in
      let Hp := fresh "Hp" in
      let E := fresh "E" in
      destruct (exec_issued s m e o w) as [Hi Hp];
      destruct (exec s m e o w) as [[? | ? | ?] ?] eqn:E;
      simpl in Hi, Hp; try contradiction
  end.

Section Traces.

Context `{GoRuntime}.

Lemma fromS1APIAccountObject_issued (o : S1APIAccountObject) (w : World) :
  issues (fromS1APIAccountObject o) w [].
Proof.
  unfold issues, fromS1APIAccountObject.
  destruct (time_Parse _ _); unfold_m; rewrite app_nil_r; auto.
Qed.

Lemma FindAccount_issued (s : S1Client) (name : string) (w : World) :
  issues (FindAccount s name) w [findAccountRequest s name].
Proof.
  unfold issues, FindAccount, findAccountRequest. unfold_m. use_exec; simpl; auto.
  destruct (Unmarshal_accounts _) as [[|o l]|e]; simpl; auto.
  match goal with
  | |- context [fromS1APIAccountObject o ?w1] =>
      destruct (fromS1APIAccountObject_issued o w1) as [Hi' Hp'];
      destruct (fromS1APIAccountObject o w1) as [[acct|e'|r'] w2]
  end; simpl in *; try contradiction; rewrite Hi', Hi, app_nil_r; auto.
Qed.

Lemma FindRole_issued (s : S1Client) (accountID name : string) (w : World) :
  issues (FindRole s accountID name) w [findRoleRequest s accountID name].
Proof.
  unfold issues, FindRole, findRoleRequest. unfold_m. use_exec; simpl; auto.
  destruct (Unmarshal_roles _) as [[|o l]|e]; simpl; auto.
Qed.

Lemma FindUser_issued (s : S1Client) (email : string) (w : World) :
  issues (FindUser s email) w [findUserRequest s email].
Proof.
  unfold issues, FindUser, findUserRequest. unfold_m. use_exec; simpl; auto.
  destruct (Unmarshal_users _) as [[|o l]|e]; simpl; auto.
Qed.

Lemma ReactivateAccount_issued (s : S1Client) (id : string) (expires : time_Time)
      (w : World) :
  issues (ReactivateAccount s id expires) w [reactivateRequest s id expires].
Proof.
  unfold issues, ReactivateAccount, reactivateRequest. unfold_m.
  use_exec; simpl; auto.
  destruct (Unmarshal_success _) as [d|e]; simpl; auto.
  destruct (Success d); simpl; auto.
Qed.

Lemma UpdateUserScopeRoles_issued (s : S1Client) (userID : string)
      (roles : list S1UserScopeRole) (w : World) :
  issues (UpdateUserScopeRoles s userID roles) w [updateUserRequest s userID roles].
Proof.
  unfold issues, UpdateUserScopeRoles, updateUserRequest. unfold_m.
  use_exec; simpl; auto.
  destruct (Unmarshal_user _) as [d|e]; simpl; auto.
Qed.

Lemma configureExpiration_issued (req : S1AccountProvisioningRequest) (w : World) :
  issues (configureExpiration req) w [].
Proof.
  unfold issues, configureExpiration.
  destruct (time_ParseDuration _) as [d|e1].
  - unfold_m. destruct (time_Now _). simpl. rewrite app_nil_r. auto.
  - destruct (time_Parse _ _) as [t|e2]; unfold_m; rewrite app_nil_r; auto.
Qed.

End Traces.

(** ** Account reconciliation *)

Section Accounts.

Context `{GoRuntime}.

Lemma bind_run {A B : Type} (c : M A) (k : A -> M B) (w : World) :
  bind c k w
  = match c w with
    | (Returns a, w') => k a w'
    | (Fails e, w') => (Fails e, w')
    | (Panics r, w') => (Panics r, w')
    end.
Proof. reflexivity. Qed.

Lemma FindAccount_found_issued (s : S1Client) (name : string) (w w1 : World)
      (o : Outcome (option (S1Account time_Time))) :
  FindAccount s name w = (o, w1) ->
  issued w1 = (issued w ++ [findAccountRequest s name])%list /\ noPanic o.
Proof.
  intros E. destruct (FindAccount_issued s name w) as [Hi Hp].
  rewrite E in Hi, Hp. auto.
Qed.

Lemma configureExpiration_run (req : S1AccountProvisioningRequest) (w w2 : World)
      (o : Outcome time_Time) :
  configureExpiration req w = (o, w2) ->
  issued w2 = issued w /\ noPanic o.
Proof.
  intros E. destruct (configureExpiration_issued req w) as [Hi Hp].
  rewrite E in Hi, Hp. simpl in Hi. rewrite app_nil_r in Hi. auto.
Qed.

(** What [configureExpiration] does, by cases on the two parsers. *)
Lemma configureExpiration_duration (req : S1AccountProvisioningRequest)
      (w : World) (dur : time_Duration) :
  time_ParseDuration (req_Expires req) = ok dur ->
  configureExpiration req w
  = (Returns (time_Add (fst (time_Now (remote w))) dur),
     {| remote := snd (time_Now (remote w)); issued := issued w;
        logged := logged w |}).
Proof.
  intros E. unfold configureExpiration. rewrite E. unfold_m.
  destruct (time_Now (remote w)). reflexivity.
Qed.

Lemma configureExpiration_timestamp (req : S1AccountProvisioningRequest)
      (w : World) (e : goerror) (t : time_Time) :
  time_ParseDuration (req_Expires req) = err e ->
  time_Parse time_RFC3339 (req_Expires req) = ok t ->
  configureExpiration req w = (Returns t, w).
Proof.
  intros E1 E2. unfold configureExpiration. rewrite E1, E2. reflexivity.
Qed.

Lemma configureExpiration_neither (req : S1AccountProvisioningRequest)
      (w : World) (e1 e2 : goerror) :
  time_ParseDuration (req_Expires req) = err e1 ->
  time_Parse time_RFC3339 (req_Expires req) = err e2 ->
  configureExpiration req w
  = (Fails (expirationError req e2),
     {| remote := remote w; issued := issued w;
        logged := (logged w ++ [ {| level := ErrorLevel;
                                    message := Error (expirationError req e2) |} ])%list |}).
Proof.
  intros E1 E2. unfold configureExpiration. rewrite E1, E2. reflexivity.
Qed.

(** The value of [Expires] resolves in one world iff it resolves in any
    other: the parsers are pure and the clock always answers. *)
Lemma configureExpiration_returns_anywhere (req : S1AccountProvisioningRequest)
      (w w' wa : World) (t : time_Time) :
  configureExpiration req w = (Returns t, w') ->
  exists t' wa', configureExpiration req wa = (Returns t', wa').
Proof.
  destruct (time_ParseDuration (req_Expires req)) as [dur|e1] eqn:E1.
  - intros _. rewrite (configureExpiration_duration req wa _ E1). eauto.
  - destruct (time_Parse time_RFC3339 (req_Expires req)) as [t0|e2] eqn:E2.
    + intros _. rewrite (configureExpiration_timestamp req wa _ _ E1 E2). eauto.
    + rewrite (configureExpiration_neither req w _ _ E1 E2). discriminate.
Qed.

(** [CreateAccount] past its first two steps. *)
Lemma CreateAccount_found (s : S1Client) (req : S1AccountProvisioningRequest)
      (w w1 w2 : World) (a : S1Account time_Time) (expires : time_Time) :
  FindAccount s (req_AccountName req) w = (Returns (Some a), w1) ->
  configureExpiration req w1 = (Returns expires, w2) ->
  CreateAccount s req w
  = (if String.eqb (acct_State a) "active" then
       log InfoLevel "found existing active account" ;;; ret a
     else if String.eqb (acct_State a) "expired" then
       if negb (req_ReactivateAccount req) then
         log ErrorLevel (Error expiredError) ;;; fail expiredError
       else ReactivateAccount s (acct_ID a) expires ;;; ret a
     else
       let errx := NewS1ClientError
                     ("failed to create account because it exists and is currently '"
                        ++ acct_State a ++ "'")
                     "account already exists" in
       log ErrorLevel (Error errx) ;;; fail errx) w2.
Proof.
  intros E1 E2. unfold CreateAccount.
  rewrite bind_run, E1. rewrite bind_run, E2. reflexivity.
Qed.

Lemma CreateAccount_unresolved (s : S1Client) (req : S1AccountProvisioningRequest)
      (w w1 w2 : World) (found : option (S1Account time_Time))
      (e : S1ClientRequestError) :
  FindAccount s (req_AccountName req) w = (Returns found, w1) ->
  configureExpiration req w1 = (Fails e, w2) ->
  CreateAccount s req w = (Fails e, w2).
Proof.
  intros E1 E2. unfold CreateAccount.
  rewrite bind_run, E1. rewrite bind_run, E2. reflexivity.
Qed.

(** C1. When the account found by name is in state [expired] and the
    request does not ask for reactivation, [CreateAccount] returns an
    error and no account; the only request it issues is the lookup (a
    GET), so neither the create call (a POST) nor the reactivation call (a
    PUT) goes out.  The error is the one for an expired account whenever
    the value of [Expires] resolves. *)
Theorem CreateAccount_expired_not_reactivated
        (s : S1Client) (req : S1AccountProvisioningRequest) (w w1 : World)
        (a : S1Account time_Time) :
  FindAccount s (req_AccountName req) w = (Returns (Some a), w1) ->
  acct_State a = "expired" ->
  req_ReactivateAccount req = false ->
  exists e w',
    CreateAccount s req w = (Fails e, w')
    /\ issued w' = (issued w ++ [findAccountRequest s (req_AccountName req)])%list
    /\ (forall r, In r (issued w') -> In r (issued w) \/ Method r = http_MethodGet)
    /\ (forall expires w2,
           configureExpiration req w1 = (Returns expires, w2) -> e = expiredError).
Proof.
  intros HF Hst Hre.
  destruct (FindAccount_found_issued _ _ _ _ _ HF) as [Hi1 _].
  assert (Hget : forall w', issued w' = issued w1 ->
            forall r, In r (issued w') -> In r (issued w) \/ Method r = http_MethodGet).
  { intros w' Hw' r Hr. rewrite Hw', Hi1 in Hr. apply in_app_or in Hr.
    destruct Hr as [Hr|[Hr|[]]]; [left; exact Hr|right; subst r; reflexivity]. }
  destruct (configureExpiration req w1) as [[expires|e|r] w2] eqn:HC;
    destruct (configureExpiration_run _ _ _ _ HC) as [Hi2 Hp2]; try contradiction.
  - rewrite (CreateAccount_found _ _ _ _ _ _ _ HF HC), Hst, Hre. simpl.
    eexists. eexists. split; [reflexivity|]. simpl.
    split; [rewrite Hi2; exact Hi1|].
    split; [apply Hget; simpl; exact Hi2|].
    reflexivity.
  - rewrite (CreateAccount_unresolved _ _ _ _ _ _ _ HF HC).
    exists e, w2. split; [reflexivity|].
    split; [rewrite Hi2; exact Hi1|].
    split; [apply Hget; exact Hi2|].
    intros expires w3 Hx. discriminate.
Qed.

Lemma CreateAccount_returns_resolves (s : S1Client)
      (req : S1AccountProvisioningRequest) (w0 w : World) (a : S1Account time_Time) :
  CreateAccount s req w0 = (Returns a, w) ->
  forall wa, exists t wa', configureExpiration req wa = (Returns t, wa').
Proof.
  unfold CreateAccount. rewrite bind_run.
  destruct (FindAccount s (req_AccountName req) w0) as [[found|e|r] w1];
    try discriminate.
  rewrite bind_run.
  destruct (configureExpiration req w1) as [[t|e|r] w2] eqn:HC; try discriminate.
  intros _ wa. exact (configureExpiration_returns_anywhere req w1 w2 wa t HC).
Qed.

(** C2, as the code has it.  The value of [Expires] is resolved before the
    state of the account found is looked at.  When the account found by
    name is in state [active] and the value of [Expires] resolves,
    [CreateAccount] returns the account found, as found, and issues
    nothing but the lookup: the resolved expiration goes nowhere.  In
    particular, in the world a first run that returned an account has
    left, the value resolves again, so a second run with the same request
    that finds the account active returns it with the lookup as its only
    request; its identifier is the first run's as soon as the platform
    reports that identifier for the name. *)
Theorem CreateAccount_active_adopted
        (s : S1Client) (req : S1AccountProvisioningRequest) (w w1 : World)
        (a : S1Account time_Time) :
  FindAccount s (req_AccountName req) w = (Returns (Some a), w1) ->
  acct_State a = "active" ->
  (forall expires w2,
      configureExpiration req w1 = (Returns expires, w2) ->
      exists w',
        CreateAccount s req w = (Returns a, w')
        /\ issued w' = (issued w ++ [findAccountRequest s (req_AccountName req)])%list
        /\ remote w' = remote w2)
  /\ (forall w0 a1,
         CreateAccount s req w0 = (Returns a1, w) ->
         acct_ID a = acct_ID a1 ->
         exists a2 w',
           CreateAccount s req w = (Returns a2, w')
           /\ a2 = a
           /\ acct_ID a2 = acct_ID a1
           /\ issued w' = (issued w ++ [findAccountRequest s (req_AccountName req)])%list).
Proof.
  intros HF Hst.
  destruct (FindAccount_found_issued _ _ _ _ _ HF) as [Hi1 _].
  assert (Hfirst : forall expires w2,
             configureExpiration req w1 = (Returns expires, w2) ->
             exists w',
               CreateAccount s req w = (Returns a, w')
               /\ issued w' = (issued w ++ [findAccountRequest s (req_AccountName req)])%list
               /\ remote w' = remote w2).
  { intros expires w2 HC.
    destruct (configureExpiration_run _ _ _ _ HC) as [Hi2 _].
    rewrite (CreateAccount_found _ _ _ _ _ _ _ HF HC), Hst. simpl.
    eexists. split; [reflexivity|]. simpl. split; [|reflexivity].
    rewrite Hi2. exact Hi1. }
  split; [exact Hfirst|].
  intros w0 a1 Hrun Hid.
  destruct (CreateAccount_returns_resolves _ _ _ _ _ Hrun w1) as (t & w2 & HC).
  destruct (Hfirst t w2 HC) as (w' & E & Hi & _).
  exists a, w'. auto.
Qed.

(** C9, as the code has it.  [CreateAccount] looks the account up first
    and resolves the expiration second.  For a value of [Expires] that is
    neither a duration nor a timestamp it always fails and never gets to
    the create or the reactivation call, but the lookup has gone out: it is
    the one request issued.  The error names the value when the lookup
    returned, and is the error of the lookup when the lookup failed. *)
Theorem CreateAccount_unparsable_after_lookup
        (s : S1Client) (req : S1AccountProvisioningRequest) (w : World)
        (e1 e2 : goerror) :
  time_ParseDuration (req_Expires req) = err e1 ->
  time_Parse time_RFC3339 (req_Expires req) = err e2 ->
  exists e w',
    CreateAccount s req w = (Fails e, w')
    /\ issued w' = (issued w ++ [findAccountRequest s (req_AccountName req)])%list
    /\ (forall found w1,
           FindAccount s (req_AccountName req) w = (Returns found, w1) ->
           e = expirationError req e2)
    /\ (forall e' w1,
           FindAccount s (req_AccountName req) w = (Fails e', w1) -> e = e').
Proof.
  intros E1 E2. unfold CreateAccount. rewrite bind_run.
  destruct (FindAccount s (req_AccountName req) w) as [[found|e|r] w1] eqn:HF;
    destruct (FindAccount_found_issued _ _ _ _ _ HF) as [Hi1 Hp1];
    try contradiction.
  - rewrite bind_run, (configureExpiration_neither req w1 _ _ E1 E2).
    eexists. eexists. split; [reflexivity|]. simpl.
    split; [exact Hi1|]. split.
    + reflexivity.
    + intros e' w2 Hx. discriminate.
  - exists e, w1. split; [reflexivity|]. split; [exact Hi1|]. split.
    + intros found w2 Hx. discriminate.
    + intros e' w2 Hx. inversion Hx. reflexivity.
Qed.

Lemma CreateAccount_not_found_issued (s : S1Client)
      (req : S1AccountProvisioningRequest) (w w1 w2 : World) (expires : time_Time) :
  FindAccount s (req_AccountName req) w = (Returns None, w1) ->
  configureExpiration req w1 = (Returns expires, w2) ->
  issued (snd (CreateAccount s req w))
  = (issued w ++ [findAccountRequest s (req_AccountName req);
                  createAccountRequest s req expires])%list
  /\ noPanic (fst (CreateAccount s req w)).
Proof.
  intros HF HC.
  destruct (FindAccount_found_issued _ _ _ _ _ HF) as [Hi1 _].
  destruct (configureExpiration_run _ _ _ _ HC) as [Hi2 _].
  unfold CreateAccount. rewrite bind_run, HF. rewrite bind_run, HC.
  unfold createAccountRequest. unfold_m. use_exec; simpl.
  - destruct (Unmarshal_account _) as [o|e]; simpl.
    + match goal with
      | |- context [fromS1APIAccountObject o ?wx] =>
          destruct (fromS1APIAccountObject_issued o wx) as [Hi' Hp'];
          destruct (fromS1APIAccountObject o wx) as [[acct|e'|r'] wy]
      end; simpl in *; try contradiction;
        rewrite Hi', Hi, Hi2, Hi1, app_nil_r, <- app_assoc; auto.
    + rewrite Hi, Hi2, Hi1, <- app_assoc; auto.
  - rewrite Hi, Hi2, Hi1, <- app_assoc; auto.
Qed.

(** C4, as the code has it.  The value of [Expires] is resolved only once
    the lookup of the account has returned.  It is then resolved with the
    precedence stated: a duration gives the time of the clock plus the
    duration; otherwise an RFC 3339 timestamp gives itself; otherwise
    [CreateAccount] fails with the error that names the value.  The
    resolved time is the one the create call carries. *)
Theorem CreateAccount_expiration_precedence
        (s : S1Client) (req : S1AccountProvisioningRequest) (w w1 : World)
        (found : option (S1Account time_Time)) :
  FindAccount s (req_AccountName req) w = (Returns found, w1) ->
  (forall dur,
      time_ParseDuration (req_Expires req) = ok dur ->
      fst (configureExpiration req w1)
      = Returns (time_Add (fst (time_Now (remote w1))) dur))
  /\ (forall e1 t,
         time_ParseDuration (req_Expires req) = err e1 ->
         time_Parse time_RFC3339 (req_Expires req) = ok t ->
         fst (configureExpiration req w1) = Returns t)
  /\ (forall e1 e2,
         time_ParseDuration (req_Expires req) = err e1 ->
         time_Parse time_RFC3339 (req_Expires req) = err e2 ->
         fst (CreateAccount s req w) = Fails (expirationError req e2))
  /\ (forall expires,
         fst (configureExpiration req w1) = Returns expires ->
         found = None ->
         issued (snd (CreateAccount s req w))
         = (issued w ++ [findAccountRequest s (req_AccountName req);
                         createAccountRequest s req expires])%list).
Proof.
  intros HF. repeat split.
  - intros dur E. rewrite (configureExpiration_duration req w1 _ E). reflexivity.
  - intros e1 t E1 E2. rewrite (configureExpiration_timestamp req w1 _ _ E1 E2).
    reflexivity.
  - intros e1 e2 E1 E2.
    rewrite (CreateAccount_unresolved _ _ _ _ _ _ _ HF
               (configureExpiration_neither req w1 _ _ E1 E2)).
    reflexivity.
  - intros expires HC Hnone. subst found.
    destruct (configureExpiration req w1) as [o w2] eqn:E. simpl in HC. subst o.
    exact (proj1 (CreateAccount_not_found_issued _ _ _ _ _ _ HF E)).
Qed.



Lemma reactivateRequest_Body (s : S1Client) (id : string) (expires : time_Time) :
  Body (reactivateRequest s id expires)
  = Some (JObj [("data", JObj [("unlimited", JBool false);
                               ("expiration",
                                JStr (time_Format expires time_RFC3339))])]).
Proof. reflexivity. Qed.


End Accounts.

(** ** User reconciliation *)

Section Users.

Context `{GoRuntime}.

Lemma index_in_range {A : Type} (l : list A) (i : Z) :
  0 <= i < Z.of_nat (length l) -> exists c, index l i = Some c.
Proof.
  intros Hi. unfold index.
  destruct (i <? 0)%Z eqn:E; [lia|].
  destruct (nth_error l (Z.to_nat i)) as [c|] eqn:En; [eauto|].
  apply nth_error_None in En. lia.
Qed.

(** The loop of the password always ends with [n] more runes written, and
    touches nothing but the random source. *)
Lemma writeRunes_run (n : nat) (b : string) (w : World) :
  exists p w',
    writeRunes n b w = (Returns p, w')
    /\ issued w' = issued w
    /\ logged w' = logged w
    /\ String.length p = (String.length b + n)%nat.
Proof.
  revert b w. induction n as [|k IH]; intros b w; simpl.
  - exists b, w. unfold ret. repeat split; auto.
  - rewrite bind_run. unfold intn.
    match goal with
    | |- context [rand_Intn ?n ?r] =>
        pose proof (@rand_Intn_range _ n r) as Hr;
        destruct (rand_Intn n r) as [i rem]
    end.
    simpl in Hr.
    destruct (index_in_range chars i) as (c & Hc).
    { apply Hr. reflexivity. }
    cbv beta iota zeta. rewrite Hc.
    match goal with
    | |- context [writeRunes k ?b1 ?w1] =>
        destruct (IH b1 w1) as (p & w' & E & Hi & Hl & Hlen)
    end.
    exists p, w'. rewrite E. simpl in *. repeat split; auto.
    rewrite Hlen. clear. induction b as [|x b IHb]; simpl; lia.
Qed.

Lemma FindUser_run (s : S1Client) (email : string) (w w1 : World)
      (o : Outcome (option S1User)) :
  FindUser s email w = (o, w1) ->
  issued w1 = (issued w ++ [findUserRequest s email])%list /\ noPanic o.
Proof.
  intros E. destruct (FindUser_issued s email w) as [Hi Hp].
  rewrite E in Hi, Hp. auto.
Qed.

Lemma FindRole_run (s : S1Client) (accountID name : string) (w w1 : World)
      (o : Outcome (option S1Role)) :
  FindRole s accountID name w = (o, w1) ->
  issued w1 = (issued w ++ [findRoleRequest s accountID name])%list /\ noPanic o.
Proof.
  intros E. destruct (FindRole_issued s accountID name w) as [Hi Hp].
  rewrite E in Hi, Hp. auto.
Qed.

(** [CreateUser] past its two lookups, for a user that exists. *)
Lemma CreateUser_found (s : S1Client) (req : S1UserProvisioningRequest)
      (accountID : string) (w w1 w2 : World) (u : S1User) (role : option S1Role) :
  FindUser s (req_EmailAddress req) w = (Returns (Some u), w1) ->
  FindRole s accountID "Admin" w1 = (Returns role, w2) ->
  CreateUser s req accountID w
  = (if hasScope accountID (user_ScopeRoles u) then
       log InfoLevel "found existing user" ;;; ret u
     else
       match role with
       | None => panic "invalid memory address or nil pointer dereference"
       | Some adminRole =>
           UpdateUserScopeRoles s (user_ID u)
             (user_ScopeRoles u ++
                [ {| ScopeID := accountID; RoleID := role_ID adminRole;
                     RoleName := role_Name adminRole |} ])%list
       end) w2.
Proof.
  intros E1 E2. unfold CreateUser.
  rewrite bind_run, E1. rewrite bind_run, E2. reflexivity.
Qed.

(** [CreateUser] past its two lookups, for a user that does not exist. *)
Lemma CreateUser_absent (s : S1Client) (req : S1UserProvisioningRequest)
      (accountID : string) (w w1 w2 : World) (role : option S1Role) :
  FindUser s (req_EmailAddress req) w = (Returns None, w1) ->
  FindRole s accountID "Admin" w1 = (Returns role, w2) ->
  CreateUser s req accountID w
  = (passwd <- writeRunes 32 "" ;;
     log InfoLevel "creating new user" ;;;
     resp <- exec s http_MethodPost "/users"
               [withRequestBody (createUserBody req accountID passwd)] ;;
     match Unmarshal_user (Data resp) with
     | err e => unmarshalFailed e
     | ok newUser => fromS1APIUserObject newUser
     end) w2.
Proof.
  intros E1 E2. unfold CreateUser.
  rewrite bind_run, E1. rewrite bind_run, E2. reflexivity.
Qed.

(** A user found without an entry for the account, and no [Admin] role:
    the nil role is dereferenced. *)
Lemma CreateUser_nil_role_panics (s : S1Client) (req : S1UserProvisioningRequest)
      (accountID : string) (w w1 w2 : World) (u : S1User) :
  FindUser s (req_EmailAddress req) w = (Returns (Some u), w1) ->
  FindRole s accountID "Admin" w1 = (Returns None, w2) ->
  hasScope accountID (user_ScopeRoles u) = false ->
  CreateUser s req accountID w
  = (Panics "invalid memory address or nil pointer dereference", w2).
Proof.
  intros E1 E2 Hs. rewrite (CreateUser_found _ _ _ _ _ _ _ _ E1 E2), Hs.
  reflexivity.
Qed.

(** The create call of a user that does not exist: the password written,
    the request issued, and what comes back. *)
Lemma CreateUser_absent_run (s : S1Client) (req : S1UserProvisioningRequest)
      (accountID : string) (w w1 w2 : World) (role : option S1Role) :
  FindUser s (req_EmailAddress req) w = (Returns None, w1) ->
  FindRole s accountID "Admin" w1 = (Returns role, w2) ->
  exists passwd wp,
    writeRunes 32 "" w2 = (Returns passwd, wp)
    /\ String.length passwd = 32%nat
    /\ issued (snd (CreateUser s req accountID w))
       = (issued w ++ [findUserRequest s (req_EmailAddress req);
                       findRoleRequest s accountID "Admin";
                       createUserRequest s req accountID passwd])%list
    /\ noPanic (fst (CreateUser s req accountID w))
    /\ (forall api rem o wx,
           answers wp (createUserRequest s req accountID passwd) api rem ->
           Unmarshal_user (Data api) = ok o ->
           fst (CreateUser s req accountID w) = fst (fromS1APIUserObject o wx)).
Proof.
  intros E1 E2.
  destruct (FindUser_run _ _ _ _ _ E1) as [Hi1 _].
  destruct (FindRole_run _ _ _ _ _ _ E2) as [Hi2 _].
  rewrite (CreateUser_absent _ _ _ _ _ _ _ E1 E2).
  destruct (writeRunes_run 32 "" w2) as (passwd & wp & EP & Hi3 & _ & Hlen).
  exists passwd, wp. split; [exact EP|]. split; [exact Hlen|].
  rewrite bind_run, EP. unfold createUserRequest. unfold_m.
  split; [|split].
  - use_exec; simpl.
    + destruct (Unmarshal_user _) as [o|e]; unfold_m;
        rewrite Hi, Hi3, Hi2, Hi1, <- !app_assoc; reflexivity.
    + rewrite Hi, Hi3, Hi2, Hi1, <- !app_assoc; reflexivity.
  - use_exec; simpl; auto.
    destruct (Unmarshal_user _) as [o|e]; unfold_m; auto.
  - intros api rem o wx Ha Ho.
    match goal with
    | |- context [exec s ?m ?e ?o ?w1] =>
        rewrite (exec_answers s m e o w1 api rem Ha)
    end.
    rewrite Ho. reflexivity.
Qed.


(** C6, as the code has it.  When the lookup of the [Admin] role returns
    no role and no error, [CreateUser] does not fail for that reason.  For
    a user that already has a scope role for the target account it returns
    that user.  For a user that does not exist it goes on to the create
    call, which names the requested role, does not panic, and returns the
    user the platform created when that call is answered and its payload
    decodes.  (A user that exists without a scope role for the account is
    not covered here.) *)
Theorem CreateUser_admin_role_absent
        (s : S1Client) (req : S1UserProvisioningRequest) (accountID : string)
        (w w1 w2 : World) (found : option S1User) :
  FindUser s (req_EmailAddress req) w = (Returns found, w1) ->
  FindRole s accountID "Admin" w1 = (Returns None, w2) ->
  (forall u,
      found = Some u ->
      hasScope accountID (user_ScopeRoles u) = true ->
      fst (CreateUser s req accountID w) = Returns u)
  /\ (found = None ->
      exists passwd wp,
        writeRunes 32 "" w2 = (Returns passwd, wp)
        /\ issued (snd (CreateUser s req accountID w))
           = (issued w ++ [findUserRequest s (req_EmailAddress req);
                           findRoleRequest s accountID "Admin";
                           createUserRequest s req accountID passwd])%list
        /\ noPanic (fst (CreateUser s req accountID w))
        /\ (forall api rem o,
               answers wp (createUserRequest s req accountID passwd) api rem ->
               Unmarshal_user (Data api) = ok o ->
               exists u,
                 fst (CreateUser s req accountID w) = Returns u
                 /\ user_ID u = api_user_ID o
                 /\ user_EmailAddress u = api_user_EmailAddress o)).
Proof.
  intros HF HR. split.
  - intros u Hu Hs. subst found.
    rewrite (CreateUser_found _ _ _ _ _ _ _ _ HF HR), Hs. reflexivity.
  - intros Hn. subst found.
    destruct (CreateUser_absent_run _ req _ _ _ _ _ HF HR)
      as (passwd & wp & EP & _ & Hi & Hp & Hok).
    exists passwd, wp. split; [exact EP|]. split; [exact Hi|]. split; [exact Hp|].
    intros api rem o Ha Ho. rewrite (Hok api rem o w Ha Ho).
    eexists. split; [reflexivity|]. split; reflexivity.
Qed.

Lemma createUserRequest_Body (s : S1Client) (req : S1UserProvisioningRequest)
      (accountID passwd : string) :
  Body (createUserRequest s req accountID passwd)
  = Some (JObj [("data", JObj [
      ("email", JStr (req_EmailAddress req));
      ("password", JStr passwd);
      ("fullName", JStr (req_FirstName req ++ " " ++ req_LastName req));
      ("scope", JStr "account");
      ("scopeRoles", JArr [JObj [("id", JStr accountID);
                                 ("roleName", JStr (req_Role req))]]);
      ("twoFaEnabled", JBool true)])]).
Proof. reflexivity. Qed.

Lemma updateUserRequest_Body (s : S1Client) (userID : string)
      (roles : list S1UserScopeRole) :
  Body (updateUserRequest s userID roles)
  = Some (JObj [("data", JObj [("scope", JStr "account");
                               ("scopeRoles", JArr (map scopeRoleJSON roles))])]).
Proof. reflexivity. Qed.

(** C7. Past the lookup of the user, with the lookup of the [Admin] role
    returned.  For a user found without a scope role for the target
    account, [CreateUser] is the update of that user's scope roles with
    one entry appended, which binds the target account to the identifier
    and the name of the role found, whatever role the request names; the
    update call carries that list.  For a user not found, the create call
    carries the e-mail address, a password of 32 runes, first and last
    name joined by one space, the scope [account], one scope role with the
    target account and the role the request names, and two-factor
    enabled. *)
Theorem CreateUser_role_of_entry
        (s : S1Client) (req : S1UserProvisioningRequest) (accountID : string)
        (w w1 w2 : World) (found : option S1User) (role : option S1Role) :
  FindUser s (req_EmailAddress req) w = (Returns found, w1) ->
  FindRole s accountID "Admin" w1 = (Returns role, w2) ->
  (forall u adminRole,
      found = Some u ->
      hasScope accountID (user_ScopeRoles u) = false ->
      role = Some adminRole ->
      let roles :=
        (user_ScopeRoles u ++
           [ {| ScopeID := accountID; RoleID := role_ID adminRole;
                RoleName := role_Name adminRole |} ])%list in
      CreateUser s req accountID w = UpdateUserScopeRoles s (user_ID u) roles w2
      /\ issued (snd (CreateUser s req accountID w))
         = (issued w ++ [findUserRequest s (req_EmailAddress req);
                         findRoleRequest s accountID "Admin";
                         updateUserRequest s (user_ID u) roles])%list
      /\ Body (updateUserRequest s (user_ID u) roles)
         = Some (JObj [("data", JObj [("scope", JStr "account");
                                      ("scopeRoles", JArr (map scopeRoleJSON roles))])])
      /\ map scopeRoleJSON roles
         = (map scopeRoleJSON (user_ScopeRoles u) ++
              [JObj [("id", JStr accountID); ("roleId", JStr (role_ID adminRole));
                     ("roleName", JStr (role_Name adminRole))]])%list)
  /\ (found = None ->
      exists passwd,
        String.length passwd = 32%nat
        /\ issued (snd (CreateUser s req accountID w))
           = (issued w ++ [findUserRequest s (req_EmailAddress req);
                           findRoleRequest s accountID "Admin";
                           createUserRequest s req accountID passwd])%list
        /\ Body (createUserRequest s req accountID passwd)
           = Some (JObj [("data", JObj [
               ("email", JStr (req_EmailAddress req));
               ("password", JStr passwd);
               ("fullName", JStr (req_FirstName req ++ " " ++ req_LastName req));
               ("scope", JStr "account");
               ("scopeRoles", JArr [JObj [("id", JStr accountID);
                                          ("roleName", JStr (req_Role req))]]);
               ("twoFaEnabled", JBool true)])])).
Proof.
  intros HF HR.
  destruct (FindUser_run _ _ _ _ _ HF) as [Hi1 _].
  destruct (FindRole_run _ _ _ _ _ _ HR) as [Hi2 _].
  split.
  - intros u adminRole Hu Hs Hrole roles. subst found role.
    assert (Hrun : CreateUser s req accountID w
                   = UpdateUserScopeRoles s (user_ID u) roles w2).
    { rewrite (CreateUser_found _ _ _ _ _ _ _ _ HF HR), Hs. reflexivity. }
    split; [exact Hrun|]. split; [|split].
    + rewrite Hrun.
      rewrite (proj1 (UpdateUserScopeRoles_issued s (user_ID u) roles w2)).
      rewrite Hi2, Hi1, <- !app_assoc. reflexivity.
    + apply updateUserRequest_Body.
    + unfold roles. rewrite map_app. reflexivity.
  - intros Hn. subst found.
    destruct (CreateUser_absent_run _ req _ _ _ _ _ HF HR)
      as (passwd & wp & EP & Hlen & Hi & _).
    exists passwd. split; [exact Hlen|]. split; [exact Hi|].
    apply createUserRequest_Body.
Qed.

End Users.

(** ** The envelope and the lookups *)

Section Envelope.

Context `{GoRuntime}.

(** C8. When the response to a call decodes to an envelope whose list of
    errors is not empty, [exec] fails, whatever the status code: with a
    status below 405 (a successful one in particular) the error returned
    is the one fixed error [apiErrors], which carries none of the entries
    of the list; from 405 on [exec] has failed on the status already.  And
    [exec] returns an envelope only when its list of errors is empty. *)
Theorem exec_envelope_errors
        (s : S1Client) (meth endpoint : string) (optFns : list s1ClientExecOptFn)
        (w : World) (resp : Response Raw) (rem : Remote) (api : S1APIResponse Raw) :
  Execute (execRequest s meth endpoint optFns) (remote w) = (ok resp, rem) ->
  Unmarshal_S1APIResponse (RespBody resp) = ok api ->
  Errors api <> [] ->
  (exists e, fst (exec s meth endpoint optFns w) = Fails e)
  /\ (StatusCode resp < http_StatusMethodNotAllowed ->
      fst (exec s meth endpoint optFns w) = Fails (apiErrors s meth endpoint))
  /\ (forall w0 api' w',
         exec s meth endpoint optFns w0 = (Returns api', w') -> Errors api' = []).
Proof.
  intros HE HU Hne.
  assert (Hlen : (0 <? length (Errors api))%nat = true).
  { destruct (Errors api); [contradiction|reflexivity]. }
  assert (Hlow : StatusCode resp < http_StatusMethodNotAllowed ->
                 fst (exec s meth endpoint optFns w) = Fails (apiErrors s meth endpoint)).
  { intros Hs. unfold exec. unfold_m. rewrite HE. simpl.
    unfold http_StatusMethodNotAllowed, http_StatusInternalServerError in *.
    destruct (StatusCode resp >=? 405) eqn:E1; [lia|].
    destruct (StatusCode resp >=? 500) eqn:E2; [lia|].
    rewrite HU, Hlen.
    match goal with
    | |- context [logAPIErrors ?es ?w1] =>
        destruct (logAPIErrors_run es w1) as (w2 & E & _ & _)
    end.
    rewrite E. reflexivity. }
  split; [|split].
  - destruct (StatusCode resp >=? http_StatusMethodNotAllowed) eqn:E1.
    + unfold exec. unfold_m. rewrite HE. simpl. rewrite E1. simpl. eauto.
    + exists (apiErrors s meth endpoint). apply Hlow.
      unfold http_StatusMethodNotAllowed in *. lia.
  - exact Hlow.
  - intros w0 api' w' Hrun.
    destruct (exec_returns_inv _ _ _ _ _ _ _ Hrun) as (rem' & (r & _ & _ & _ & Hnil) & _).
    exact Hnil.
Qed.

(** C10. When the search a lookup makes is answered and the list it
    decodes is empty, the lookup returns no object and no error: this
    holds for [FindAccount] by name, [FindUser] by e-mail address and
    [FindRole] by account identifier and role name. *)
Theorem lookups_absent_is_nil
        (s : S1Client) (w : World) (api : S1APIResponse Raw) (rem : Remote) :
  (forall name,
      answers w (findAccountRequest s name) api rem ->
      Unmarshal_accounts (Data api) = ok [] ->
      exists w', FindAccount s name w = (Returns None, w') /\ remote w' = rem)
  /\ (forall email,
         answers w (findUserRequest s email) api rem ->
         Unmarshal_users (Data api) = ok [] ->
         exists w', FindUser s email w = (Returns None, w') /\ remote w' = rem)
  /\ (forall accountID name,
         answers w (findRoleRequest s accountID name) api rem ->
         Unmarshal_roles (Data api) = ok [] ->
         exists w', FindRole s accountID name w = (Returns None, w') /\ remote w' = rem).
Proof.
  split; [|split].
  - intros name Ha Hd. unfold FindAccount. rewrite bind_run. unfold log at 1.
    rewrite bind_run.
    match goal with
    | |- context [exec s ?m ?e ?o ?w1] =>
        rewrite (exec_answers s m e o w1 api rem Ha)
    end.
    rewrite Hd. eexists. split; reflexivity.
  - intros email Ha Hd. unfold FindUser. rewrite bind_run. unfold log at 1.
    rewrite bind_run.
    match goal with
    | |- context [exec s ?m ?e ?o ?w1] =>
        rewrite (exec_answers s m e o w1 api rem Ha)
    end.
    rewrite Hd. eexists. split; reflexivity.
  - intros accountID name Ha Hd. unfold FindRole. rewrite bind_run.
    unfold log at 1. rewrite bind_run.
    match goal with
    | |- context [exec s ?m ?e ?o ?w1] =>
        rewrite (exec_answers s m e o w1 api rem Ha)
    end.
    rewrite Hd. eexists. split; reflexivity.
Qed.

End Envelope.

(** ** Runs against the scripted transport *)

Module Runs.

Import Fake.

(** An account found expired, no reactivation asked for. *)
Lemma expired_not_reactivated_run :
  exists e w',
    CreateAccount client (acmeRequest "720h" false) (expiredThen true) = (Fails e, w')
    /\ issued w' = [findAccountRequest client "Acme"]
    /\ e = expiredError.
Proof.
  eassert (HF : FindAccount client "Acme" (expiredThen true)
                = (Returns (Some _), _)) by (vm_compute; reflexivity).
  destruct (CreateAccount_expired_not_reactivated
              client (acmeRequest "720h" false) (expiredThen true)
              _ _ HF eq_refl eq_refl)
    as (e & w' & E & Hi & _ & He).
  exists e, w'. split; [exact E|]. split; [exact Hi|].
  eapply He. vm_compute. reflexivity.
Defined.

(** A first run that creates the account, a second that finds it. *)
Lemma active_adopted_run :
  exists a1 w1 a2 w2,
    CreateAccount client (acmeRequest "8760h" false) twoRuns = (Returns a1, w1)
    /\ CreateAccount client (acmeRequest "8760h" false) w1 = (Returns a2, w2)
    /\ acct_ID a2 = acct_ID a1
    /\ issued w2 = (issued w1 ++ [findAccountRequest client "Acme"])%list.
Proof.
  eassert (Hrun : CreateAccount client (acmeRequest "8760h" false) twoRuns
                  = (Returns _, _)) by (vm_compute; reflexivity).
  match type of Hrun with
  | _ = (Returns ?a1, ?w1) =>
      eassert (HF : FindAccount client "Acme" w1 = (Returns (Some _), _))
        by (vm_compute; reflexivity);
      destruct (CreateAccount_active_adopted
                  client (acmeRequest "8760h" false) w1 _ _ HF eq_refl)
        as [_ Hsecond];
      destruct (Hsecond twoRuns a1 Hrun eq_refl) as (a2 & w2 & E & _ & Hid & Hi);
      exists a1, w1, a2, w2
  end.
  split; [exact Hrun|]. split; [exact E|]. split; [exact Hid|exact Hi].
Defined.

(** An account found active with a value of [Expires] neither parser
    accepts: the account is not returned. *)
Lemma active_unparsable_run :
  bothParsersFail (acmeRequest "next week" false)
  /\ (exists a,
        fst (FindAccount client "Acme" Scripts.activeAccount) = Returns (Some a)
        /\ acct_State a = "active")
  /\ fst (CreateAccount client (acmeRequest "next week" false) Scripts.activeAccount)
     = Fails (expirationError (acmeRequest "next week" false)
                "parsing time: cannot parse")
  /\ (forall a,
         fst (CreateAccount client (acmeRequest "next week" false)
                Scripts.activeAccount)
         <> Returns a).
Proof.
  split; [split; eexists; vm_compute; reflexivity|].
  split; [eexists; split; vm_compute; reflexivity|].
  split; [vm_compute; reflexivity|].
  intros a. vm_compute. discriminate.
Qed.

(** The lookup fails on the transport: the error is the transport's, and
    the value of [Expires], which neither parser accepts, is not looked
    at. *)
Lemma unparsable_lookup_failed_run :
  bothParsersFail (acmeRequest "next week" false)
  /\ fst (CreateAccount client (acmeRequest "next week" false) (start []))
     = Fails (NewS1ClientRequestError "GET"
                "https://tenant.example/web/api/v2.1/accounts"
                "failed to execute request" "connection refused")
  /\ (forall e2,
         fst (CreateAccount client (acmeRequest "next week" false) (start []))
         <> Fails (expirationError (acmeRequest "next week" false) e2)).
Proof.
  split; [split; eexists; vm_compute; reflexivity|].
  split; [vm_compute; reflexivity|].
  intros e2. vm_compute. discriminate.
Qed.

(** The lookup returns: a duration is taken from the clock. *)
Lemma expiration_precedence_run :
  exists found w1,
    FindAccount client "Acme" twoRuns = (Returns found, w1)
    /\ fst (configureExpiration (acmeRequest "8760h" false) w1)
       = Returns (1700000000 + 31536000)%Z.
Proof.
  eassert (HF : FindAccount client "Acme" twoRuns = (Returns _, _))
    by (vm_compute; reflexivity).
  destruct (CreateAccount_expiration_precedence
              client (acmeRequest "8760h" false) twoRuns _ _ HF)
    as (Hdur & _).
  eexists. eexists. split; [exact HF|].
  exact (Hdur 31536000%Z eq_refl).
Defined.


(** A value of [Expires] neither parser accepts: the lookup has gone out
    by the time [CreateAccount] fails on it. *)
Lemma unparsable_issues_lookup_run :
  bothParsersFail (acmeRequest "next week" false)
  /\ fst (CreateAccount client (acmeRequest "next week" false) twoRuns)
     = Fails (expirationError (acmeRequest "next week" false)
                "parsing time: cannot parse")
  /\ issued (snd (CreateAccount client (acmeRequest "next week" false) twoRuns))
     = [findAccountRequest client "Acme"]
  /\ issued (snd (CreateAccount client (acmeRequest "next week" false) twoRuns))
     <> issued twoRuns.
Proof.
  split; [split; eexists; vm_compute; reflexivity|].
  split; [vm_compute; reflexivity|].
  split; [vm_compute; reflexivity|].
  vm_compute. discriminate.
Qed.

Lemma unparsable_after_lookup_run :
  exists e w',
    CreateAccount client (acmeRequest "next week" false) twoRuns = (Fails e, w')
    /\ issued w' = [findAccountRequest client "Acme"]
    /\ e = expirationError (acmeRequest "next week" false) "parsing time: cannot parse".
Proof.
  destruct (CreateAccount_unparsable_after_lookup
              client (acmeRequest "next week" false) twoRuns
              "time: invalid duration" "parsing time: cannot parse"
              eq_refl eq_refl)
    as (e & w' & E & Hi & Hret & _).
  exists e, w'. split; [exact E|]. split; [exact Hi|].
  eapply Hret. vm_compute. reflexivity.
Defined.


(** No user, no [Admin] role: the user is created all the same. *)
Lemma no_admin_role_user_created_run :
  fst (FindRole client "1001" "Admin"
         (snd (FindUser client "alice@acme.example" newUserNoAdmin)))
  = Returns None
  /\ (exists u,
         fst (CreateUser client (aliceRequest "Viewer") "1001" newUserNoAdmin)
         = Returns u
         /\ user_ID u = "77")
  /\ (forall e,
         fst (CreateUser client (aliceRequest "Viewer") "1001" newUserNoAdmin)
         <> Fails e).
Proof.
  split; [vm_compute; reflexivity|].
  split.
  - eexists. split; vm_compute; reflexivity.
  - intros e. vm_compute. discriminate.
Qed.

(** A user without a scope role for the account, no [Admin] role: the run
    ends in the panic of the nil role. *)
Lemma no_admin_role_known_user_run :
  fst (CreateUser client (aliceRequest "Viewer") "1001"
         (start [reply [] (Users [alice []]); reply [] (Roles [])]))
  = Panics "invalid memory address or nil pointer dereference".
Proof. vm_compute. reflexivity. Qed.

Lemma admin_role_absent_run :
  exists passwd,
    issued (snd (CreateUser client (aliceRequest "Viewer") "1001" newUserNoAdmin))
    = [findUserRequest client "alice@acme.example";
       findRoleRequest client "1001" "Admin";
       createUserRequest client (aliceRequest "Viewer") "1001" passwd]
    /\ noPanic (fst (CreateUser client (aliceRequest "Viewer") "1001" newUserNoAdmin)).
Proof.
  eassert (HF : FindUser client "alice@acme.example" newUserNoAdmin
                = (Returns None, _)) by (vm_compute; reflexivity).
  match type of HF with
  | _ = (_, ?w1) =>
      eassert (HR : FindRole client "1001" "Admin" w1 = (Returns None, _))
        by (vm_compute; reflexivity);
      destruct (CreateUser_admin_role_absent
                  client (aliceRequest "Viewer") "1001" newUserNoAdmin w1 _ None
                  HF HR)
        as [_ Hnew]
  end.
  destruct (Hnew eq_refl) as (passwd & wp & _ & Hi & Hp & _).
  exists passwd. split; [exact Hi|exact Hp].
Defined.

(** A user without a scope role for the account is given the [Admin]
    role found, though the request names [Viewer]. *)
Lemma role_of_entry_run :
  issued (snd (CreateUser client (aliceRequest "Viewer") "1001" (knownUser [])))
  = [findUserRequest client "alice@acme.example";
     findRoleRequest client "1001" "Admin";
     updateUserRequest client "77"
       [ {| ScopeID := "1001"; RoleID := "500"; RoleName := "Admin" |} ]].
Proof.
  eassert (HF : FindUser client "alice@acme.example" (knownUser [])
                = (Returns (Some _), _)) by (vm_compute; reflexivity).
  match type of HF with
  | _ = (Returns (Some ?u), ?w1) =>
      eassert (HR : FindRole client "1001" "Admin" w1 = (Returns (Some _), _))
        by (vm_compute; reflexivity);
      match type of HR with
      | _ = (Returns (Some ?r), ?w2) =>
          destruct (CreateUser_role_of_entry
                      client (aliceRequest "Viewer") "1001" (knownUser [])
                      w1 w2 (Some u) (Some r) HF HR)
            as [Hknown _];
          destruct (Hknown u r eq_refl eq_refl eq_refl) as (_ & Hi & _)
      end
  end.
  exact Hi.
Defined.

(** Two platform errors under status 200. *)
Lemma envelope_errors_run :
  fst (exec client http_MethodGet "/accounts" [] twoErrors)
  = Fails (apiErrors client http_MethodGet "/accounts").
Proof.
  eassert (HE : @Execute runtime (execRequest client http_MethodGet "/accounts" [])
                        (remote twoErrors) = (ok _, _)) by (vm_compute; reflexivity).
  match type of HE with
  | _ = (ok ?resp, ?rem) =>
      eassert (HU : @Unmarshal_S1APIResponse runtime (RespBody resp) = ok _)
        by (vm_compute; reflexivity);
      match type of HU with
      | _ = ok ?api =>
          assert (Hne : Errors api <> []) by (vm_compute; discriminate);
          destruct (exec_envelope_errors client http_MethodGet "/accounts" []
                      twoErrors resp rem api HE HU Hne)
            as (_ & Hlow & _)
      end
  end.
  apply Hlow. vm_compute. reflexivity.
Defined.

(** A search answered with an empty list. *)
Lemma lookups_absent_run :
  exists w', FindAccount client "Acme" twoRuns = (Returns None, w').
Proof.
  eassert (HE : @Execute runtime (findAccountRequest client "Acme") (remote twoRuns)
                = (ok _, _)) by (vm_compute; reflexivity).
  match type of HE with
  | _ = (ok ?resp, ?rem) =>
      eassert (HU : @Unmarshal_S1APIResponse runtime (RespBody resp) = ok _)
        by (vm_compute; reflexivity);
      match type of HU with
      | _ = ok ?api =>
          assert (Ha : answers twoRuns (findAccountRequest client "Acme") api rem)
            by (exists resp; split; [exact HE|];
                split; [vm_compute; reflexivity|];
                split; [exact HU|vm_compute; reflexivity]);
          destruct (lookups_absent_is_nil client twoRuns api rem) as (Hacct & _);
          destruct (Hacct "Acme" Ha eq_refl) as (w' & E & _)
      end
  end.
  exists w'. exact E.
Defined.

End Runs.

(** ** What every call keeps *)

Section Conduct.

Context `{GoRuntime}.

Variable Q : Request -> Prop.
Variable P : S1ClientRequestError -> Prop.

Lemma respects_quiet {A : Type} (c : M A) :
  (forall w, issued (snd (c w)) = issued w) ->
  (forall w e, fst (c w) = Fails e -> P e) ->
  respects Q P c.
Proof.
  intros Hi Hf w. split.
  - exists []. rewrite app_nil_r. split; [apply Hi|constructor].
  - apply Hf.
Qed.

Lemma respects_ret {A : Type} (a : A) : respects Q P (ret a).
Proof. apply respects_quiet; [reflexivity|discriminate]. Qed.

Lemma respects_fail {A : Type} (e : S1ClientRequestError) :
  P e -> respects Q P (@fail _ A e).
Proof.
  intros He. apply respects_quiet; [reflexivity|].
  intros w e' Hx. inversion Hx. subst. exact He.
Qed.

Lemma respects_panic {A : Type} (r : string) : respects Q P (@panic _ A r).
Proof. apply respects_quiet; [reflexivity|discriminate]. Qed.

Lemma respects_log (l : Level) (m : string) : respects Q P (log l m).
Proof. apply respects_quiet; [reflexivity|discriminate]. Qed.

Lemma respects_now : respects Q P now.
Proof.
  apply respects_quiet; intros w; unfold now; destruct (time_Now (remote w));
    [reflexivity|discriminate].
Qed.

Lemma respects_intn (n : Z) : respects Q P (intn n).
Proof.
  apply respects_quiet; intros w; unfold intn; destruct (rand_Intn n (remote w));
    [reflexivity|discriminate].
Qed.

Lemma respects_bind {A B : Type} (c : M A) (k : A -> M B) :
  respects Q P c -> (forall a, respects Q P (k a)) -> respects Q P (bind c k).
Proof.
  intros Hc Hk w. destruct (Hc w) as [(rs & Hi & HQ) Hf].
  rewrite bind_run. destruct (c w) as [[a|e|r] w1]; simpl in *.
  - destruct (Hk a w1) as [(rs' & Hi' & HQ') Hf']. split.
    + exists (rs ++ rs')%list. rewrite Hi', Hi, app_assoc. split; [reflexivity|].
      apply Forall_app. auto.
    + exact Hf'.
  - split; [exists rs; auto|].
    intros e' Hx. inversion Hx. subst. apply Hf. reflexivity.
  - split; [exists rs; auto|discriminate].
Qed.

Lemma respects_logAPIErrors (es : list S1APIError) : respects Q P (logAPIErrors es).
Proof.
  induction es as [|e rest IH]; simpl.
  - apply respects_ret.
  - apply respects_bind; [|intros _; exact IH].
    destruct (String.eqb (err_Detail e) ""); apply respects_log.
Qed.

Lemma respects_exec (s : S1Client) (meth endpoint : string)
      (optFns : list s1ClientExecOptFn) :
  Q (execRequest s meth endpoint optFns) ->
  (forall m e, P (NewS1ClientRequestError meth (baseURL s ++ "/web/api/v2.1" ++ endpoint) m e)) ->
  respects Q P (exec s meth endpoint optFns).
Proof.
  intros HQ HP. unfold exec. apply respects_bind.
  - intros w. unfold send. destruct (Execute _ (remote w)). simpl. split.
    + eexists. split; [reflexivity|]. constructor; [exact HQ|constructor].
    + discriminate.
  - intros [resp|e].
    + destruct (StatusCode resp >=? http_StatusMethodNotAllowed).
      { apply respects_bind; [apply respects_log|intros _; apply respects_fail, HP]. }
      destruct (StatusCode resp >=? http_StatusInternalServerError).
      { apply respects_bind; [apply respects_log|intros _; apply respects_fail, HP]. }
      destruct (Unmarshal_S1APIResponse (RespBody resp)) as [api|e].
      * destruct (0 <? length (Errors api))%nat.
        -- apply respects_bind; [apply respects_logAPIErrors|].
           intros _. apply respects_fail, HP.
        -- apply respects_ret.
      * apply respects_bind; [apply respects_log|intros _; apply respects_fail, HP].
    + apply respects_bind; [apply respects_log|intros _; apply respects_fail, HP].
Qed.

Lemma respects_unmarshalFailed {A : Type} (e : goerror) :
  P (payloadError e) -> respects Q P (@unmarshalFailed _ A e).
Proof.
  intros HP. unfold unmarshalFailed.
  apply respects_bind; [apply respects_log|intros _; apply respects_fail, HP].
Qed.

Lemma respects_writeRunes (n : nat) (b : string) : respects Q P (writeRunes n b).
Proof.
  revert b. induction n as [|k IH]; intros b; simpl.
  - apply respects_ret.
  - apply respects_bind; [apply respects_intn|].
    intros i. destruct (index chars i); [apply IH|apply respects_panic].
Qed.

End Conduct.

Ltac conduct :=
  repeat match goal with
    | |- respects _ _ (log _ _) => apply respects_log
    | |- respects _ _ (ret _) => apply respects_ret
    | |- respects _ _ (panic _) => apply respects_panic
    | |- respects _ _ now => apply respects_now
    | |- respects _ _ (writeRunes _ _) => apply respects_writeRunes
    | |- respects _ _ (unmarshalFailed _) =>
        apply respects_unmarshalFailed; left; reflexivity
    | |- respects _ _ (fail _) => apply respects_fail; left; reflexivity
    | |- respects _ _ (exec _ _ _ _) =>
        apply respects_exec;
        [split; [reflexivity|eexists; reflexivity]|intros ? ?; right; reflexivity]
    | |- respects _ _ (bind _ _) => apply respects_bind; [|intros ?]
    | |- respects _ _ (match ?x with _ => _ end) => destruct x
    | |- respects _ _ (if ?x then _ else _) => destruct x
    | |- respects _ _ (let _ := _ in _) => cbv zeta
    | H : forall _, respects _ _ _ |- respects _ _ _ => solve [apply H]
    | H : forall _ _, respects _ _ _ |- respects _ _ _ => solve [apply H]
    | H : forall _ _ _, respects _ _ _ |- respects _ _ _ => solve [apply H]
    end.

Section Authenticated.

Context `{GoRuntime}.

Variable s : S1Client.

Lemma respects_fromS1APIAccountObject (o : S1APIAccountObject) :
  respects (fromClient s) clientError (fromS1APIAccountObject o).
Proof. unfold fromS1APIAccountObject. conduct. Qed.

Lemma respects_FindAccount (name : string) :
  respects (fromClient s) clientError (FindAccount s name).
Proof.
  pose proof respects_fromS1APIAccountObject.
  unfold FindAccount. conduct.
Qed.

Lemma respects_FindRole (accountID name : string) :
  respects (fromClient s) clientError (FindRole s accountID name).
Proof. unfold FindRole, fromS1APIRoleObject. conduct. Qed.

Lemma respects_FindUser (email : string) :
  respects (fromClient s) clientError (FindUser s email).
Proof. unfold FindUser, fromS1APIUserObject. conduct. Qed.

Lemma respects_ReactivateAccount (id : string) (expires : time_Time) :
  respects (fromClient s) clientError (ReactivateAccount s id expires).
Proof. unfold ReactivateAccount. conduct. Qed.

Lemma respects_ResetUserPassword (userID : string) :
  respects (fromClient s) clientError (ResetUserPassword s userID).
Proof. unfold ResetUserPassword. conduct. Qed.

Lemma respects_UpdateUserScopeRoles (userID : string) (roles : list S1UserScopeRole) :
  respects (fromClient s) clientError (UpdateUserScopeRoles s userID roles).
Proof. unfold UpdateUserScopeRoles, fromS1APIUserObject. conduct. Qed.

Lemma respects_configureExpiration (req : S1AccountProvisioningRequest) :
  respects (fromClient s) clientError (configureExpiration req).
Proof. unfold configureExpiration. conduct. Qed.

Lemma respects_CreateAccount (req : S1AccountProvisioningRequest) :
  respects (fromClient s) clientError (CreateAccount s req).
Proof.
  pose proof respects_FindAccount. pose proof respects_configureExpiration.
  pose proof respects_ReactivateAccount. pose proof respects_fromS1APIAccountObject.
  unfold CreateAccount. conduct.
Qed.

Lemma respects_CreateUser (req : S1UserProvisioningRequest) (accountID : string) :
  respects (fromClient s) clientError (CreateUser s req accountID).
Proof.
  pose proof respects_FindUser. pose proof respects_FindRole.
  pose proof respects_UpdateUserScopeRoles.
  unfold CreateUser, fromS1APIUserObject. conduct.
Qed.

Lemma respects_provisionAccount (account : accountDetails)
      (reactivate resetFirstUserPass : bool) :
  respects (fromClient s) clientError
    (provisionAccount s account reactivate resetFirstUserPass).
Proof.
  pose proof respects_CreateAccount. pose proof respects_CreateUser.
  pose proof respects_ResetUserPassword.
  unfold provisionAccount. conduct.
Qed.

Lemma respects_provisionRecords (reactivate resetFirstUserPass : bool)
      (records : list (Result accountDetails)) :
  respects (fromClient s) clientError
    (provisionRecords s reactivate resetFirstUserPass records).
Proof.
  pose proof respects_provisionAccount.
  induction records as [|[account|e] rest IH]; cbn [provisionRecords];
    conduct; try exact IH.
Qed.

End Authenticated.


(** ** The transport, case by case *)

Section Transport.

Context `{GoRuntime}.

Lemma provisionRecords_general_failure
      (s : S1Client) (reactivate reset : bool)
      (records : list (Result accountDetails)) (w : World) (g : GeneralFailure) :
  fst (provisionRecords s reactivate reset records w) = Returns (Some g) ->
  exists e,
    In (err e) records
    /\ g = NewGeneralFailure "failed to decode account record" e.
Proof.
  revert w. induction records as [|[account|e] rest IH]; intros w.
  - cbn [provisionRecords]. unfold_m. discriminate.
  - cbn [provisionRecords]. rewrite bind_run.
    destruct (provisionAccount s account reactivate reset w) as [[[]|e|r] w1];
      simpl; try discriminate.
    intros Hg. destruct (IH w1 Hg) as (e & Hin & Eg).
    exists e. split; [right; exact Hin|exact Eg].
  - cbn [provisionRecords]. unfold_m. intros Hg. inversion Hg.
    exists e. split; [left; reflexivity|reflexivity].
Qed.

(** X1. Every request a call of the client issues carries the three headers of
    the client, the API key among them, and goes to a path under the API
    root of the tenant; every error an operation of the client returns has
    one of the two codes of the client.  The command that provisions the
    records of a CSV issues such requests only, and the errors it returns
    are of two kinds: an error of the client, with one of these two codes,
    passed on as it is, or the general failure it builds for a record of
    the CSV that does not decode, whose code is that of a usage error. *)
Theorem every_call_authenticated (s : S1Client) :
  (forall name, respects (fromClient s) clientError (FindAccount s name))
  /\ (forall accountID name,
         respects (fromClient s) clientError (FindRole s accountID name))
  /\ (forall email, respects (fromClient s) clientError (FindUser s email))
  /\ (forall req, respects (fromClient s) clientError (CreateAccount s req))
  /\ (forall req accountID,
         respects (fromClient s) clientError (CreateUser s req accountID))
  /\ (forall id expires,
         respects (fromClient s) clientError (ReactivateAccount s id expires))
  /\ (forall userID, respects (fromClient s) clientError (ResetUserPassword s userID))
  /\ (forall userID roles,
         respects (fromClient s) clientError (UpdateUserScopeRoles s userID roles))
  /\ (forall reactivate resetFirstUserPass records,
         respects (fromClient s) clientError
           (provisionRecords s reactivate resetFirstUserPass records)
         /\ (forall w g,
                fst (provisionRecords s reactivate resetFirstUserPass records w)
                = Returns (Some g) ->
                gf_Code g = UsageErrorCode
                /\ exists e,
                    In (err e) records
                    /\ g = NewGeneralFailure "failed to decode account record" e)).
Proof.
  split; [intros; apply respects_FindAccount|].
  split; [intros; apply respects_FindRole|].
  split; [intros; apply respects_FindUser|].
  split; [intros; apply respects_CreateAccount|].
  split; [intros; apply respects_CreateUser|].
  split; [intros; apply respects_ReactivateAccount|].
  split; [intros; apply respects_ResetUserPassword|].
  split; [intros; apply respects_UpdateUserScopeRoles|].
  intros reactivate resetFirstUserPass records.
  split; [apply respects_provisionRecords|].
  intros w g Hg.
  destruct (provisionRecords_general_failure _ _ _ _ _ _ Hg) as (e & Hin & Eg).
  split; [rewrite Eg; reflexivity|]. exists e. split; [exact Hin|exact Eg].
Qed.

(** X2. What [exec] returns, from what the transport returns: the transport's
    own failure; from status 405 on, the error that says the method is not
    allowed, whatever the body (the body is not decoded); below 405, the
    decoding error of the body, or the one error for a list of platform
    errors, or the envelope.  The error that reports a server error code is
    returned for no response. *)
Theorem exec_outcome
        (s : S1Client) (meth endpoint : string) (optFns : list s1ClientExecOptFn)
        (w : World) (res : Result (Response Raw)) (rem : Remote) :
  Execute (execRequest s meth endpoint optFns) (remote w) = (res, rem) ->
  fst (exec s meth endpoint optFns w)
  = match res with
    | err e => Fails (transportError s meth endpoint e)
    | ok resp =>
        if (http_StatusMethodNotAllowed <=? StatusCode resp)%Z
        then Fails (statusError s meth endpoint)
        else
          match Unmarshal_S1APIResponse (RespBody resp) with
          | err e => Fails (envelopeError s meth endpoint e)
          | ok api =>
              match Errors api with
              | [] => Returns api
              | _ :: _ => Fails (apiErrors s meth endpoint)
              end
          end
    end
  /\ (forall resp httpCode,
         res = ok resp ->
         fst (exec s meth endpoint optFns w) <> Fails (serverError s meth endpoint httpCode)).
Proof.
  intros HE.
  assert (Hout :
    fst (exec s meth endpoint optFns w)
    = match res with
      | err e => Fails (transportError s meth endpoint e)
      | ok resp =>
          if (http_StatusMethodNotAllowed <=? StatusCode resp)%Z
          then Fails (statusError s meth endpoint)
          else
            match Unmarshal_S1APIResponse (RespBody resp) with
            | err e => Fails (envelopeError s meth endpoint e)
            | ok api =>
                match Errors api with
                | [] => Returns api
                | _ :: _ => Fails (apiErrors s meth endpoint)
                end
            end
      end).
  { unfold exec. unfold_m. rewrite HE. simpl.
    destruct res as [resp|e]; simpl; [|reflexivity].
    unfold http_StatusMethodNotAllowed, http_StatusInternalServerError.
    destruct (StatusCode resp >=? 405) eqn:E1.
    - destruct (405 <=? StatusCode resp)%Z eqn:E1'; [reflexivity|lia].
    - destruct (405 <=? StatusCode resp)%Z eqn:E1'; [lia|].
      destruct (StatusCode resp >=? 500) eqn:E2; [lia|].
      destruct (Unmarshal_S1APIResponse (RespBody resp)) as [api|e]; simpl;
        [|reflexivity].
      destruct (0 <? length (Errors api))%nat eqn:E3; simpl.
      + match goal with
        | |- context [logAPIErrors ?es ?w1] =>
            destruct (logAPIErrors_run es w1) as (w2 & E & _ & _)
        end.
        rewrite E. simpl. destruct (Errors api); [discriminate E3|reflexivity].
      + destruct (Errors api); [reflexivity|discriminate E3]. }
  split; [exact Hout|].
  intros resp httpCode Hres. subst res. rewrite Hout.
  destruct (http_StatusMethodNotAllowed <=? StatusCode resp)%Z.
  - discriminate.
  - destruct (Unmarshal_S1APIResponse (RespBody resp)) as [api|e].
    + destruct (Errors api); discriminate.
    + discriminate.
Qed.

(** X3. An error [exec] returns has the code of a request error and names the
    method and the URL of the request. *)
Theorem exec_error_names_request
        (s : S1Client) (meth endpoint : string) (optFns : list s1ClientExecOptFn)
        (w w' : World) (e : S1ClientRequestError) :
  exec s meth endpoint optFns w = (Fails e, w') ->
  Code e = S1ClientRequestErrorCode
  /\ err_method e = meth
  /\ err_url e = baseURL s ++ "/web/api/v2.1" ++ endpoint.
Proof.
  intros Hrun.
  assert (Hr : respects (fun _ => True)
                 (fun e => Code e = S1ClientRequestErrorCode
                           /\ err_method e = meth
                           /\ err_url e = baseURL s ++ "/web/api/v2.1" ++ endpoint)
                 (exec s meth endpoint optFns)).
  { apply respects_exec; [exact I|]. intros m e0. repeat split. }
  destruct (Hr w) as [_ Hf]. apply Hf. rewrite Hrun. reflexivity.
Qed.

End Transport.


(** ** More of account reconciliation *)

Section MoreAccounts.

Context `{GoRuntime}.

Lemma fromS1APIAccountObject_outcome (o : S1APIAccountObject) (w : World) :
  fst (fromS1APIAccountObject o w)
  = match time_Parse time_RFC3339 (api_acct_Expiration o) with
    | ok t => Returns (accountOf o t)
    | err e => Fails (accountDateError e)
    end.
Proof.
  unfold fromS1APIAccountObject.
  destruct (time_Parse time_RFC3339 (api_acct_Expiration o)); reflexivity.
Qed.

(** X7. When the search by name is answered with a list that is not empty,
    [FindAccount] returns the first account of the list as the platform
    describes it, with the expiration parsed: what follows in the list is
    not looked at, and the name of the account is not compared with the
    name asked for.  When the expiration of that first account does not
    parse, the lookup fails. *)
Theorem FindAccount_takes_first
        (s : S1Client) (name : string) (w : World) (api : S1APIResponse Raw)
        (rem : Remote) (o : S1APIAccountObject) (rest : list S1APIAccountObject) :
  answers w (findAccountRequest s name) api rem ->
  Unmarshal_accounts (Data api) = ok (o :: rest) ->
  fst (FindAccount s name w)
  = match time_Parse time_RFC3339 (api_acct_Expiration o) with
    | ok t => Returns (Some (accountOf o t))
    | err e => Fails (accountDateError e)
    end.
Proof.
  intros Ha Hd. unfold FindAccount. rewrite bind_run. unfold log at 1.
  rewrite bind_run.
  match goal with
  | |- context [exec s ?m ?e ?o ?w1] =>
      rewrite (exec_answers s m e o w1 api rem Ha)
  end.
  rewrite Hd. rewrite bind_run. unfold fromS1APIAccountObject.
  destruct (time_Parse time_RFC3339 (api_acct_Expiration o)); reflexivity.
Qed.

(** X8. When no account has the name, the value of [Expires] resolves and the
    create call is answered, [CreateAccount] returns the account the
    platform describes in its answer, with the expiration the platform
    gives (not the one asked for).  It fails when the payload does not
    decode or its expiration does not parse; the create call has gone out
    all the same. *)
Theorem CreateAccount_created
        (s : S1Client) (req : S1AccountProvisioningRequest) (w w1 w2 : World)
        (expires : time_Time) (api : S1APIResponse Raw) (rem : Remote) :
  FindAccount s (req_AccountName req) w = (Returns None, w1) ->
  configureExpiration req w1 = (Returns expires, w2) ->
  answers w2 (createAccountRequest s req expires) api rem ->
  fst (CreateAccount s req w)
  = match Unmarshal_account (Data api) with
    | err e => Fails (payloadError e)
    | ok o =>
        match time_Parse time_RFC3339 (api_acct_Expiration o) with
        | ok t => Returns (accountOf o t)
        | err e => Fails (accountDateError e)
        end
    end
  /\ issued (snd (CreateAccount s req w))
     = (issued w ++ [findAccountRequest s (req_AccountName req);
                     createAccountRequest s req expires])%list.
Proof.
  intros HF HC Ha.
  split; [|exact (proj1 (CreateAccount_not_found_issued _ _ _ _ _ _ HF HC))].
  unfold CreateAccount. rewrite bind_run, HF. rewrite bind_run, HC.
  rewrite bind_run. unfold log at 1. rewrite bind_run.
  match goal with
  | |- context [exec s ?m ?e ?o ?w1] =>
      rewrite (exec_answers s m e o w1 api rem Ha)
  end.
  destruct (Unmarshal_account (Data api)) as [o|e]; [|reflexivity].
  apply fromS1APIAccountObject_outcome.
Qed.

(** X9. An account found in a state that is neither [active] nor [expired]
    makes [CreateAccount] fail, whether or not reactivation is asked for,
    with the lookup as the only request; the error names the state
    whenever the value of [Expires] resolves. *)
Theorem CreateAccount_other_state
        (s : S1Client) (req : S1AccountProvisioningRequest) (w w1 : World)
        (a : S1Account time_Time) :
  FindAccount s (req_AccountName req) w = (Returns (Some a), w1) ->
  acct_State a <> "active" ->
  acct_State a <> "expired" ->
  (exists e, fst (CreateAccount s req w) = Fails e)
  /\ issued (snd (CreateAccount s req w))
     = (issued w ++ [findAccountRequest s (req_AccountName req)])%list
  /\ (forall expires w2,
         configureExpiration req w1 = (Returns expires, w2) ->
         fst (CreateAccount s req w) = Fails (stateError (acct_State a))).
Proof.
  intros HF Hna Hne.
  destruct (FindAccount_found_issued _ _ _ _ _ HF) as [Hi1 _].
  apply String.eqb_neq in Hna. apply String.eqb_neq in Hne.
  destruct (configureExpiration req w1) as [[expires|e|r] w2] eqn:HC;
    destruct (configureExpiration_run _ _ _ _ HC) as [Hi2 Hp2]; try contradiction.
  - rewrite (CreateAccount_found _ _ _ _ _ _ _ HF HC), Hna, Hne. simpl.
    split; [eauto|]. split; [rewrite Hi2; exact Hi1|]. reflexivity.
  - rewrite (CreateAccount_unresolved _ _ _ _ _ _ _ HF HC). simpl.
    split; [eauto|]. split; [rewrite Hi2; exact Hi1|].
    intros expires w3 Hx. discriminate.
Qed.

(** X10. In every run [CreateAccount] issues the lookup first and at most one
    call after it, and does not panic.  That call is the create call, and
    then the lookup had found no account; or it is the reactivation call,
    and then the lookup had found an account in state [expired] and the
    request asks for reactivation.  An account is never created under a
    name the lookup has found, and never reactivated unasked. *)
Theorem CreateAccount_calls
        (s : S1Client) (req : S1AccountProvisioningRequest) (w : World) :
  noPanic (fst (CreateAccount s req w))
  /\ exists rs,
      issued (snd (CreateAccount s req w))
      = (issued w ++ findAccountRequest s (req_AccountName req) :: rs)%list
      /\ (rs = []
          \/ (fst (FindAccount s (req_AccountName req) w) = Returns None
              /\ exists expires, rs = [createAccountRequest s req expires])
          \/ (exists a expires,
                 fst (FindAccount s (req_AccountName req) w) = Returns (Some a)
                 /\ acct_State a = "expired"
                 /\ req_ReactivateAccount req = true
                 /\ rs = [reactivateRequest s (acct_ID a) expires])).
Proof.
  destruct (FindAccount s (req_AccountName req) w) as [[found|e|r] w1] eqn:HF;
    destruct (FindAccount_found_issued _ _ _ _ _ HF) as [Hi1 Hp1];
    try contradiction.
  2:{ unfold CreateAccount. rewrite bind_run, HF. simpl.
      split; [exact I|]. exists []. split; [exact Hi1|]. left. reflexivity. }
  destruct (configureExpiration req w1) as [[expires|e|r] w2] eqn:HC;
    destruct (configureExpiration_run _ _ _ _ HC) as [Hi2 Hp2]; try contradiction.
  2:{ rewrite (CreateAccount_unresolved _ _ _ _ _ _ _ HF HC). simpl.
      split; [exact I|]. exists []. split; [rewrite Hi2; exact Hi1|]. left.
      reflexivity. }
  destruct found as [a|].
  - rewrite (CreateAccount_found _ _ _ _ _ _ _ HF HC).
    destruct (String.eqb (acct_State a) "active") eqn:Eact.
    { simpl. split; [exact I|]. exists [].
      split; [rewrite Hi2; exact Hi1|]. left. reflexivity. }
    destruct (String.eqb (acct_State a) "expired") eqn:Eexp.
    2:{ simpl. split; [exact I|]. exists [].
        split; [rewrite Hi2; exact Hi1|]. left. reflexivity. }
    apply String.eqb_eq in Eexp.
    destruct (req_ReactivateAccount req) eqn:Ere; simpl.
    2:{ split; [exact I|]. exists [].
        split; [rewrite Hi2; exact Hi1|]. left. reflexivity. }
    rewrite bind_run.
    destruct (ReactivateAccount_issued s (acct_ID a) expires w2) as [Hi3 Hp3].
    destruct (ReactivateAccount s (acct_ID a) expires w2) as [[[]|e|r] w3];
      simpl in *; try contradiction;
      (split; [exact I|]);
      exists [reactivateRequest s (acct_ID a) expires];
      (split; [rewrite Hi3, Hi2, Hi1, <- app_assoc; reflexivity|]);
      right; right; exists a, expires; auto.
  - destruct (CreateAccount_not_found_issued _ _ _ _ _ _ HF HC) as [Hi Hp].
    split; [exact Hp|].
    exists [createAccountRequest s req expires]. split; [exact Hi|].
    right. left. split; [reflexivity|]. exists expires. reflexivity.
Qed.

End MoreAccounts.


(** ** More of user reconciliation *)

Section MoreUsers.

Context `{GoRuntime}.

Lemma fold_left_snoc_map {A B : Type} (f : A -> B) (l : list A) (acc : list B) :
  fold_left (fun acc x => (acc ++ [f x])%list) l acc = (acc ++ map f l)%list.
Proof.
  revert acc. induction l as [|x l IH]; intros acc; simpl.
  - rewrite app_nil_r. reflexivity.
  - rewrite IH, <- app_assoc. reflexivity.
Qed.

Lemma fromS1APIUserObject_userOf (o : S1APIUserObject) (w : World) :
  fromS1APIUserObject o w = (Returns (userOf o), w).
Proof.
  unfold fromS1APIUserObject, userOf, ret.
  rewrite fold_left_snoc_map. reflexivity.
Qed.

Lemma hasScope_userOf (accountID : string) (o : S1APIUserObject) :
  hasScope accountID (user_ScopeRoles (userOf o))
  = existsb (fun r => String.eqb (api_sr_ScopeID r) accountID) (api_user_ScopeRoles o).
Proof.
  unfold hasScope, userOf. simpl.
  induction (api_user_ScopeRoles o) as [|r l IH]; simpl; [reflexivity|].
  rewrite IH. reflexivity.
Qed.

Lemma scopeRoles_wire (o : S1APIUserObject) :
  map scopeRoleJSON (user_ScopeRoles (userOf o))
  = map apiScopeRoleJSON (api_user_ScopeRoles o).
Proof.
  unfold userOf. simpl. rewrite map_map. reflexivity.
Qed.

Lemma FindUser_answered (s : S1Client) (email : string) (w : World)
      (api : S1APIResponse Raw) (rem : Remote) (o : S1APIUserObject)
      (rest : list S1APIUserObject) :
  answers w (findUserRequest s email) api rem ->
  Unmarshal_users (Data api) = ok (o :: rest) ->
  exists w1, FindUser s email w = (Returns (Some (userOf o)), w1).
Proof.
  intros Ha Hd. unfold FindUser. rewrite bind_run. unfold log at 1.
  rewrite bind_run.
  match goal with
  | |- context [exec s ?m ?e ?o ?w1] =>
      rewrite (exec_answers s m e o w1 api rem Ha)
  end.
  rewrite Hd. rewrite bind_run, fromS1APIUserObject_userOf. eexists. reflexivity.
Qed.

(** X11. When the search by e-mail address is answered with a list that is not
    empty, [FindUser] returns the first user of the list and never fails
    on it: every field is the platform's, and the scope roles are the
    platform's, one for one and in order.  Whether the user has a scope
    role for an account can be read off the platform's list. *)
Theorem FindUser_takes_first
        (s : S1Client) (email : string) (w : World) (api : S1APIResponse Raw)
        (rem : Remote) (o : S1APIUserObject) (rest : list S1APIUserObject) :
  answers w (findUserRequest s email) api rem ->
  Unmarshal_users (Data api) = ok (o :: rest) ->
  exists u,
    fst (FindUser s email w) = Returns (Some u)
    /\ user_ID u = api_user_ID o
    /\ user_EmailAddress u = api_user_EmailAddress o
    /\ user_ScopeRoles u = map fromS1APIUserScopeRoleObject (api_user_ScopeRoles o)
    /\ length (user_ScopeRoles u) = length (api_user_ScopeRoles o)
    /\ (forall accountID,
           hasScope accountID (user_ScopeRoles u)
           = existsb (fun r => String.eqb (api_sr_ScopeID r) accountID)
                     (api_user_ScopeRoles o)).
Proof.
  intros Ha Hd. destruct (FindUser_answered s email w api rem o rest Ha Hd) as (w1 & E).
  exists (userOf o). rewrite E. simpl.
  split; [reflexivity|]. split; [reflexivity|]. split; [reflexivity|].
  split; [reflexivity|]. split; [apply length_map|].
  intros accountID. apply hasScope_userOf.
Qed.

(** X12. A user the platform reports without a scope role for the target
    account, with the [Admin] role found: the update call is a PUT on the
    path of that user, and the scope roles in its body are the ones the
    platform reported, field for field and in order, followed by the one
    new entry. *)
Theorem CreateUser_update_sends_back
        (s : S1Client) (req : S1UserProvisioningRequest) (accountID : string)
        (w w2 : World) (api : S1APIResponse Raw) (rem : Remote)
        (o : S1APIUserObject) (rest : list S1APIUserObject) (r : S1Role) :
  answers w (findUserRequest s (req_EmailAddress req)) api rem ->
  Unmarshal_users (Data api) = ok (o :: rest) ->
  existsb (fun x => String.eqb (api_sr_ScopeID x) accountID) (api_user_ScopeRoles o)
  = false ->
  FindRole s accountID "Admin" (snd (FindUser s (req_EmailAddress req) w))
  = (Returns (Some r), w2) ->
  exists upd,
    issued (snd (CreateUser s req accountID w))
    = (issued w ++ [findUserRequest s (req_EmailAddress req);
                    findRoleRequest s accountID "Admin"; upd])%list
    /\ Method upd = http_MethodPut
    /\ URL upd = baseURL s ++ "/web/api/v2.1/users/" ++ api_user_ID o
    /\ Body upd
       = Some (JObj [("data", JObj [
           ("scope", JStr "account");
           ("scopeRoles",
            JArr (map apiScopeRoleJSON (api_user_ScopeRoles o) ++
                    [JObj [("id", JStr accountID);
                           ("roleId", JStr (role_ID r));
                           ("roleName", JStr (role_Name r))]])%list)])]).
Proof.
  intros Ha Hd Hs HR.
  destruct (FindUser_answered s _ w api rem o rest Ha Hd) as (w1 & HF).
  rewrite HF in HR. simpl in HR.
  destruct (FindUser_run _ _ _ _ _ HF) as [Hi1 _].
  destruct (FindRole_run _ _ _ _ _ _ HR) as [Hi2 _].
  rewrite <- (hasScope_userOf accountID o) in Hs.
  rewrite (CreateUser_found _ _ _ _ _ _ _ _ HF HR), Hs.
  match goal with
  | |- context [UpdateUserScopeRoles s ?id ?roles w2] =>
      exists (updateUserRequest s id roles);
      rewrite (proj1 (UpdateUserScopeRoles_issued s id roles w2))
  end.
  split; [rewrite Hi2, Hi1, <- !app_assoc; reflexivity|].
  split; [reflexivity|]. split; [reflexivity|].
  rewrite updateUserRequest_Body, map_app, scopeRoles_wire. reflexivity.
Qed.

(** X13. In every run [CreateUser] issues the lookup of the user first, then,
    once that has returned, the lookup of the [Admin] role, then at most
    one call more: the update, and then the user had been found without a
    scope role for the account; or the create call, and then no user had
    been found.  It panics only for a user found without a scope role for
    the account when the lookup of the role has returned no role. *)
Theorem CreateUser_calls
        (s : S1Client) (req : S1UserProvisioningRequest) (accountID : string)
        (w : World) :
  (exists rs,
      issued (snd (CreateUser s req accountID w))
      = (issued w ++ findUserRequest s (req_EmailAddress req) :: rs)%list
      /\ (rs = []
          \/ rs = [findRoleRequest s accountID "Admin"]
          \/ (exists u roles,
                 fst (FindUser s (req_EmailAddress req) w) = Returns (Some u)
                 /\ hasScope accountID (user_ScopeRoles u) = false
                 /\ rs = [findRoleRequest s accountID "Admin";
                          updateUserRequest s (user_ID u) roles])
          \/ (fst (FindUser s (req_EmailAddress req) w) = Returns None
              /\ exists passwd,
                  rs = [findRoleRequest s accountID "Admin";
                        createUserRequest s req accountID passwd])))
  /\ (forall reason,
         fst (CreateUser s req accountID w) = Panics reason ->
         exists u,
           fst (FindUser s (req_EmailAddress req) w) = Returns (Some u)
           /\ hasScope accountID (user_ScopeRoles u) = false
           /\ fst (FindRole s accountID "Admin"
                     (snd (FindUser s (req_EmailAddress req) w)))
              = Returns None).
Proof.
  destruct (FindUser s (req_EmailAddress req) w) as [[found|e|r] w1] eqn:HF;
    destruct (FindUser_run _ _ _ _ _ HF) as [Hi1 Hp1]; try contradiction.
  2:{ unfold CreateUser. rewrite bind_run, HF. simpl. split.
      - exists []. split; [exact Hi1|]. left. reflexivity.
      - intros reason Hx. discriminate. }
  simpl.
  destruct (FindRole s accountID "Admin" w1) as [[role|e|r] w2] eqn:HR;
    destruct (FindRole_run _ _ _ _ _ _ HR) as [Hi2 Hp2]; try contradiction.
  2:{ unfold CreateUser. rewrite bind_run, HF. rewrite bind_run, HR. simpl. split.
      - exists [findRoleRequest s accountID "Admin"].
        split; [rewrite Hi2, Hi1, <- app_assoc; reflexivity|]. right. left.
        reflexivity.
      - intros reason Hx. discriminate. }
  destruct found as [u|].
  - rewrite (CreateUser_found _ _ _ _ _ _ _ _ HF HR).
    destruct (hasScope accountID (user_ScopeRoles u)) eqn:Hs.
    { simpl. split.
      - exists [findRoleRequest s accountID "Admin"].
        split; [rewrite Hi2, Hi1, <- app_assoc; reflexivity|]. right. left.
        reflexivity.
      - intros reason Hx. discriminate. }
    destruct role as [adminRole|].
    + match goal with
      | |- context [UpdateUserScopeRoles s ?id ?roles w2] =>
          destruct (UpdateUserScopeRoles_issued s id roles w2) as [Hi3 Hp3];
          destruct (UpdateUserScopeRoles s id roles w2) as [[u'|e|r] w3];
          simpl in *; try contradiction;
          (split;
           [exists [findRoleRequest s accountID "Admin";
                    updateUserRequest s id roles];
            split; [rewrite Hi3, Hi2, Hi1, <- !app_assoc; reflexivity|];
            right; right; left; exists u, roles; auto
           |intros reason Hx; discriminate])
      end.
    + simpl. split.
      * exists [findRoleRequest s accountID "Admin"].
        split; [rewrite Hi2, Hi1, <- app_assoc; reflexivity|]. right. left.
        reflexivity.
      * intros reason _. exists u. auto.
  - destruct (CreateUser_absent_run _ req _ _ _ _ _ HF HR)
      as (passwd & wp & _ & _ & Hi & Hp & _).
    split.
    + exists [findRoleRequest s accountID "Admin";
              createUserRequest s req accountID passwd].
      split; [exact Hi|]. right. right. right.
      split; [reflexivity|]. exists passwd. reflexivity.
    + intros reason Hx. rewrite Hx in Hp. contradiction.
Qed.

(** X14. [UpdateUserScopeRoles] issues one request, the PUT with the list of
    scope roles.  Once the platform has answered, the user returned is the
    one the answer describes, whatever list was sent: the list sent is not
    compared with the list that comes back.  An answer whose payload does
    not decode is the one failure. *)
Theorem UpdateUserScopeRoles_outcome
        (s : S1Client) (userID : string) (roles : list S1UserScopeRole)
        (w : World) (api : S1APIResponse Raw) (rem : Remote) :
  answers w (updateUserRequest s userID roles) api rem ->
  fst (UpdateUserScopeRoles s userID roles w)
  = match Unmarshal_user (Data api) with
    | ok o => Returns (userOf o)
    | err e => Fails (payloadError e)
    end
  /\ issued (snd (UpdateUserScopeRoles s userID roles w))
     = (issued w ++ [updateUserRequest s userID roles])%list.
Proof.
  intros Ha.
  split; [|exact (proj1 (UpdateUserScopeRoles_issued s userID roles w))].
  unfold UpdateUserScopeRoles. rewrite bind_run. unfold log at 1.
  rewrite bind_run.
  match goal with
  | |- context [exec s ?m ?e ?o ?w1] =>
      rewrite (exec_answers s m e o w1 api rem Ha)
  end.
  destruct (Unmarshal_user (Data api)) as [o|e]; [|reflexivity].
  rewrite fromS1APIUserObject_userOf. reflexivity.
Qed.

End MoreUsers.


(** ** What a lookup depends on *)

Section Frames.

Context `{GoRuntime}.

Lemma framed_ret {A : Type} (a : A) : framed (ret a).
Proof. intros w w' Hr. split; [reflexivity|exact Hr]. Qed.

Lemma framed_fail {A : Type} (e : S1ClientRequestError) : framed (@fail _ A e).
Proof. intros w w' Hr. split; [reflexivity|exact Hr]. Qed.

Lemma framed_panic {A : Type} (r : string) : framed (@panic _ A r).
Proof. intros w w' Hr. split; [reflexivity|exact Hr]. Qed.

Lemma framed_log (l : Level) (m : string) : framed (log l m).
Proof. intros w w' Hr. split; [reflexivity|exact Hr]. Qed.

Lemma framed_now : framed now.
Proof.
  intros w w' Hr. unfold now. rewrite Hr.
  destruct (time_Now (remote w')). split; reflexivity.
Qed.

Lemma framed_intn (n : Z) : framed (intn n).
Proof.
  intros w w' Hr. unfold intn. rewrite Hr.
  destruct (rand_Intn n (remote w')). split; reflexivity.
Qed.

Lemma framed_send (r : Request) : framed (send r).
Proof.
  intros w w' Hr. unfold send. rewrite Hr.
  destruct (Execute r (remote w')). split; reflexivity.
Qed.

Lemma framed_bind {A B : Type} (c : M A) (k : A -> M B) :
  framed c -> (forall a, framed (k a)) -> framed (bind c k).
Proof.
  intros Hc Hk w w' Hr. destruct (Hc w w' Hr) as [Ho Hrem].
  rewrite !bind_run.
  destruct (c w) as [[a|e|r] w1]; destruct (c w') as [[a'|e'|r'] w1'];
    simpl in *; try discriminate.
  - inversion Ho. subst. apply Hk. exact Hrem.
  - inversion Ho. subst. split; [reflexivity|exact Hrem].
  - inversion Ho. subst. split; [reflexivity|exact Hrem].
Qed.

Ltac frames :=
  repeat match goal with
    | |- framed (log _ _) => apply framed_log
    | |- framed (ret _) => apply framed_ret
    | |- framed (panic _) => apply framed_panic
    | |- framed (fail _) => apply framed_fail
    | |- framed now => apply framed_now
    | |- framed (intn _) => apply framed_intn
    | |- framed (send _) => apply framed_send
    | |- framed (unmarshalFailed _) => unfold unmarshalFailed
    | |- framed (bind _ _) => apply framed_bind; [|intros ?]
    | |- framed (match ?x with _ => _ end) => destruct x
    | |- framed (if ?x then _ else _) => destruct x
    | |- framed (let _ := _ in _) => cbv zeta
    | H : framed ?c |- framed ?c => exact H
    | H : forall _, framed _ |- framed _ => solve [apply H]
    | H : forall _ _, framed _ |- framed _ => solve [apply H]
    | H : forall _ _ _, framed _ |- framed _ => solve [apply H]
    | H : forall _ _ _ _, framed _ |- framed _ => solve [apply H]
    end.

Lemma framed_logAPIErrors (es : list S1APIError) : framed (logAPIErrors es).
Proof. induction es as [|e rest IH]; cbn [logAPIErrors]; frames. Qed.

Lemma framed_exec (s : S1Client) (meth endpoint : string)
      (optFns : list s1ClientExecOptFn) :
  framed (exec s meth endpoint optFns).
Proof. pose proof framed_logAPIErrors. unfold exec. frames. Qed.

Lemma framed_FindRole (s : S1Client) (accountID name : string) :
  framed (FindRole s accountID name).
Proof. pose proof framed_exec. unfold FindRole, fromS1APIRoleObject. frames. Qed.

Lemma framed_FindUser (s : S1Client) (email : string) : framed (FindUser s email).
Proof. pose proof framed_exec. unfold FindUser, fromS1APIUserObject. frames. Qed.

End Frames.


(** ** No silent failure *)

Section Loudness.

Context `{GoRuntime}.

Lemma loud_quiet {A : Type} (c : M A) :
  (forall w, logged (snd (c w)) = logged w) ->
  (forall w e, fst (c w) <> Fails e) ->
  loud c.
Proof.
  intros Hl Hf w. exists []. rewrite app_nil_r. split; [apply Hl|].
  intros e He. exfalso. exact (Hf w e He).
Qed.

Lemma loud_ret {A : Type} (a : A) : loud (ret a).
Proof. apply loud_quiet; [reflexivity|discriminate]. Qed.

Lemma loud_panic {A : Type} (r : string) : loud (@panic _ A r).
Proof. apply loud_quiet; [reflexivity|discriminate]. Qed.

Lemma loud_log (l : Level) (m : string) : loud (log l m).
Proof.
  intros w. exists [ {| level := l; message := m |} ]. split; [reflexivity|].
  discriminate.
Qed.

Lemma loud_now : loud now.
Proof.
  apply loud_quiet; intros w; unfold now; destruct (time_Now (remote w));
    [reflexivity|discriminate].
Qed.

Lemma loud_intn (n : Z) : loud (intn n).
Proof.
  apply loud_quiet; intros w; unfold intn; destruct (rand_Intn n (remote w));
    [reflexivity|discriminate].
Qed.

Lemma loud_send (r : Request) : loud (send r).
Proof.
  apply loud_quiet; intros w; unfold send; destruct (Execute r (remote w));
    [reflexivity|discriminate].
Qed.

Lemma loud_log_fail {A : Type} (m : string) (e : S1ClientRequestError) :
  loud (bind (log ErrorLevel m) (fun _ => @fail _ A e)).
Proof.
  intros w. exists [ {| level := ErrorLevel; message := m |} ].
  split; [reflexivity|]. intros e' _. exists m. left. reflexivity.
Qed.

Lemma loud_bind {A B : Type} (c : M A) (k : A -> M B) :
  loud c -> (forall a, loud (k a)) -> loud (bind c k).
Proof.
  intros Hc Hk w. destruct (Hc w) as (ls & Hl & Hf).
  rewrite bind_run. destruct (c w) as [[a|e|r] w1]; simpl in *.
  - destruct (Hk a w1) as (ls' & Hl' & Hf').
    exists (ls ++ ls')%list. rewrite Hl', Hl, app_assoc. split; [reflexivity|].
    intros e He. destruct (Hf' e He) as (m & Hin). exists m.
    apply in_or_app. right. exact Hin.
  - exists ls. split; [exact Hl|]. intros e' He. apply (Hf e). reflexivity.
  - exists ls. split; [exact Hl|]. discriminate.
Qed.

Lemma logAPIErrors_logged (es : list S1APIError) (w : World) :
  logged (snd (logAPIErrors es w)) = (logged w ++ map errorLine es)%list
  /\ fst (logAPIErrors es w) = Returns tt.
Proof.
  revert w. induction es as [|e rest IH]; intros w; cbn [logAPIErrors map].
  - rewrite app_nil_r. split; reflexivity.
  - unfold bind. unfold errorLine at 1.
    destruct (String.eqb (err_Detail e) ""); unfold log; cbv beta iota;
      match goal with
      | |- context [logAPIErrors rest ?w1] =>
          destruct (IH w1) as [Hl Ho];
          destruct (logAPIErrors rest w1) as [o w2]
      end; simpl in Hl, Ho; subst o; simpl; rewrite Hl;
      rewrite <- app_assoc; split; reflexivity.
Qed.

Lemma loud_exec (s : S1Client) (meth endpoint : string)
      (optFns : list s1ClientExecOptFn) :
  loud (exec s meth endpoint optFns).
Proof.
  unfold exec. apply loud_bind; [apply loud_send|].
  intros [resp|e]; cbv zeta.
  - destruct (StatusCode resp >=? http_StatusMethodNotAllowed);
      [apply loud_log_fail|].
    destruct (StatusCode resp >=? http_StatusInternalServerError);
      [apply loud_log_fail|].
    destruct (Unmarshal_S1APIResponse (RespBody resp)) as [api|e];
      [|apply loud_log_fail].
    destruct (Errors api) as [|x l] eqn:Eerr.
    + change (0 <? length (@nil S1APIError))%nat with false. cbv iota.
      apply loud_ret.
    + change (0 <? length (x :: l))%nat with true. cbv iota.
      intros w. rewrite bind_run.
      destruct (logAPIErrors_logged (x :: l) w) as [Hl Ho].
      destruct (logAPIErrors (x :: l) w) as [o w1].
      cbn [fst snd] in Hl, Ho. subst o. cbv beta iota. unfold fail.
      cbn [fst snd]. exists (map errorLine (x :: l)). split; [exact Hl|].
      intros e' _. eexists. left. reflexivity.
  - apply loud_log_fail.
Qed.

Lemma loud_writeRunes (n : nat) (b : string) : loud (writeRunes n b).
Proof.
  revert b. induction n as [|k IH]; intros b; cbn [writeRunes].
  - apply loud_ret.
  - apply loud_bind; [apply loud_intn|].
    intros i. destruct (index chars i); [apply IH|apply loud_panic].
Qed.

Ltac louds :=
  repeat match goal with
    | |- loud (bind (log ErrorLevel _) (fun _ => fail _)) => apply loud_log_fail
    | |- loud (unmarshalFailed _) => unfold unmarshalFailed
    | |- loud (exec _ _ _ _) => apply loud_exec
    | |- loud (writeRunes _ _) => apply loud_writeRunes
    | |- loud (log _ _) => apply loud_log
    | |- loud (ret _) => apply loud_ret
    | |- loud (panic _) => apply loud_panic
    | |- loud now => apply loud_now
    | |- loud (bind _ _) => apply loud_bind; [|intros ?]
    | |- loud (match ?x with _ => _ end) => destruct x
    | |- loud (if ?x then _ else _) => destruct x
    | |- loud (let _ := _ in _) => cbv zeta
    | H : loud ?c |- loud ?c => exact H
    | H : forall _, loud _ |- loud _ => solve [apply H]
    | H : forall _ _, loud _ |- loud _ => solve [apply H]
    | H : forall _ _ _, loud _ |- loud _ => solve [apply H]
    | H : forall _ _ _ _, loud _ |- loud _ => solve [apply H]
    end.

Lemma loud_fromS1APIAccountObject (o : S1APIAccountObject) :
  loud (fromS1APIAccountObject o).
Proof. unfold fromS1APIAccountObject. louds. Qed.

Lemma loud_FindAccount (s : S1Client) (name : string) : loud (FindAccount s name).
Proof. pose proof loud_fromS1APIAccountObject. unfold FindAccount. louds. Qed.

Lemma loud_FindRole (s : S1Client) (accountID name : string) :
  loud (FindRole s accountID name).
Proof. unfold FindRole, fromS1APIRoleObject. louds. Qed.

Lemma loud_FindUser (s : S1Client) (email : string) : loud (FindUser s email).
Proof. unfold FindUser, fromS1APIUserObject. louds. Qed.

Lemma loud_ReactivateAccount (s : S1Client) (id : string) (expires : time_Time) :
  loud (ReactivateAccount s id expires).
Proof. unfold ReactivateAccount. louds. Qed.

Lemma loud_ResetUserPassword (s : S1Client) (userID : string) :
  loud (ResetUserPassword s userID).
Proof. unfold ResetUserPassword. louds. Qed.

Lemma loud_UpdateUserScopeRoles (s : S1Client) (userID : string)
      (roles : list S1UserScopeRole) :
  loud (UpdateUserScopeRoles s userID roles).
Proof. unfold UpdateUserScopeRoles, fromS1APIUserObject. louds. Qed.

Lemma loud_configureExpiration (req : S1AccountProvisioningRequest) :
  loud (configureExpiration req).
Proof. unfold configureExpiration. louds. Qed.

Lemma loud_CreateAccount (s : S1Client) (req : S1AccountProvisioningRequest) :
  loud (CreateAccount s req).
Proof.
  pose proof loud_FindAccount. pose proof loud_configureExpiration.
  pose proof loud_ReactivateAccount. pose proof loud_fromS1APIAccountObject.
  unfold CreateAccount. louds.
Qed.

Lemma loud_CreateUser (s : S1Client) (req : S1UserProvisioningRequest)
      (accountID : string) :
  loud (CreateUser s req accountID).
Proof.
  pose proof loud_FindUser. pose proof loud_FindRole.
  pose proof loud_UpdateUserScopeRoles.
  unfold CreateUser, fromS1APIUserObject. louds.
Qed.

Lemma loud_provisionAccount (s : S1Client) (account : accountDetails)
      (reactivate resetFirstUserPass : bool) :
  loud (provisionAccount s account reactivate resetFirstUserPass).
Proof.
  pose proof loud_CreateAccount. pose proof loud_CreateUser.
  pose proof loud_ResetUserPassword.
  unfold provisionAccount. louds.
Qed.

Lemma provisionRecords_reported
      (s : S1Client) (reactivate resetFirstUserPass : bool)
      (records : list (Result accountDetails)) (w : World) :
  exists ls,
    logged (snd (provisionRecords s reactivate resetFirstUserPass records w))
    = (logged w ++ ls)%list
    /\ (forall e,
           fst (provisionRecords s reactivate resetFirstUserPass records w) = Fails e ->
           exists m, In {| level := ErrorLevel; message := m |} ls)
    /\ (forall g,
           fst (provisionRecords s reactivate resetFirstUserPass records w)
           = Returns (Some g) ->
           In {| level := ErrorLevel; message := GeneralFailure_Error g |} ls).
Proof.
  revert w. induction records as [|[account|e] rest IH]; intros w;
    cbn [provisionRecords].
  - eexists. split; [reflexivity|]. split; [discriminate|].
    intros g Hg. discriminate Hg.
  - rewrite bind_run.
    destruct (loud_provisionAccount s account reactivate resetFirstUserPass w)
      as (ls1 & Hl1 & Hf1).
    destruct (provisionAccount s account reactivate resetFirstUserPass w)
      as [[[]|e|r] w1]; cbn [fst snd] in *.
    + destruct (IH w1) as (ls2 & Hl2 & Hf2 & Hg2).
      exists (ls1 ++ ls2)%list. rewrite Hl2, Hl1, app_assoc.
      split; [reflexivity|]. split.
      * intros e He. destruct (Hf2 e He) as (m & Hin). exists m.
        apply in_or_app. right. exact Hin.
      * intros g Hg. apply in_or_app. right. exact (Hg2 g Hg).
    + exists ls1. split; [exact Hl1|]. split.
      * intros e' _. apply (Hf1 e). reflexivity.
      * intros g Hg. discriminate Hg.
    + exists ls1. split; [exact Hl1|]. split; [discriminate|].
      intros g Hg. discriminate Hg.
  - eexists. split; [reflexivity|]. split; [discriminate|].
    intros g Hg. inversion Hg. left. reflexivity.
Qed.

(** X5. No call fails in silence: each operation of the client only ever
    adds lines to the log, and whenever it returns an error it has logged
    at least one line at the level of errors.  So does the command that
    provisions the records of a CSV, for both kinds of error it returns:
    when it passes an error of the client on, a line at the level of
    errors has been logged, and when it returns the general failure for a
    record that does not decode, it has logged the message of that
    failure at the level of errors. *)
Theorem failures_are_logged (s : S1Client) :
  (forall meth endpoint optFns, loud (exec s meth endpoint optFns))
  /\ (forall name, loud (FindAccount s name))
  /\ (forall accountID name, loud (FindRole s accountID name))
  /\ (forall email, loud (FindUser s email))
  /\ (forall req, loud (CreateAccount s req))
  /\ (forall req accountID, loud (CreateUser s req accountID))
  /\ (forall id expires, loud (ReactivateAccount s id expires))
  /\ (forall userID, loud (ResetUserPassword s userID))
  /\ (forall userID roles, loud (UpdateUserScopeRoles s userID roles))
  /\ (forall reactivate resetFirstUserPass records w,
         exists ls,
           logged (snd (provisionRecords s reactivate resetFirstUserPass records w))
           = (logged w ++ ls)%list
           /\ (forall e,
                  fst (provisionRecords s reactivate resetFirstUserPass records w)
                  = Fails e ->
                  exists m, In {| level := ErrorLevel; message := m |} ls)
           /\ (forall g,
                  fst (provisionRecords s reactivate resetFirstUserPass records w)
                  = Returns (Some g) ->
                  In {| level := ErrorLevel; message := GeneralFailure_Error g |} ls)).
Proof.
  split; [intros; apply loud_exec|].
  split; [intros; apply loud_FindAccount|].
  split; [intros; apply loud_FindRole|].
  split; [intros; apply loud_FindUser|].
  split; [intros; apply loud_CreateAccount|].
  split; [intros; apply loud_CreateUser|].
  split; [intros; apply loud_ReactivateAccount|].
  split; [intros; apply loud_ResetUserPassword|].
  split; [intros; apply loud_UpdateUserScopeRoles|].
  intros; apply provisionRecords_reported.
Qed.

(** X4. When the envelope lists platform errors, [exec] logs one line at the
    level of errors for each of them, in the order of the list (the title,
    followed by the detail when there is one), and nothing else. *)
Theorem exec_logs_every_error
        (s : S1Client) (meth endpoint : string) (optFns : list s1ClientExecOptFn)
        (w : World) (resp : Response Raw) (rem : Remote) (api : S1APIResponse Raw) :
  Execute (execRequest s meth endpoint optFns) (remote w) = (ok resp, rem) ->
  StatusCode resp < http_StatusMethodNotAllowed ->
  Unmarshal_S1APIResponse (RespBody resp) = ok api ->
  logged (snd (exec s meth endpoint optFns w))
  = (logged w ++ map errorLine (Errors api))%list.
Proof.
  intros HE Hs HU.
  unfold exec. rewrite bind_run. unfold send. rewrite HE. cbv beta iota zeta.
  unfold http_StatusMethodNotAllowed, http_StatusInternalServerError in *.
  destruct (StatusCode resp >=? 405) eqn:E1; [lia|].
  destruct (StatusCode resp >=? 500) eqn:E2; [lia|].
  rewrite HU.
  destruct (Errors api) as [|x l] eqn:Eerr.
  - change (0 <? length (@nil S1APIError))%nat with false. cbv iota.
    unfold ret. cbn [fst snd map logged]. rewrite app_nil_r. reflexivity.
  - change (0 <? length (x :: l))%nat with true. cbv iota.
    rewrite bind_run.
    match goal with
    | |- context [logAPIErrors (x :: l) ?w1] =>
        destruct (logAPIErrors_logged (x :: l) w1) as [Hl Ho];
        destruct (logAPIErrors (x :: l) w1) as [o w2]
    end.
    cbn [fst snd] in Hl, Ho. subst o. cbv beta iota. unfold fail.
    cbn [fst snd]. exact Hl.
Qed.

End Loudness.


(** ** The password, and its reset *)

Section Passwords.

Context `{GoRuntime}.

Lemma ResetUserPassword_issued (s : S1Client) (userID : string) (w : World) :
  issues (ResetUserPassword s userID) w [resetPasswordRequest s userID].
Proof.
  unfold issues, ResetUserPassword, resetPasswordRequest. unfold_m.
  use_exec; simpl; auto.
  destruct (Unmarshal_affected _) as [d|e]; simpl; auto.
  destruct (Affected d =? 0)%Z; simpl; auto.
Qed.

(** X15. [ResetUserPassword] issues one request, a POST whose filter lists the
    one user identifier, and does not panic.  When the platform answers
    with a count of affected users, it fails if the count is zero and
    returns otherwise; and it returns only after such an answer with a
    count that is not zero. *)
Theorem ResetUserPassword_outcome (s : S1Client) (userID : string) (w : World) :
  issued (snd (ResetUserPassword s userID w))
  = (issued w ++ [resetPasswordRequest s userID])%list
  /\ noPanic (fst (ResetUserPassword s userID w))
  /\ Method (resetPasswordRequest s userID) = http_MethodPost
  /\ Body (resetPasswordRequest s userID)
     = Some (JObj [("filter", JObj [("ids", JArr [JStr userID])])])
  /\ (forall api rem d,
         answers w (resetPasswordRequest s userID) api rem ->
         Unmarshal_affected (Data api) = ok d ->
         fst (ResetUserPassword s userID w)
         = if (Affected d =? 0)%Z then Fails resetError else Returns tt)
  /\ (forall w',
         ResetUserPassword s userID w = (Returns tt, w') ->
         exists api rem d,
           answers w (resetPasswordRequest s userID) api rem
           /\ Unmarshal_affected (Data api) = ok d
           /\ Affected d <> 0).
Proof.
  destruct (ResetUserPassword_issued s userID w) as [Hi Hp].
  split; [exact Hi|]. split; [exact Hp|]. split; [reflexivity|].
  split; [reflexivity|]. split.
  - intros api rem d Ha Hd. unfold ResetUserPassword. rewrite bind_run.
    unfold log at 1. rewrite bind_run.
    match goal with
    | |- context [exec s ?m ?e ?o ?w1] =>
        rewrite (exec_answers s m e o w1 api rem Ha)
    end.
    rewrite Hd. destruct (Affected d =? 0)%Z; reflexivity.
  - unfold ResetUserPassword. rewrite bind_run. unfold log at 1. rewrite bind_run.
    match goal with
    | |- context [exec s ?m ?e ?o ?w1] =>
        destruct (exec s m e o w1) as [[api|e0|r0] w2] eqn:E
    end; try discriminate.
    destruct (exec_returns_inv _ _ _ _ _ _ _ E) as (rem & Ha & _).
    destruct (Unmarshal_affected (Data api)) as [d|e0] eqn:Hd;
      [|unfold_m; discriminate].
    destruct (Affected d =? 0)%Z eqn:Ez; [unfold_m; discriminate|].
    intros w' _. exists api, rem, d. split; [exact Ha|]. split; [exact Hd|].
    apply Z.eqb_neq. exact Ez.
Qed.

Lemma index_In {A : Type} (l : list A) (i : Z) (c : A) :
  index l i = Some c -> In c l.
Proof.
  unfold index. destruct (i <? 0)%Z; [discriminate|]. apply nth_error_In.
Qed.

Lemma writeRunes_alphabet (n : nat) (b : string) (w : World) :
  exists suffix w',
    writeRunes n b w = (Returns (b ++ suffix), w')
    /\ String.length suffix = n
    /\ Forall (fun c => In c chars) (list_ascii_of_string suffix).
Proof.
  revert b w. induction n as [|k IH]; intros b w; cbn [writeRunes].
  - exists "", w. split; [|split; [reflexivity|constructor]].
    unfold ret. f_equal. f_equal.
    induction b as [|x b IHb]; simpl; [reflexivity|]. rewrite <- IHb. reflexivity.
  - rewrite bind_run. unfold intn.
    match goal with
    | |- context [rand_Intn ?n ?r] =>
        pose proof (@rand_Intn_range _ n r) as Hr;
        destruct (rand_Intn n r) as [i rem]
    end.
    simpl in Hr.
    destruct (index_in_range chars i) as (c & Hc).
    { apply Hr. reflexivity. }
    cbv beta iota zeta. rewrite Hc.
    match goal with
    | |- context [writeRunes k ?b1 ?w1] =>
        destruct (IH b1 w1) as (suffix & w' & E & Hlen & Hall)
    end.
    exists (String c suffix), w'. rewrite E.
    split; [|split].
    + f_equal. f_equal. clear. induction b as [|x b IHb]; simpl; [reflexivity|].
      rewrite IHb. reflexivity.
    + simpl. rewrite Hlen. reflexivity.
    + simpl. constructor; [exact (index_In _ _ _ Hc)|exact Hall].
Qed.

(** X16. For a user that does not exist, once both lookups have returned, the
    create call carries a password of exactly 32 characters, each of them
    one of the 62 letters and digits, whatever the random source yields:
    drawing the characters never panics. *)
Theorem CreateUser_password
        (s : S1Client) (req : S1UserProvisioningRequest) (accountID : string)
        (w w1 w2 : World) (role : option S1Role) :
  FindUser s (req_EmailAddress req) w = (Returns None, w1) ->
  FindRole s accountID "Admin" w1 = (Returns role, w2) ->
  exists passwd,
    issued (snd (CreateUser s req accountID w))
    = (issued w ++ [findUserRequest s (req_EmailAddress req);
                    findRoleRequest s accountID "Admin";
                    createUserRequest s req accountID passwd])%list
    /\ String.length passwd = 32%nat
    /\ Forall (fun c => In c chars) (list_ascii_of_string passwd)
    /\ length chars = 62%nat
    /\ noPanic (fst (CreateUser s req accountID w)).
Proof.
  intros HF HR.
  destruct (CreateUser_absent_run _ req _ _ _ _ _ HF HR)
    as (passwd & wp & EP & Hlen & Hi & Hp & _).
  destruct (writeRunes_alphabet 32 "" w2) as (suffix & w' & E & _ & Hall).
  rewrite EP in E. inversion E. subst.
  exists suffix. split; [exact Hi|]. split; [exact Hlen|].
  split; [exact Hall|]. split; [reflexivity|exact Hp].
Qed.

End Passwords.


(** ** The command that provisions the records of a CSV *)

Section Records.

Context `{GoRuntime}.

Lemma splitOn_cons (sep : ascii) (s : string) :
  exists piece pieces, splitOn sep s = piece :: pieces.
Proof.
  destruct s as [|c rest]; simpl; [eauto|].
  destruct (Ascii.eqb c sep); [eauto|].
  destruct (splitOn sep rest); eauto.
Qed.

Lemma length_splitOn (sep : ascii) (s : string) :
  length (splitOn sep s) = S (countOf sep s).
Proof.
  induction s as [|c rest IH]; simpl; [reflexivity|].
  destruct (Ascii.eqb c sep); simpl; [rewrite IH; reflexivity|].
  destruct (splitOn sep rest) as [|piece pieces]; simpl in *; [discriminate|exact IH].
Qed.

Lemma concat_splitOn (sep : ascii) (s : string) :
  String.concat (String sep EmptyString) (splitOn sep s) = s.
Proof.
  induction s as [|c rest IH]; simpl; [reflexivity|].
  destruct (Ascii.eqb c sep) eqn:E.
  - apply Ascii.eqb_eq in E. subst c.
    destruct (splitOn_cons sep rest) as (piece & pieces & Hs).
    rewrite Hs in *. simpl in *. rewrite IH. reflexivity.
  - destruct (splitOn sep rest) as [|piece pieces]; simpl in *.
    + subst rest. reflexivity.
    + destruct pieces; simpl in *; rewrite <- IH; reflexivity.
Qed.

(** X17. The modules of the account request made of a record are the pieces of
    the [modules] column between its commas: one more than it has commas,
    so never none (an empty column gives one module with an empty name),
    and joined with commas they give the column back. *)
Theorem modules_of_record (account : accountDetails) (reactivate : bool) :
  length (req_Modules (accountRequestOf account reactivate))
  = S (countOf "," (Modules account))
  /\ String.concat "," (req_Modules (accountRequestOf account reactivate))
     = Modules account
  /\ (Modules account = "" ->
      req_Modules (accountRequestOf account reactivate) = [""]).
Proof.
  unfold accountRequestOf. simpl. split; [apply length_splitOn|].
  split; [apply concat_splitOn|]. intros E. rewrite E. reflexivity.
Qed.

(** X18. A record already provisioned: the account is found [active], the value
    of [Expires] resolves, the user is found with a scope role for the
    account, and the lookup of the [Admin] role returns.  Then
    [provisionAccount] returns no error, and without the password reset it
    issues the three lookups and nothing else; with the password reset it
    issues, after the three lookups, the reset for the user found: a
    second run over the same record sends the reset e-mail again. *)
Theorem provisionAccount_provisioned_record
        (s : S1Client) (account : accountDetails) (reactivate : bool)
        (w w1 w2 w3 w4 : World) (a : S1Account time_Time) (expires : time_Time)
        (u : S1User) (role : option S1Role) :
  FindAccount s (AccountName account) w = (Returns (Some a), w1) ->
  acct_State a = "active" ->
  configureExpiration (accountRequestOf account reactivate) w1 = (Returns expires, w2) ->
  FindUser s (EmailAddress account) w2 = (Returns (Some u), w3) ->
  hasScope (acct_ID a) (user_ScopeRoles u) = true ->
  FindRole s (acct_ID a) "Admin" w3 = (Returns role, w4) ->
  fst (provisionAccount s account reactivate false w) = Returns tt
  /\ issued (snd (provisionAccount s account reactivate false w))
     = (issued w ++ [findAccountRequest s (AccountName account);
                     findUserRequest s (EmailAddress account);
                     findRoleRequest s (acct_ID a) "Admin"])%list
  /\ issued (snd (provisionAccount s account reactivate true w))
     = (issued w ++ [findAccountRequest s (AccountName account);
                     findUserRequest s (EmailAddress account);
                     findRoleRequest s (acct_ID a) "Admin";
                     resetPasswordRequest s (user_ID u)])%list.
Proof.
  intros HFA Hact HC HFU Hs HFR.
  destruct (FindAccount_found_issued _ _ _ _ _ HFA) as [Hi1 _].
  destruct (configureExpiration_run _ _ _ _ HC) as [Hi2 _].
  assert (Hacct : forall reset,
    provisionAccount s account reactivate reset w
    = (user <- CreateUser s (userRequestOf account) (acct_ID a) ;;
       log InfoLevel "user has been created and enabled for account" ;;;
       if reset then ResetUserPassword s (user_ID user) else ret tt)
        (snd (log InfoLevel "account has been successfully provisioned"
                (snd (log InfoLevel "found existing active account" w2))))).
  { intros reset. unfold provisionAccount. rewrite bind_run.
    rewrite (CreateAccount_found s (accountRequestOf account reactivate)
               w w1 w2 a expires HFA HC), Hact. reflexivity. }
  set (wa := snd (log InfoLevel "account has been successfully provisioned"
                    (snd (log InfoLevel "found existing active account" w2)))) in *.
  assert (Hwa : remote wa = remote w2) by reflexivity.
  assert (Hia : issued wa = issued w2) by reflexivity.
  destruct (framed_FindUser s (EmailAddress account) wa w2 Hwa) as [Ho1 Hr1].
  destruct (FindUser s (EmailAddress account) wa) as [o1 wb] eqn:HFU'.
  rewrite HFU in Ho1, Hr1. simpl in Ho1, Hr1. subst o1.
  destruct (framed_FindRole s (acct_ID a) "Admin" wb w3 Hr1) as [Ho2 Hr2].
  destruct (FindRole s (acct_ID a) "Admin" wb) as [o2 wc] eqn:HFR'.
  rewrite HFR in Ho2. simpl in Ho2. subst o2.
  destruct (FindUser_run _ _ _ _ _ HFU') as [Hi3 _].
  destruct (FindRole_run _ _ _ _ _ _ HFR') as [Hi4 _].
  assert (Huser : CreateUser s (userRequestOf account) (acct_ID a) wa
                  = (Returns u,
                     snd (log InfoLevel "found existing user" wc))).
  { rewrite (CreateUser_found s (userRequestOf account) (acct_ID a)
               wa wb wc u role HFU' HFR'), Hs. reflexivity. }
  assert (Hlook : issued wc
                  = (issued w ++ [findAccountRequest s (AccountName account);
                                  findUserRequest s (EmailAddress account);
                                  findRoleRequest s (acct_ID a) "Admin"])%list).
  { rewrite Hi4, Hi3, Hia, Hi2, Hi1, <- !app_assoc. reflexivity. }
  split; [|split].
  - rewrite Hacct, bind_run, Huser. reflexivity.
  - rewrite Hacct, bind_run, Huser. simpl. exact Hlook.
  - rewrite Hacct, bind_run, Huser. rewrite bind_run. unfold log at 1.
    cbv beta iota.
    match goal with
    | |- context [ResetUserPassword s ?id ?wx] =>
        rewrite (proj1 (ResetUserPassword_issued s id wx))
    end.
    simpl. rewrite Hlook, <- app_assoc. reflexivity.
Qed.

Lemma provisionRecords_issued_grows (s : S1Client) (reactivate reset : bool)
      (records : list (Result accountDetails)) (w : World) :
  exists rs,
    issued (snd (provisionRecords s reactivate reset records w))
    = (issued w ++ rs)%list.
Proof.
  destruct (respects_provisionRecords s reactivate reset records w)
    as [(rs & Hi & _) _].
  exists rs. exact Hi.
Qed.

(** X19. The records are provisioned in the order of the CSV and the loop ends
    at the first record that fails, be it in decoding or in provisioning:
    what follows it in the file changes nothing, neither the result nor
    the world.  And whatever follows, the requests made for the records
    before are made all the same, and nothing undoes them: more records
    only add requests. *)
Theorem provisionRecords_in_order
        (s : S1Client) (reactivate reset : bool)
        (first more : list (Result accountDetails)) (w : World) :
  (fst (provisionRecords s reactivate reset first w) <> Returns None ->
   provisionRecords s reactivate reset (first ++ more)%list w
   = provisionRecords s reactivate reset first w)
  /\ exists rs,
      issued (snd (provisionRecords s reactivate reset (first ++ more)%list w))
      = (issued (snd (provisionRecords s reactivate reset first w)) ++ rs)%list.
Proof.
  revert w. induction first as [|[account|e] rest IH]; intros w.
  - split.
    + intros Hne. exfalso. apply Hne. reflexivity.
    + simpl. apply provisionRecords_issued_grows.
  - cbn [provisionRecords app]. rewrite !bind_run.
    destruct (provisionAccount s account reactivate reset w) as [[[]|e|r] w1].
    + apply IH.
    + split; [reflexivity|]. exists []. rewrite app_nil_r. reflexivity.
    + split; [reflexivity|]. exists []. rewrite app_nil_r. reflexivity.
  - cbn [provisionRecords app]. split; [reflexivity|].
    exists []. rewrite app_nil_r. reflexivity.
Qed.

End Records.


(** ** The exit status *)

Lemma constructed_code (e : errorx_Error) :
  constructed e ->
  errorx_Code e = UsageErrorCode
  \/ errorx_Code e = ConfigLoadFailureCode
  \/ errorx_Code e = ConfigParseFailureCode
  \/ errorx_Code e = ConfigValidateFailureCode
  \/ errorx_Code e = S1ClientErrorCode
  \/ errorx_Code e = S1ClientRequestErrorCode.
Proof. intros []; simpl; auto 10. Qed.

(** X20. The exit status [run] gives is 0 when the command returned no error,
    the code of the error when it returned an error built by one of the
    constructors of package [errors] other than [NewNone], which is never
    0, and the code of a usage error for any other error.  A general failure exits with the
    code of a usage error too ([GeneralFailureCode] is the status of no
    error that is built), and like a usage error without the warning
    about the exit code, which is logged for every other failure. *)
Theorem run_exit_status :
  run None = (0, [])
  /\ (forall e,
         constructed e ->
         fst (run (Some (inl e))) = errorx_Code e
         /\ fst (run (Some (inl e))) <> 0
         /\ fst (run (Some (inl e))) <> GeneralFailureCode)
  /\ (forall plain,
         run (Some (inr plain)) = (UsageErrorCode, [(zerolog_ErrorLevel, plain)]))
  /\ (forall m e,
         run (Some (inl (IsGeneralFailure (NewGeneralFailure m e))))
         = (UsageErrorCode, []))
  /\ (forall e,
         constructed e ->
         errorx_Code e <> UsageErrorCode ->
         snd (run (Some (inl e)))
         = [(zerolog_WarnLevel,
             "exiting with non-zero exit code: " ++ itoa (errorx_Code e))]).
Proof.
  split; [reflexivity|]. split.
  - intros e He.
    assert (Hfst : fst (run (Some (inl e))) = errorx_Code e).
    { unfold run.
      destruct ((negb (errorx_Code e =? 0) && negb (errorx_Code e =? UsageErrorCode))%Z);
        reflexivity. }
    rewrite Hfst.
    destruct (constructed_code e He) as [E|[E|[E|[E|[E|E]]]]]; rewrite E;
      repeat split; discriminate.
  - split; [reflexivity|]. split; [reflexivity|].
    intros e He Hne. unfold run.
    destruct (errorx_Code e =? 0)%Z eqn:E0.
    + apply Z.eqb_eq in E0.
      destruct (constructed_code e He) as [E|[E|[E|[E|[E|E]]]]]; rewrite E in E0;
        discriminate.
    + destruct (errorx_Code e =? UsageErrorCode)%Z eqn:E1.
      * apply Z.eqb_eq in E1. contradiction.
      * reflexivity.
Qed.

Section ExitOfProvisioning.

Context `{GoRuntime}.

(** X21. An error of the client that ends the provisioning of the records of a
    CSV gives the exit status 101 or 102, and a record that does not
    decode gives the status of a usage error: a run of the command that
    fails does not exit with status 0. *)
Theorem provisioning_exit_status
        (s : S1Client) (reactivate reset : bool)
        (records : list (Result accountDetails)) (w : World) :
  (forall e,
      fst (provisionRecords s reactivate reset records w) = Fails e ->
      fst (run (Some (inl (IsS1ClientRequestError e)))) = Code e
      /\ (Code e = S1ClientErrorCode \/ Code e = S1ClientRequestErrorCode))
  /\ (forall g,
         fst (provisionRecords s reactivate reset records w) = Returns (Some g) ->
         fst (run (Some (inl (IsGeneralFailure g)))) = UsageErrorCode).
Proof.
  split.
  - intros e He.
    destruct (respects_provisionRecords s reactivate reset records w) as [_ Hf].
    pose proof (Hf e He) as Hc.
    split; [|exact Hc].
    unfold run. simpl.
    destruct ((negb (Code e =? 0) && negb (Code e =? UsageErrorCode))%Z);
      reflexivity.
  - revert w. induction records as [|[account|e] rest IH]; intros w g.
    + cbn [provisionRecords]. unfold_m. discriminate.
    + cbn [provisionRecords]. rewrite bind_run.
      destruct (provisionAccount s account reactivate reset w) as [[[]|e|r] w1];
        simpl; try discriminate.
      apply IH.
    + cbn [provisionRecords]. unfold_m. intros Hg. inversion Hg. reflexivity.
Qed.

End ExitOfProvisioning.


(** ** Loading the options *)

Section Options.

Variable os_Stat : string -> option goerror.

Lemma provisionCommandOptions_Load_run (c : Config) :
  exists c1,
    provisionCommandOptions_Load c = (None, c1)
    /\ command_isLoaded c1 = (command_isLoaded c || negb (provision_isLoaded c))%bool
    /\ provision_isLoaded c1 = true
    /\ ConfigFile c1 = ConfigFile c
    /\ viperAccount c1 = viperAccount c
    /\ viperVersion c1 = viperVersion c
    /\ accountOptions c1 = accountOptions c
    /\ versionOptions c1 = versionOptions c
    /\ optionLines c1 = optionLines c.
Proof.
  unfold provisionCommandOptions_Load, commandOptions_Load.
  destruct (provision_isLoaded c) eqn:Ep.
  - exists c. rewrite Ep, orb_false_r. auto 10.
  - destruct (command_isLoaded c) eqn:Ec; eexists; (split; [reflexivity|]);
      simpl; rewrite ?Ec; auto 10.
Qed.

Lemma provisionAccountCommandOptions_Load_loaded (c c' : Config) :
  provisionAccountCommandOptions_Load os_Stat c = (None, c') ->
  account_isLoaded (accountOptions c') = true.
Proof.
  unfold provisionAccountCommandOptions_Load.
  destruct (account_isLoaded (accountOptions c)) eqn:Hn.
  - intros Hx. inversion Hx; subst. exact Hn.
  - destruct (provisionCommandOptions_Load_run c) as (c1 & E & _).
    rewrite E.
    destruct (String.eqb (viper_CSVSource (viperAccount c1)) ""); simpl.
    + intros Hx. inversion Hx; subst. reflexivity.
    + destruct (String.eqb (viper_CSVSeparator (viperAccount c1)) ""); simpl.
      * destruct (os_Stat (viper_CSVSource (viperAccount c1)));
          intros Hx; inversion Hx; subst. reflexivity.
      * destruct (Nat.eqb (String.length (viper_CSVSeparator (viperAccount c1))) 1);
          simpl; [|discriminate].
        destruct (os_Stat (viper_CSVSource (viperAccount c1)));
          intros Hx; inversion Hx; subst. reflexivity.
Qed.

(** X22. A first [Load] of the options of [provision account] that returns no
    error leaves them loaded, with their parents, and holding what viper
    has.  With a CSV source, the separator is exactly one byte (the byte
    the command takes as the comma of the CSV reader), it is the comma
    when viper has an empty one, and the source could be stat'ed.
    Without a CSV source nothing is checked: the separator is viper's,
    whatever it is. *)
Theorem provisionAccountCommandOptions_Load_ok (c c' : Config) :
  account_isLoaded (accountOptions c) = false ->
  provisionAccountCommandOptions_Load os_Stat c = (None, c') ->
  account_isLoaded (accountOptions c') = true
  /\ provision_isLoaded c' = true
  /\ CSVSource (accountOptions c') = viper_CSVSource (viperAccount c)
  /\ ReactivateExpiredAccount (accountOptions c')
     = viper_ReactivateExpiredAccount (viperAccount c)
  /\ ResetFirstUserPassword (accountOptions c')
     = viper_ResetFirstUserPassword (viperAccount c)
  /\ (CSVSource (accountOptions c') <> "" ->
      (exists b, CSVSeparator (accountOptions c') = String b EmptyString)
      /\ CSVSeparator (accountOptions c') = separatorOf c
      /\ os_Stat (CSVSource (accountOptions c')) = None)
  /\ (CSVSource (accountOptions c') = "" ->
      CSVSeparator (accountOptions c') = viper_CSVSeparator (viperAccount c)).
Proof.
  intros Hn. unfold provisionAccountCommandOptions_Load. rewrite Hn.
  destruct (provisionCommandOptions_Load_run c)
    as (c1 & E & _ & Hp & Hf & Hva & _ & _ & _).
  rewrite E, Hva. unfold separatorOf.
  destruct (String.eqb (viper_CSVSource (viperAccount c)) "") eqn:Esrc; simpl.
  - intros Hx. inversion Hx; subst; clear Hx. simpl.
    apply String.eqb_eq in Esrc.
    repeat split; auto; try contradiction; try congruence.
  - apply String.eqb_neq in Esrc.
    destruct (String.eqb (viper_CSVSeparator (viperAccount c)) "") eqn:Esep; simpl.
    + destruct (os_Stat (viper_CSVSource (viperAccount c))) eqn:Est;
        intros Hx; inversion Hx; subst; clear Hx; simpl.
      repeat split; auto; try contradiction; try congruence. eexists. reflexivity.
    + destruct (Nat.eqb (String.length (viper_CSVSeparator (viperAccount c))) 1)
        eqn:Elen; simpl; [|discriminate].
      destruct (os_Stat (viper_CSVSource (viperAccount c))) eqn:Est;
        intros Hx; inversion Hx; subst; clear Hx; simpl.
      apply Nat.eqb_eq in Elen.
      repeat split; auto; try contradiction; try congruence.
      destruct (viper_CSVSeparator (viperAccount c)) as [|b [|b' rest]];
        simpl in Elen; try discriminate. eexists. reflexivity.
Qed.

(** X23. Once [Load] has returned no error, every later [Load] returns no error
    and changes nothing, whatever viper holds by then and whatever has
    become of the file. *)
Theorem provisionAccountCommandOptions_Load_once (c c' : Config) :
  provisionAccountCommandOptions_Load os_Stat c = (None, c') ->
  forall (os_Stat' : string -> option goerror)
         (a : viperProvisionAccountCommandOptions) (v : viperVersionCommandOptions),
    provisionAccountCommandOptions_Load os_Stat' (withViper a v c')
    = (None, withViper a v c').
Proof.
  intros Hrun os_Stat' a v.
  pose proof (provisionAccountCommandOptions_Load_loaded c c' Hrun) as Hl.
  unfold provisionAccountCommandOptions_Load. simpl. rewrite Hl. reflexivity.
Qed.

(** X24. A first [Load] fails exactly when there is a CSV source and either the
    separator, the default put for an empty one, is not one byte long, or
    the source cannot be stat'ed.  The error names the setting and its
    value; the options stay as they were, not loaded, so that a later
    [Load] validates again, while their parents are loaded. *)
Theorem provisionAccountCommandOptions_Load_fails (c : Config) :
  account_isLoaded (accountOptions c) = false ->
  (fst (provisionAccountCommandOptions_Load os_Stat c) <> None
   <-> viper_CSVSource (viperAccount c) <> ""
       /\ (String.length (separatorOf c) <> 1%nat
           \/ os_Stat (viper_CSVSource (viperAccount c)) <> None))
  /\ (forall errx c',
         provisionAccountCommandOptions_Load os_Stat c = (Some errx, c') ->
         accountOptions c' = accountOptions c
         /\ provision_isLoaded c' = true
         /\ cfg_Code (cvf_base errx) = ConfigValidateFailureCode
         /\ ((cvf_setting errx = "csv_separator"
              /\ cvf_value errx = separatorOf c)
             \/ (cvf_setting errx = "csv_source"
                 /\ cvf_value errx = viper_CSVSource (viperAccount c)
                 /\ os_Stat (viper_CSVSource (viperAccount c))
                    = Some (cfg_InternalError (cvf_base errx))))).
Proof.
  intros Hn. unfold provisionAccountCommandOptions_Load. rewrite Hn.
  destruct (provisionCommandOptions_Load_run c)
    as (c1 & E & _ & Hp & Hf & Hva & _ & Hao & _ & _).
  rewrite E, Hva. unfold separatorOf.
  destruct (String.eqb (viper_CSVSource (viperAccount c)) "") eqn:Esrc; simpl.
  - apply String.eqb_eq in Esrc. split.
    + split; [intros Hx; exfalso; apply Hx; reflexivity|].
      intros [Hx _]. contradiction.
    + intros errx c' Hx. discriminate.
  - apply String.eqb_neq in Esrc.
    destruct (String.eqb (viper_CSVSeparator (viperAccount c)) "") eqn:Esep; simpl.
    + destruct (os_Stat (viper_CSVSource (viperAccount c))) as [e|] eqn:Est; simpl.
      * split.
        -- split; [intros _; split; [exact Esrc|right; discriminate]|discriminate].
        -- intros errx c' Hx. inversion Hx; subst; clear Hx. simpl.
           repeat split; auto; right; repeat split; auto.
      * split.
        -- split; [intros Hx; exfalso; apply Hx; reflexivity|].
           intros [_ [Hx|Hx]]; exfalso; apply Hx; reflexivity.
        -- intros errx c' Hx. discriminate.
    + destruct (Nat.eqb (String.length (viper_CSVSeparator (viperAccount c))) 1)
        eqn:Elen; simpl.
      * apply Nat.eqb_eq in Elen.
        destruct (os_Stat (viper_CSVSource (viperAccount c))) as [e|] eqn:Est; simpl.
        -- split.
           ++ split; [intros _; split; [exact Esrc|right; discriminate]|discriminate].
           ++ intros errx c' Hx. inversion Hx; subst; clear Hx. simpl.
              repeat split; auto; right; repeat split; auto.
        -- split.
           ++ split; [intros Hx; exfalso; apply Hx; reflexivity|].
              intros [_ [Hx|Hx]]; exfalso; apply Hx; [exact Elen|reflexivity].
           ++ intros errx c' Hx. discriminate.
      * apply Nat.eqb_neq in Elen. split.
        -- split; [intros _; split; [exact Esrc|left; exact Elen]|discriminate].
        -- intros errx c' Hx. inversion Hx; subst; clear Hx. simpl.
           repeat split; auto; left; repeat split; auto.
Qed.

(** X25. A first [Load] of the options of [version] fails exactly when viper
    has both [short] and [verbose]; when it returns no error the options
    are loaded, hold what viper has, and are not both set. *)
Theorem versionCommandOptions_Load_exclusive (c : Config) :
  version_isLoaded (versionOptions c) = false ->
  (fst (versionCommandOptions_Load c) <> None
   <-> viper_Short (viperVersion c) = true /\ viper_Verbose (viperVersion c) = true)
  /\ (forall c',
         versionCommandOptions_Load c = (None, c') ->
         version_isLoaded (versionOptions c') = true
         /\ command_isLoaded c' = true
         /\ Short (versionOptions c') = viper_Short (viperVersion c)
         /\ Verbose (versionOptions c') = viper_Verbose (viperVersion c)
         /\ (Short (versionOptions c') && Verbose (versionOptions c'))%bool = false).
Proof.
  intros Hn. unfold versionCommandOptions_Load, commandOptions_Load. rewrite Hn.
  destruct (command_isLoaded c) eqn:Ec; simpl;
    destruct (viper_Short (viperVersion c)) eqn:Es;
    destruct (viper_Verbose (viperVersion c)) eqn:Ev; simpl;
    (split;
     [split;
      [intros Hx; try (exfalso; apply Hx; reflexivity); auto
      |intros [Hx Hy]; try discriminate]
     |intros c' Hx; try discriminate; inversion Hx; subst; clear Hx; simpl;
      rewrite ?Es, ?Ev, ?Ec; auto 10]).
Qed.

End Options.


(** ** The filtered writer *)

Section Filters.

Variable Sink : Type.
Variable Write : list ascii -> Sink -> (Z * option goerror) * Sink.

(** X26. [WriteLevel] hands the message to the writer underneath exactly when
    every condition of the list is there, has a function, and accepts the
    level; otherwise it writes nothing and still reports the whole
    message as written, without error.  With no condition at all it
    always writes.  A condition made by [And] or [Or] always has a
    function: [And] accepts when both sides accept, a nil side accepting
    nothing; [Or] accepts when one side accepts. *)
Theorem WriteLevel_filters
        (fw : FilteredLevelWriter) (level : Z) (p : list ascii) (k : Sink) :
  WriteLevel Sink Write fw level p k
  = (if forallb (accepts level) (cond fw)
     then Write p k
     else ((Z.of_nat (length p), None), k))
  /\ (cond fw = [] -> WriteLevel Sink Write fw level p k = Write p k)
  /\ (forall c f,
         accepts level (Some (And c f))
         = (accepts level (Some c)
            && accepts level (Some (NewFilteredLevelWriterCondition f)))%bool
         /\ accepts level (Some (Or c f))
            = (accepts level (Some c)
               || accepts level (Some (NewFilteredLevelWriterCondition f)))%bool).
Proof.
  split; [|split].
  - unfold WriteLevel. induction (cond fw) as [|c rest IH]; simpl; [reflexivity|].
    destruct c as [c|]; simpl; [|reflexivity].
    destruct (fn c) as [f|]; simpl; [|reflexivity].
    destruct (f level); simpl; [exact IH|reflexivity].
  - intros E. unfold WriteLevel. rewrite E. reflexivity.
  - intros c f. unfold accepts, And, Or, NewFilteredLevelWriterCondition. simpl.
    destruct (fn c) as [g|]; destruct f as [h|]; simpl;
      rewrite ?andb_false_r, ?orb_false_r; split; reflexivity.
Qed.

(** X27. Of the two writers the logger is built on, one for standard output
    and one for standard error, exactly one hands a message on, whatever
    its level: standard output below the level of warnings, standard
    error from it on. *)
Theorem log_line_reaches_one_stream
        (WarnLevel level : Z) (p : list ascii) (k : Sink) :
  (level < WarnLevel
   /\ WriteLevel Sink Write (stdoutFilter WarnLevel) level p k = Write p k
   /\ WriteLevel Sink Write (stderrFilter WarnLevel) level p k
      = ((Z.of_nat (length p), None), k))
  \/ (WarnLevel <= level
      /\ WriteLevel Sink Write (stderrFilter WarnLevel) level p k = Write p k
      /\ WriteLevel Sink Write (stdoutFilter WarnLevel) level p k
         = ((Z.of_nat (length p), None), k)).
Proof.
  unfold WriteLevel, stdoutFilter, stderrFilter. simpl.
  destruct (level <? WarnLevel)%Z eqn:E1; destruct (level >=? WarnLevel)%Z eqn:E2;
    simpl; try lia.
  - left. split; [lia|]. split; reflexivity.
  - right. split; [lia|]. split; reflexivity.
Qed.

End Filters.


(** ** More runs against the scripted transport *)

Module MoreRuns.

Import Fake Scripts.

(** A 503 is reported as a method that is not allowed. *)
Lemma exec_outcome_run :
  fst (exec client http_MethodGet "/accounts" [] serverDown)
  = Fails (statusError client http_MethodGet "/accounts").
Proof.
  exact (proj1 (exec_outcome client http_MethodGet "/accounts" [] serverDown
                  (ok {| StatusCode := 503; RespBody := Junk |})
                  {| script := []; clock := 1700000000; dice := [] |}
                  eq_refl)).
Defined.

Lemma exec_error_names_request_run :
  exists e,
    fst (exec client http_MethodGet "/accounts" [] serverDown) = Fails e
    /\ Code e = S1ClientRequestErrorCode
    /\ err_method e = "GET"
    /\ err_url e = "https://tenant.example/web/api/v2.1/accounts".
Proof.
  eexists. split; [vm_compute; reflexivity|].
  eapply (exec_error_names_request client http_MethodGet "/accounts" [] serverDown).
  vm_compute. reflexivity.
Defined.

Ltac answered :=
  eexists; split; [vm_compute; reflexivity|];
  split; [vm_compute; reflexivity|];
  split; vm_compute; reflexivity.

(** The first account of the answer is taken, though its name is not the
    one asked for. *)
Lemma FindAccount_takes_first_run :
  exists a,
    fst (FindAccount client "Acme" twoAccounts) = Returns (Some a)
    /\ acct_Name a = "Zenith".
Proof.
  eassert (Ha : @answers runtime twoAccounts (findAccountRequest client "Acme") _ _)
    by answered.
  pose proof (FindAccount_takes_first client "Acme" twoAccounts _ _
                zenith [acme "active"] Ha eq_refl) as Hrun.
  eexists. split; [exact Hrun|reflexivity].
Defined.

(** The account is created; the account returned has the expiration of
    the answer. *)
Lemma CreateAccount_created_run :
  exists a,
    fst (CreateAccount client (acmeRequest "8760h" false) twoRuns) = Returns a
    /\ acct_ID a = "1001"
    /\ acct_Expiration a = 1577836800%Z.
Proof.
  eassert (HF : FindAccount client "Acme" twoRuns = (Returns None, _))
    by (vm_compute; reflexivity).
  match type of HF with
  | _ = (_, ?w1) =>
      eassert (HC : configureExpiration (acmeRequest "8760h" false) w1
                    = (Returns _, _)) by (vm_compute; reflexivity)
  end.
  match type of HC with
  | _ = (Returns ?t, ?w2) =>
      eassert (Ha : @answers runtime w2
                      (@createAccountRequest runtime client
                         (acmeRequest "8760h" false) t) _ _)
        by answered
  end.
  destruct (CreateAccount_created client (acmeRequest "8760h" false) twoRuns
              _ _ _ _ _ HF HC Ha) as [Hrun _].
  eexists. split; [exact Hrun|]. split; reflexivity.
Defined.

(** An account in state [deleted]. *)
Lemma CreateAccount_other_state_run :
  fst (CreateAccount client (acmeRequest "720h" true) deletedAccount)
  = Fails (stateError "deleted").
Proof.
  eassert (HF : FindAccount client "Acme" deletedAccount = (Returns (Some _), _))
    by (vm_compute; reflexivity).
  destruct (CreateAccount_other_state client (acmeRequest "720h" true) deletedAccount
              _ _ HF) as (_ & _ & Hstate).
  - vm_compute. discriminate.
  - vm_compute. discriminate.
  - eapply Hstate. vm_compute. reflexivity.
Defined.

(** The user found, with the scope role the platform reports. *)
Lemma FindUser_takes_first_run :
  exists u,
    fst (FindUser client "alice@acme.example" (knownUser [adminEntry]))
    = Returns (Some u)
    /\ user_ID u = "77"
    /\ hasScope "1001" (user_ScopeRoles u) = true.
Proof.
  eassert (Ha : @answers runtime (knownUser [adminEntry])
                  (findUserRequest client "alice@acme.example") _ _)
    by answered.
  destruct (FindUser_takes_first client "alice@acme.example" (knownUser [adminEntry])
              _ _ (alice [adminEntry]) [] Ha eq_refl)
    as (u & Hrun & Hid & _ & _ & _ & Hscope).
  exists u. split; [exact Hrun|]. split; [exact Hid|].
  rewrite Hscope. reflexivity.
Defined.

(** A user of [Zenith] is made an administrator of [Acme]: the entry for
    [Zenith] goes back as it came. *)
Lemma CreateUser_update_sends_back_run :
  exists upd,
    issued (snd (CreateUser client (aliceRequest "Viewer") "1001"
                   (knownUser [zenithEntry])))
    = [findUserRequest client "alice@acme.example";
       findRoleRequest client "1001" "Admin"; upd]
    /\ Body upd
       = Some (JObj [("data", JObj [
           ("scope", JStr "account");
           ("scopeRoles",
            JArr [JObj [("id", JStr "2002"); ("roleId", JStr "900");
                        ("roleName", JStr "Viewer")];
                  JObj [("id", JStr "1001"); ("roleId", JStr "500");
                        ("roleName", JStr "Admin")]])])]).
Proof.
  eassert (Ha : @answers runtime (knownUser [zenithEntry])
                  (findUserRequest client "alice@acme.example") _ _)
    by answered.
  eassert (HR : FindRole client "1001" "Admin"
                  (snd (FindUser client "alice@acme.example" (knownUser [zenithEntry])))
                = (Returns (Some _), _)) by (vm_compute; reflexivity).
  destruct (CreateUser_update_sends_back client (aliceRequest "Viewer") "1001"
              (knownUser [zenithEntry]) _ _ _ (alice [zenithEntry]) [] _
              Ha eq_refl eq_refl HR)
    as (upd & Hi & _ & _ & Hbody).
  exists upd. split; [exact Hi|exact Hbody].
Defined.

(** Two scope roles are sent, the answer lists one: the user returned has
    one. *)
Lemma UpdateUserScopeRoles_outcome_run :
  exists u,
    fst (UpdateUserScopeRoles client "77"
           [fromS1APIUserScopeRoleObject zenithEntry;
            fromS1APIUserScopeRoleObject adminEntry] unchangedUser)
    = Returns u
    /\ length (user_ScopeRoles u) = 1%nat.
Proof.
  eassert (Ha : @answers runtime unchangedUser
                  (updateUserRequest client "77"
                     [fromS1APIUserScopeRoleObject zenithEntry;
                      fromS1APIUserScopeRoleObject adminEntry]) _ _)
    by answered.
  destruct (UpdateUserScopeRoles_outcome client "77" _ unchangedUser _ _ Ha)
    as [Hrun _].
  eexists. split; [exact Hrun|reflexivity].
Defined.

(** Two platform errors, two lines; the second has no detail. *)
Lemma exec_logs_every_error_run :
  logged (snd (exec client http_MethodGet "/accounts" [] twoErrors))
  = [ {| level := ErrorLevel; message := "Validation Error: name is taken" |};
      {| level := ErrorLevel; message := "Forbidden" |} ].
Proof.
  eassert (HE : @Execute runtime (execRequest client http_MethodGet "/accounts" [])
                  (remote twoErrors) = (ok _, _)) by (vm_compute; reflexivity).
  match type of HE with
  | _ = (ok ?resp, _) =>
      eassert (HU : @Unmarshal_S1APIResponse runtime (RespBody resp) = ok _)
        by (vm_compute; reflexivity)
  end.
  exact (exec_logs_every_error client http_MethodGet "/accounts" [] twoErrors
           _ _ _ HE ltac:(vm_compute; reflexivity) HU).
Defined.

(** The password of a new user. *)
Lemma CreateUser_password_run :
  exists passwd,
    issued (snd (CreateUser client (aliceRequest "Viewer") "1001" newUserNoAdmin))
    = [findUserRequest client "alice@acme.example";
       findRoleRequest client "1001" "Admin";
       createUserRequest client (aliceRequest "Viewer") "1001" passwd]
    /\ String.length passwd = 32%nat.
Proof.
  eassert (HF : FindUser client "alice@acme.example" newUserNoAdmin
                = (Returns None, _)) by (vm_compute; reflexivity).
  match type of HF with
  | _ = (_, ?w1) =>
      eassert (HR : FindRole client "1001" "Admin" w1 = (Returns _, _))
        by (vm_compute; reflexivity)
  end.
  destruct (CreateUser_password client (aliceRequest "Viewer") "1001" newUserNoAdmin
              _ _ _ HF HR) as (passwd & Hi & Hlen & _).
  exists passwd. split; [exact Hi|exact Hlen].
Defined.

(** A second run over a record that is provisioned. *)
Lemma provisionAccount_provisioned_record_run :
  fst (provisionAccount client acmeRecord false false provisioned) = Returns tt
  /\ issued (snd (provisionAccount client acmeRecord false false provisioned))
     = [findAccountRequest client "Acme";
        findUserRequest client "alice@acme.example";
        findRoleRequest client "1001" "Admin"]
  /\ issued (snd (provisionAccount client acmeRecord false true provisioned))
     = [findAccountRequest client "Acme";
        findUserRequest client "alice@acme.example";
        findRoleRequest client "1001" "Admin";
        resetPasswordRequest client "77"].
Proof.
  eassert (HFA : FindAccount client "Acme" provisioned = (Returns (Some _), _))
    by (vm_compute; reflexivity).
  match type of HFA with
  | _ = (_, ?w1) =>
      eassert (HC : configureExpiration (accountRequestOf acmeRecord false) w1
                    = (Returns _, _)) by (vm_compute; reflexivity)
  end.
  match type of HC with
  | _ = (_, ?w2) =>
      eassert (HFU : FindUser client "alice@acme.example" w2 = (Returns (Some _), _))
        by (vm_compute; reflexivity)
  end.
  match type of HFU with
  | _ = (_, ?w3) =>
      eassert (HFR : FindRole client "1001" "Admin" w3 = (Returns _, _))
        by (vm_compute; reflexivity)
  end.
  exact (provisionAccount_provisioned_record client acmeRecord false
           provisioned _ _ _ _ _ _ _ _ HFA eq_refl HC HFU eq_refl HFR).
Defined.

(** A CSV source with a separator of one byte. *)
Lemma provisionAccountCommandOptions_Load_ok_run :
  exists c',
    provisionAccountCommandOptions_Load oneFile
      (freshConfig ";" "accounts.csv" false false) = (None, c')
    /\ CSVSeparator (accountOptions c') = ";"
    /\ account_isLoaded (accountOptions c') = true.
Proof.
  eexists. split; [reflexivity|].
  destruct (provisionAccountCommandOptions_Load_ok oneFile
              (freshConfig ";" "accounts.csv" false false) _ eq_refl eq_refl)
    as (Hl & _ & _ & _ & _ & Hsrc & _).
  split; [|exact Hl].
  destruct Hsrc as (_ & Hsep & _); [discriminate|exact Hsep].
Defined.

(** Loaded once, loaded for good: a separator of two bytes is not looked
    at any more. *)
Lemma provisionAccountCommandOptions_Load_once_run :
  exists c',
    provisionAccountCommandOptions_Load oneFile
      (freshConfig ";" "accounts.csv" false false) = (None, c')
    /\ fst (provisionAccountCommandOptions_Load (fun _ => Some "gone")
              (withViper {| viper_CSVSeparator := "::";
                            viper_CSVSource := "other.csv";
                            viper_ReactivateExpiredAccount := false;
                            viper_ResetFirstUserPassword := true |}
                         {| viper_Short := true; viper_Verbose := true |} c'))
       = None.
Proof.
  eexists. split; [reflexivity|].
  rewrite (provisionAccountCommandOptions_Load_once oneFile
             (freshConfig ";" "accounts.csv" false false) _ eq_refl).
  reflexivity.
Defined.

(** A separator of two bytes. *)
Lemma provisionAccountCommandOptions_Load_fails_run :
  exists errx c',
    provisionAccountCommandOptions_Load oneFile
      (freshConfig "::" "accounts.csv" false false) = (Some errx, c')
    /\ cvf_setting errx = "csv_separator"
    /\ account_isLoaded (accountOptions c') = false.
Proof.
  destruct (provisionAccountCommandOptions_Load_fails oneFile
              (freshConfig "::" "accounts.csv" false false) eq_refl)
    as [_ Hfail].
  eexists. eexists. split; [reflexivity|].
  split; [reflexivity|].
  destruct (Hfail _ _ eq_refl) as (Hsame & _). rewrite Hsame. reflexivity.
Defined.

(** Both [short] and [verbose]. *)
Lemma versionCommandOptions_Load_exclusive_run :
  fst (versionCommandOptions_Load (freshConfig "," "" true true)) <> None.
Proof.
  apply (proj1 (versionCommandOptions_Load_exclusive
                  (freshConfig "," "" true true) eq_refl)).
  split; reflexivity.
Defined.

End MoreRuns.
